(** * Off-policy training loop with graph-based pseudo-labelling

    A shallow embedding of [stable_baselines3/common/off_policy_algorithm.py]
    ([OffPolicyAlgorithm]): the experience router [_store_transition], the
    rollout collector [collect_rollouts], the pseudo-labelling refresh cycle
    and the training gate of [learn].

    Conventions.
    - Numeric array entries (observation components, rewards) are exact
      integers [Z]; the properties below only use equality of rows, an ordering
      of rows (inside [np.unique]) and the cast [astype(int)].
    - The random draw [np.random.random()] and the probability [p] are
      rationals [Q]; the draw is an input of the model.
    - A Python exception is a value of [exn]; stateful code runs in a state
      and exception monad [M] that keeps the state reached when it raises. *)

From Stdlib Require Import String.
From Stdlib Require Import List ZArith QArith Bool Arith Lia.
From Stdlib Require Import Permutation Sorted.
Import ListNotations.

Set Implicit Arguments.

(** ** Exceptions and results *)

Inductive exn : Type :=
| IndexError
| KeyError
| ZeroDivisionError
| AttributeError
| ConfigurationError
| InsufficientDataError
| NoLabeledSeedError
| NumericalInstabilityError
| ValueError
| AssertionError
| EnvironmentError.

Inductive outcome (A : Type) : Type :=
| Ok (a : A)
| Raise (e : exn).

Arguments Ok {A} a.
Arguments Raise {A} e.

Definition obind {A B} (r : outcome A) (k : A -> outcome B) : outcome B :=
  match r with
  | Ok a => k a
  | Raise e => Raise e
  end.

Fixpoint omap {A B} (f : A -> outcome B) (l : list A) : outcome (list B) :=
  match l with
  | [] => Ok []
  | x :: l' =>
      obind (f x) (fun y => obind (omap f l') (fun ys => Ok (y :: ys)))
  end.

(** ** numpy primitives used by the refresh cycle *)

Module Np.

(** [np.arange(n)] *)
Definition arange (n : nat) : list nat := seq 0 n.

(** Insertion sort, standing for the library sort. *)
Fixpoint insert {A} (leb : A -> A -> bool) (x : A) (l : list A) : list A :=
  match l with
  | [] => [x]
  | y :: l' => if leb x y then x :: l else y :: insert leb x l'
  end.

Fixpoint sort_by {A} (leb : A -> A -> bool) (l : list A) : list A :=
  match l with
  | [] => []
  | x :: l' => insert leb x (sort_by leb l')
  end.

(** [np.sort] on an index array *)
Definition sort (l : list nat) : list nat := sort_by Nat.leb l.

(** [a[ind]] with an integer index array: every index must be in range *)
Definition take {A} (a : list A) (ind : list nat) : outcome (list A) :=
  omap (fun i => match nth_error a i with
                 | Some x => Ok x
                 | None => Raise IndexError
                 end) ind.

(** [np.delete(a, ind)]: the entries of [a] whose position is not in [ind];
    an index out of range raises. *)
Fixpoint delete_from {A} (k : nat) (a : list A) (ind : list nat) : list A :=
  match a with
  | [] => []
  | x :: a' =>
      if existsb (Nat.eqb k) ind then delete_from (S k) a' ind
      else x :: delete_from (S k) a' ind
  end.

Definition delete {A} (a : list A) (ind : list nat) : outcome (list A) :=
  if forallb (fun i => i <? length a) ind then Ok (delete_from 0 a ind)
  else Raise IndexError.

Section Unique.

Variable A : Type.
Variable eqb : A -> A -> bool.
(** the order in which [np.unique] sorts the rows *)
Variable leb : A -> A -> bool.

Fixpoint mem (x : A) (l : list A) : bool :=
  match l with
  | [] => false
  | y :: l' => eqb y x || mem x l'
  end.

(** position of the first row equal to [x] *)
Fixpoint first_index (x : A) (l : list A) : nat :=
  match l with
  | [] => 0
  | y :: l' => if eqb y x then 0 else S (first_index x l')
  end.

(** the distinct rows of [l] *)
Fixpoint distinct (seen l : list A) : list A :=
  match l with
  | [] => []
  | x :: l' =>
      if mem x seen then distinct seen l' else x :: distinct (x :: seen) l'
  end.

(** [np.unique(l, axis=0, return_index=True)]: the sorted distinct rows,
    and for each of them the index of its first occurrence in [l]. *)
Definition unique (l : list A) : list A * list nat :=
  let vals := sort_by leb (distinct [] l) in
  (vals, map (fun v => first_index v l) vals).

End Unique.

End Np.

(** ** Deduplication as the specification words it *)

Section DedupSpec.

Variable A : Type.
Variable eqb : A -> A -> bool.

(** Keep the first occurrence of every row, in the order of the input. *)
Fixpoint dedup_first (l : list A) : list A :=
  match l with
  | [] => []
  | x :: l' => x :: filter (fun y => negb (eqb x y)) (dedup_first l')
  end.

End DedupSpec.

(** ** Data model *)

(** A row of a two-dimensional array *)
Definition Row : Type := list Z.

Fixpoint row_eqb (r s : Row) : bool :=
  match r, s with
  | [], [] => true
  | x :: r', y :: s' => Z.eqb x y && row_eqb r' s'
  | _, _ => false
  end.

(** lexicographic order of rows *)
Fixpoint row_leb (r s : Row) : bool :=
  match r, s with
  | [], _ => true
  | _ :: _, [] => false
  | x :: r', y :: s' => Z.ltb x y || (Z.eqb x y && row_leb r' s')
  end.

(** One stored transition.  [action] is the class index of a discrete action
    (the index that the one-hot encoder receives). *)
Record Transition : Type := {
  observation : Row;
  next_observation : Row;
  action : nat;
  reward : Z;
  done : bool;
  timeout : bool
}.

(** Modelled from the spec: the experience store of [common/buffers.py]
    (class [ReplayBuffer], absent from the sources), section 4.1: a ring of
    [buffer_size] slots written at [pos]; [data] holds the valid slots
    [0 .. size-1] in slot order. *)
Module ReplayBuffer.

Record t : Type := {
  buffer_size : nat;
  pos : nat;
  full : bool;
  data : list Transition
}.

Definition empty (capacity : nat) : t :=
  {| buffer_size := capacity; pos := 0; full := false; data := [] |}.

Definition size (b : t) : nat :=
  if full b then buffer_size b else pos b.

Fixpoint write (i : nat) (x : Transition) (l : list Transition) :
  list Transition :=
  match l, i with
  | [], _ => [x]
  | _ :: l', O => x :: l'
  | y :: l', S i' => y :: write i' x l'
  end.

Definition add (b : t) (x : Transition) : t :=
  let data' := write (pos b) x (data b) in
  if S (pos b) =? buffer_size b
  then {| buffer_size := buffer_size b; pos := 0; full := true;
          data := data' |}
  else {| buffer_size := buffer_size b; pos := S (pos b); full := full b;
          data := data' |}.

Definition reset (b : t) : t := empty (buffer_size b).

Definition _get_samples (b : t) (batch_inds : list nat) :
  outcome (list Transition) :=
  Np.take (data b) batch_inds.

(** the reward field replaced by an inferred reward *)
Definition with_reward (x : Transition) (r : Z) : Transition :=
  {| observation := observation x;
     next_observation := next_observation x;
     action := action x;
     reward := r;
     done := done x;
     timeout := timeout x |}.

(** [extend] of a store in pseudo mode: the columns are zipped and every
    row is added with the inferred reward in its reward field. *)
Definition extend (b : t) (rows : list Transition) (pseudo_rewards : list Z) :
  t :=
  fold_left add
    (map (fun xr => with_reward (fst xr) (snd xr)) (combine rows pseudo_rewards))
    b.

End ReplayBuffer.

(** Modelled from the spec: [TrainFreq], [TrainFrequencyUnit] and
    [should_collect_more_steps] of [common/type_aliases.py] and
    [common/utils.py] (absent from the sources), section 4.6: collection
    steps the environment for a configured number of steps or of whole
    episodes. *)
Inductive TrainFrequencyUnit : Type := STEP | EPISODE.

Record TrainFreq : Type := {
  frequency : Z;
  unit : TrainFrequencyUnit
}.

Definition should_collect_more_steps (train_freq : TrainFreq)
  (num_collected_steps num_collected_episodes : Z) : bool :=
  match unit train_freq with
  | STEP => (num_collected_steps <? frequency train_freq)%Z
  | EPISODE => (num_collected_episodes <? frequency train_freq)%Z
  end.

(** The arguments of [OffPolicyAlgorithm.__init__] that the loop reads. *)
Record Config : Type := {
  buffer_size : nat;
  unlabeled_buffer_size : nat;
  ssl_buffer_size : nat;
  learning_starts : Z;
  batch_size : Z;
  ssl_batch_size : Z;
  train_freq : TrainFreq;
  gradient_steps : Z;
  p : Q;
  pseudo_mode : bool;
  ssl_freq : Z;
  method : string;
  num_envs : Z
}.

(** The trace of a run.  [Record_] is a call of [logger.record]; [Train] is a
    call of the optimisation sink [train], with the step count and the size
    of the labeled store at the call; [Rollout] and [Refresh] mark the return
    of [collect_rollouts] and the entry of the refresh branch, with the step
    count there. *)
Inductive event : Type :=
| Record_ (key : string) (value : Q)
| Rollout (at_timesteps : Z) (continue_training : bool)
| Refresh (at_timesteps : Z)
| Train (at_timesteps : Z) (labeled_size : nat)
        (gradient_steps batch_size ssl_batch_size : Z).

(** The mutable attributes of the algorithm object. *)
Record Algo : Type := {
  num_timesteps : Z;
  replay_buffer : ReplayBuffer.t;
  unlabeled_replay_buffer : option ReplayBuffer.t;
  ssl_replay_buffer : option ReplayBuffer.t;
  trace : list event
}.

Definition set_num_timesteps (n : Z) (s : Algo) : Algo :=
  {| num_timesteps := n;
     replay_buffer := replay_buffer s;
     unlabeled_replay_buffer := unlabeled_replay_buffer s;
     ssl_replay_buffer := ssl_replay_buffer s;
     trace := trace s |}.

Definition set_replay_buffer (b : ReplayBuffer.t) (s : Algo) : Algo :=
  {| num_timesteps := num_timesteps s;
     replay_buffer := b;
     unlabeled_replay_buffer := unlabeled_replay_buffer s;
     ssl_replay_buffer := ssl_replay_buffer s;
     trace := trace s |}.

Definition set_unlabeled_replay_buffer (b : ReplayBuffer.t) (s : Algo) : Algo :=
  {| num_timesteps := num_timesteps s;
     replay_buffer := replay_buffer s;
     unlabeled_replay_buffer := Some b;
     ssl_replay_buffer := ssl_replay_buffer s;
     trace := trace s |}.

Definition set_ssl_replay_buffer (b : ReplayBuffer.t) (s : Algo) : Algo :=
  {| num_timesteps := num_timesteps s;
     replay_buffer := replay_buffer s;
     unlabeled_replay_buffer := unlabeled_replay_buffer s;
     ssl_replay_buffer := Some b;
     trace := trace s |}.

Definition emit (ev : event) (s : Algo) : Algo :=
  {| num_timesteps := num_timesteps s;
     replay_buffer := replay_buffer s;
     unlabeled_replay_buffer := unlabeled_replay_buffer s;
     ssl_replay_buffer := ssl_replay_buffer s;
     trace := trace s ++ [ev] |}.

(** ** The state and exception monad *)

Definition M (A : Type) : Type := Algo -> Algo * outcome A.

Definition ret {A} (a : A) : M A := fun s => (s, Ok a).

Definition bind {A B} (m : M A) (k : A -> M B) : M B :=
  fun s =>
    match m s with
    | (s', Ok a) => k a s'
    | (s', Raise e) => (s', Raise e)
    end.

Definition raise {A} (e : exn) : M A := fun s => (s, Raise e).

Definition lift {A} (r : outcome A) : M A := fun s => (s, r).

Definition gets {A} (f : Algo -> A) : M A := fun s => (s, Ok (f s)).

Definition modify (f : Algo -> Algo) : M Datatypes.unit := fun s => (f s, Ok tt).

(** an attribute that holds [None] has none of the store's methods *)
Definition attr {A} (f : Algo -> option A) : M A :=
  fun s =>
    match f s with
    | Some a => (s, Ok a)
    | None => (s, Raise AttributeError)
    end.

Declare Scope monad_scope.
Delimit Scope monad_scope with monad.
Notation "x <- m ;; k" := (bind m (fun x => k))
  (at level 61, m at next level, right associativity) : monad_scope.
Notation "m ;;; k" := (bind m (fun _ => k))
  (at level 61, right associativity) : monad_scope.
Notation "' pat <- m ;; k" := (bind m (fun x => match x with pat => k end))
  (at level 61, pat pattern, m at next level, right associativity) : monad_scope.
Open Scope monad_scope.

Notation "x <~ r ;; k" := (obind r (fun x => k))
  (at level 61, r at next level, right associativity) : monad_scope.

(** ** The similarity graph and the inference engine *)

(** a weight matrix over the graph nodes *)
Definition Graph : Type := list (list Q).

(** The functions that [common/utils.py] (absent from the sources) supplies to
    the cycle: the weights of [construct_connected_W] on a non-empty node
    set, [rewards_to_labels] (the labels of the rewards and the dictionary
    [l2r] from labels back to rewards) and [infer_rewards_SSL]. *)
Record Backend : Type := {
  build_W : list Row -> Graph;
  rewards_to_labels : list Z -> list nat * list (nat * Z);
  infer_rewards_SSL :
    string -> Graph -> list nat -> list nat -> outcome (list nat)
}.

(** Modelled from the spec: [construct_connected_W] of [common/utils.py]
    (absent from the sources), section 4.3: the builder fails with
    [InsufficientDataError] when the final unique node set is empty. *)
Definition construct_connected_W (bk : Backend) (X : list Row) :
  outcome Graph :=
  match X with
  | [] => Raise InsufficientDataError
  | _ :: _ => Ok (build_W bk X)
  end.

(** ** The refresh cycle of [learn] (lines 400-514) *)

(** [np.max] of an array of labels; an empty array has no maximum. *)
Definition np_max (a : list nat) : outcome nat :=
  match a with
  | [] => Raise ValueError
  | x :: rest => Ok (fold_left Nat.max rest x)
  end.

(** one row of the one-hot array: [k] zeros with a one at position [a] *)
Definition onehot_row (k a : nat) : Row :=
  map (fun j => if j =? a then 1%Z else 0%Z) (seq 0 k).

(** [gl.utils.labels_to_onehot(labels, k)] of the graph library: one row per
    label, as wide as the largest label asks for and at least [k]. *)
Definition labels_to_onehot (labels : list nat) (k : nat) :
  outcome (list Row) :=
  largest <~ np_max labels ;;
  let k := Nat.max k (S largest) in
  Ok (map (onehot_row k) labels).

(** the rows of [k] entries that a flat array is cut into *)
Fixpoint chunks (fuel k : nat) (flat : Row) : list Row :=
  match fuel, flat with
  | S fuel', _ :: _ => firstn k flat :: chunks fuel' k (skipn k flat)
  | _, _ => []
  end.

(** [a.reshape(-1, k)] on a two-dimensional array *)
Definition reshape (a : list Row) (k : nat) : outcome (list Row) :=
  let flat := concat a in
  if (k =? 0) || negb (List.length flat mod k =? 0) then Raise ValueError
  else Ok (chunks (List.length flat) k flat).

(** [np.concatenate((a, b), axis=1)]: the arrays must have the same number
    of rows. *)
Definition concatenate_axis1 (a b : list Row) : outcome (list Row) :=
  if List.length a =? List.length b
  then Ok (map (fun xy => fst xy ++ snd xy) (combine a b))
  else Raise ValueError.

(** lines 421-425: the state-action rows of a snapshot *)
Definition state_action (replay_data : list Transition) : outcome (list Row) :=
  onehot <~ labels_to_onehot (map action replay_data) 4 ;;
  actions_1hot <~ reshape onehot 4 ;;
  concatenate_axis1 (map observation replay_data) actions_1hot.

(** order-preserving deduplication of rows *)
Abbreviation dedup := (dedup_first row_eqb).

(** the row that lines 421-425 build for one transition *)
Definition sa_row (x : Transition) : Row :=
  observation x ++ onehot_row 4 (action x).

(** lines 442-443, 447-448, 456-459: [np.unique(..., return_index=True)]
    followed by [np.sort] of the indices *)
Definition unique_ind (rows : list Row) : list nat :=
  Np.sort (snd (Np.unique row_eqb row_leb rows)).

(** lines 442-460: the ordered node sequence of the graph *)
Definition graph_nodes (unlabeled_state_action labeled_state_action : list Row) :
  outcome (list Row) :=
  let unique_unlabeled_ind := unique_ind unlabeled_state_action in
  unique_unlabeled_sa <~ Np.take unlabeled_state_action unique_unlabeled_ind ;;
  let unique_labeled_ind := unique_ind labeled_state_action in
  unique_labeled_sa <~ Np.take labeled_state_action unique_labeled_ind ;;
  let X_prime := unique_unlabeled_sa ++ unique_labeled_sa in
  let concatenated_unique_ind := unique_ind X_prime in
  Np.take X_prime concatenated_unique_ind.

Fixpoint lookup (l2r : list (nat * Z)) (l : nat) : outcome Z :=
  match l2r with
  | [] => Raise KeyError
  | (k, v) :: rest => if k =? l then Ok v else lookup rest l
  end.

Definition count_equal (a b : list Z) : nat :=
  List.length (filter (fun xy => Z.eqb (fst xy) (snd xy)) (combine a b)).

(** [f1_score(a, b, average='micro')] on single-label classes: the share of
    positions that agree. *)
Definition f1_score (a b : list Z) : outcome Q :=
  if List.length a =? List.length b
  then Ok (match a with
           | [] => 0
           | _ :: _ => inject_Z (Z.of_nat (count_equal a b))
                       / inject_Z (Z.of_nat (List.length a))
           end)
  else Raise ValueError.

(** The local variables of the cycle that later steps read. *)
Record Locals : Type := {
  unique_unlabeled_ind : list nat;
  unique_unlabeled_sa : list Row;
  unique_labeled_ind : list nat;
  unique_labeled_sa : list Row;
  X_prime_unique : list Row;
  train_labels : list nat;
  train_ind : list nat;
  true_rewards : list Z;
  pred_labels : list nat;
  pseudo_rewards : list Z;
  f1 : Q
}.

(** lines 421-488 *)
Definition cycle_locals (bk : Backend) (method : string)
  (labeled_replay_data unlabeled_replay_data : list Transition) :
  outcome Locals :=
  unlabeled_state_action <~ state_action unlabeled_replay_data ;;
  labeled_state_action <~ state_action labeled_replay_data ;;
  let labeled_rewards := map reward labeled_replay_data in
  let unlabeled_rewards := map reward unlabeled_replay_data in
  let unique_unlabeled_ind := unique_ind unlabeled_state_action in
  unique_unlabeled_sa <~ Np.take unlabeled_state_action unique_unlabeled_ind ;;
  unique_unlabeled_rewards <~ Np.take unlabeled_rewards unique_unlabeled_ind ;;
  let unique_labeled_ind := unique_ind labeled_state_action in
  unique_labeled_sa <~ Np.take labeled_state_action unique_labeled_ind ;;
  unique_labeled_rewards <~ Np.take labeled_rewards unique_labeled_ind ;;
  let X_prime := unique_unlabeled_sa ++ unique_labeled_sa in
  let concatenated_unique_ind := unique_ind X_prime in
  X_prime_unique <~ Np.take X_prime concatenated_unique_ind ;;
  W <~ construct_connected_W bk X_prime_unique ;;
  let '(train_labels, l2r) := rewards_to_labels bk unique_labeled_rewards in
  let train_ind := Np.arange (List.length unique_labeled_sa) in
  true_rewards <~ Np.take (unique_labeled_rewards ++ unique_unlabeled_rewards)
                          concatenated_unique_ind ;;
  pred_labels <~ infer_rewards_SSL bk method W train_labels train_ind ;;
  pseudo_rewards <~ omap (lookup l2r) pred_labels ;;
  pseudo_rest <~ Np.delete pseudo_rewards train_ind ;;
  true_rest <~ Np.delete true_rewards train_ind ;;
  f1 <~ f1_score pseudo_rest true_rest ;;
  Ok {| unique_unlabeled_ind := unique_unlabeled_ind;
        unique_unlabeled_sa := unique_unlabeled_sa;
        unique_labeled_ind := unique_labeled_ind;
        unique_labeled_sa := unique_labeled_sa;
        X_prime_unique := X_prime_unique;
        train_labels := train_labels;
        train_ind := train_ind;
        true_rewards := true_rewards;
        pred_labels := pred_labels;
        pseudo_rewards := pseudo_rewards;
        f1 := f1 |}.

Definition size_value (b : ReplayBuffer.t) : Q :=
  inject_Z (Z.of_nat (ReplayBuffer.size b)).

(** lines 400-514 *)
Definition refresh_cycle (bk : Backend) (cfg : Config) : M Datatypes.unit :=
  ssl <- attr ssl_replay_buffer ;;
  modify (set_ssl_replay_buffer (ReplayBuffer.reset ssl)) ;;;
  ub <- attr unlabeled_replay_buffer ;;
  let unlabeled_data_ind := Np.arange (ReplayBuffer.size ub) in
  lb <- gets replay_buffer ;;
  let labeled_data_ind := Np.arange (ReplayBuffer.size lb) in
  labeled_replay_data <- lift (ReplayBuffer._get_samples lb labeled_data_ind) ;;
  unlabeled_replay_data <-
    lift (ReplayBuffer._get_samples ub unlabeled_data_ind) ;;
  loc <- lift (cycle_locals bk (method cfg)
                 labeled_replay_data unlabeled_replay_data) ;;
  modify (emit (Record_ "ssl/f1_score" (f1 loc))) ;;;
  rows <- lift (Np.take unlabeled_replay_data (unique_unlabeled_ind loc)) ;;
  rest <- lift (Np.delete (pseudo_rewards loc) (train_ind loc)) ;;
  ssl <- attr ssl_replay_buffer ;;
  modify (set_ssl_replay_buffer (ReplayBuffer.extend ssl rows rest)) ;;;
  ssl <- attr ssl_replay_buffer ;;
  modify (emit (Record_ "buffer/num_ssl_rewards" (size_value ssl))).

(** ** Routing and rollout collection *)

(** [u < p] on the rationals *)
Definition Qltb (u p : Q) : bool := negb (Qle_bool p u).

(** What one environment step hands to the loop: the transition to store,
    the [dones] flags of the parallel environments, the answer of
    [callback.on_step()] and the value of [np.random.random()]. *)
Record EnvStep : Type := {
  transition : Transition;
  dones : list bool;
  on_step : bool;
  random_draw : Q
}.

(** lines 673-693 of [_store_transition] *)
Definition _store_transition (cfg : Config) (random : Q) (x : Transition) :
  M Datatypes.unit :=
  if Qltb random (p cfg) then
    true_replay_buffer <- gets replay_buffer ;;
    modify (set_replay_buffer (ReplayBuffer.add true_replay_buffer x))
  else
    unlabeled_replay_buffer <- gets unlabeled_replay_buffer ;;
    match unlabeled_replay_buffer with
    | Some b => modify (set_unlabeled_replay_buffer (ReplayBuffer.add b x))
    | None => ret tt
    end.

Record RolloutReturn : Type := {
  episode_timesteps : Z;
  n_episodes : Z;
  continue_training : bool
}.

Definition count_done (dones : list bool) : Z :=
  Z.of_nat (List.length (filter (fun d => d) dones)).

(** the [while] loop of [collect_rollouts] (lines 747-799); the environment
    is the list of its coming steps and raises once the list is used up. *)
Fixpoint collect_loop (cfg : Config) (env : list EnvStep)
  (num_collected_steps num_collected_episodes : Z) {struct env} :
  M (RolloutReturn * list EnvStep) :=
  if should_collect_more_steps (train_freq cfg)
       num_collected_steps num_collected_episodes
  then
    match env with
    | [] => raise EnvironmentError
    | step :: env' =>
        modify (fun s =>
                  set_num_timesteps (num_timesteps s + num_envs cfg) s) ;;;
        let num_collected_steps := (num_collected_steps + 1)%Z in
        if negb (on_step step) then
          ret ({| episode_timesteps := num_collected_steps * num_envs cfg;
                  n_episodes := num_collected_episodes;
                  continue_training := false |}, env')
        else
          _store_transition cfg (random_draw step) (transition step) ;;;
          lb <- gets replay_buffer ;;
          modify (emit (Record_ "buffer/num_labeled_rewards" (size_value lb))) ;;;
          (if pseudo_mode cfg && Qltb (p cfg) 1 then
             ub <- attr unlabeled_replay_buffer ;;
             modify (emit (Record_ "buffer/num_unlabeled_rewards"
                             (size_value ub)))
           else ret tt) ;;;
          collect_loop cfg env' num_collected_steps
            (num_collected_episodes + count_done (dones step))%Z
    end
  else
    ret ({| episode_timesteps := num_collected_steps * num_envs cfg;
            n_episodes := num_collected_episodes;
            continue_training := true |}, env).

(** [collect_rollouts] (lines 700-802) *)
Definition collect_rollouts (cfg : Config) (env : list EnvStep) :
  M (RolloutReturn * list EnvStep) :=
  if negb (frequency (train_freq cfg) >? 0)%Z then raise AssertionError
  else if (num_envs cfg >? 1)%Z
          && match unit (train_freq cfg) with STEP => false | EPISODE => true end
  then raise AssertionError
  else collect_loop cfg env 0 0.

(** ** The loop of [learn] (lines 378-525) *)

(** [a % b] of Python integers *)
Definition py_mod (a b : Z) : outcome Z :=
  if (b =? 0)%Z then Raise ZeroDivisionError else Ok (a mod b)%Z.

(** line 399: the condition of the refresh branch, evaluated left to right *)
Definition refresh_due (cfg : Config) : M bool :=
  if pseudo_mode cfg then
    n <- gets num_timesteps ;;
    r <- lift (py_mod n (ssl_freq cfg)) ;;
    if (r =? 0)%Z then ret (n >? learning_starts cfg / 2)%Z else ret false
  else ret false.

(** The optimisation sink [train].  In this class the method is abstract
    (line 536 raises [NotImplementedError]); the algorithm that runs
    overrides it.  The call is noted with its arguments and is taken to
    return. *)
Definition train (gradient_steps batch_size ssl_batch_size : Z) :
  M Datatypes.unit :=
  modify (fun s =>
            emit (Train (num_timesteps s)
                        (ReplayBuffer.size (replay_buffer s))
                        gradient_steps batch_size ssl_batch_size) s).

(** lines 518-525 *)
Definition training_gate (cfg : Config) (rollout : RolloutReturn) :
  M Datatypes.unit :=
  n <- gets num_timesteps ;;
  if (n >? 0)%Z && (n >? learning_starts cfg)%Z then
    let gradient_steps :=
      if (gradient_steps cfg >=? 0)%Z then gradient_steps cfg
      else episode_timesteps rollout in
    if (gradient_steps >? 0)%Z
    then train gradient_steps (batch_size cfg) (ssl_batch_size cfg)
    else ret tt
  else ret tt.

(** lines 399-525: what follows a rollout that did not stop the training *)
Definition after_rollout (bk : Backend) (cfg : Config)
  (rollout : RolloutReturn) : M Datatypes.unit :=
  due <- refresh_due cfg ;;
  (if due then
     n <- gets num_timesteps ;;
     modify (emit (Refresh n)) ;;;
     refresh_cycle bk cfg
   else ret tt) ;;;
  training_gate cfg rollout.

(** One pass of the [while] body (lines 385-525); the answer says whether
    the loop goes on (no [break]). *)
Definition learn_body (bk : Backend) (cfg : Config) (env : list EnvStep) :
  M (bool * list EnvStep) :=
  ' (rollout, env') <- collect_rollouts cfg env ;;
  n <- gets num_timesteps ;;
  modify (emit (Rollout n (continue_training rollout))) ;;;
  if negb (continue_training rollout) then ret (false, env')
  else
    after_rollout bk cfg rollout ;;;
    ret (true, env').

(** The [while] loop; a pass that goes on has used up at least one step of
    the environment, so [fuel] above the length of [env] is never used up. *)
Fixpoint learn_loop (fuel : nat) (bk : Backend) (cfg : Config)
  (total_timesteps : Z) (env : list EnvStep) : M Datatypes.unit :=
  match fuel with
  | O => raise EnvironmentError
  | S fuel' =>
      n <- gets num_timesteps ;;
      if (n <? total_timesteps)%Z then
        ' (go_on, env') <- learn_body bk cfg env ;;
        if go_on then learn_loop fuel' bk cfg total_timesteps env'
        else ret tt
      else ret tt
  end.

Definition learn (bk : Backend) (cfg : Config) (total_timesteps : Z)
  (env : list EnvStep) : M Datatypes.unit :=
  learn_loop (S (List.length env)) bk cfg total_timesteps env.

(** ** Construction and setup *)

(** [__init__] (lines 83-169): the arguments are stored as they are. *)
Definition init (buffer_size unlabeled_buffer_size ssl_buffer_size : nat)
  (learning_starts batch_size ssl_batch_size : Z) (train_freq : TrainFreq)
  (gradient_steps : Z) (p : Q) (pseudo_mode : bool) (ssl_freq : Z)
  (method : string) (num_envs : Z) : outcome Config :=
  Ok {| buffer_size := buffer_size;
        unlabeled_buffer_size := unlabeled_buffer_size;
        ssl_buffer_size := ssl_buffer_size;
        learning_starts := learning_starts;
        batch_size := batch_size;
        ssl_batch_size := ssl_batch_size;
        train_freq := train_freq;
        gradient_steps := gradient_steps;
        p := p;
        pseudo_mode := pseudo_mode;
        ssl_freq := ssl_freq;
        method := method;
        num_envs := num_envs |}.

(** [_setup_model] (lines 195-258): the stores *)
Definition _setup_model (cfg : Config) : outcome Algo :=
  Ok {| num_timesteps := 0;
        replay_buffer := ReplayBuffer.empty (buffer_size cfg);
        unlabeled_replay_buffer :=
          if pseudo_mode cfg
          then Some (ReplayBuffer.empty (unlabeled_buffer_size cfg))
          else None;
        ssl_replay_buffer :=
          if pseudo_mode cfg
          then Some (ReplayBuffer.empty (ssl_buffer_size cfg))
          else None;
        trace := [] |}.

(** ** A reference backend *)

(** Modelled from the spec: [rewards_to_labels] and [infer_rewards_SSL] of
    [common/utils.py] (absent from the sources).  Section 3: the reward-label
    mapping is a bijection between the observed (integer) rewards and class
    labels, built from the labeled rewards of the cycle.  Section 4.4: the
    engine returns one label per node and reproduces the seeds; no seed gives
    [NoLabeledSeedError], an unknown method [ConfigurationError].  Section
    4.3: the weights are symmetric, nonnegative, with a zero diagonal.  The
    propagation used here gives a node the label of the seed it is most
    strongly tied to. *)
Module SpecBackend.

Fixpoint sqdist (r s : Row) : Z :=
  match r, s with
  | x :: r', y :: s' => ((x - y) * (x - y) + sqdist r' s')%Z
  | _, _ => 0%Z
  end.

Definition weight (r s : Row) : Q := 1 / inject_Z (1 + sqdist r s).

Definition enumerate {A} (l : list A) : list (nat * A) :=
  combine (seq 0 (List.length l)) l.

Definition build_W (X : list Row) : Graph :=
  map (fun ir =>
         map (fun js => if fst ir =? fst js then 0
                        else weight (snd ir) (snd js)) (enumerate X))
      (enumerate X).

Definition rewards_to_labels (rewards : list Z) : list nat * list (nat * Z) :=
  let alphabet := Np.sort_by Z.leb (Np.distinct Z.eqb [] rewards) in
  (map (fun r => Np.first_index Z.eqb r alphabet) rewards,
   enumerate alphabet).

Fixpoint seed_label (i : nat) (train_ind train_labels : list nat) :
  option nat :=
  match train_ind, train_labels with
  | k :: ks, l :: ls => if k =? i then Some l else seed_label i ks ls
  | _, _ => None
  end.

(** the label of the seed with the largest weight in the row [w] *)
Fixpoint strongest (w : list Q) (train_ind train_labels : list nat)
  (best : Q) (label : nat) : nat :=
  match train_ind, train_labels with
  | k :: ks, l :: ls =>
      let wk := nth k w 0 in
      if Qle_bool wk best then strongest w ks ls best label
      else strongest w ks ls wk l
  | _, _ => label
  end.

Definition infer_rewards_SSL (method : string) (W : Graph)
  (train_labels train_ind : list nat) : outcome (list nat) :=
  if negb (String.eqb method "Laplace") then Raise ConfigurationError
  else
    match train_ind with
    | [] => Raise NoLabeledSeedError
    | _ :: _ =>
        Ok (map (fun iw =>
                   match seed_label (fst iw) train_ind train_labels with
                   | Some l => l
                   | None =>
                       strongest (snd iw) train_ind train_labels
                                 (-(1)) (hd 0%nat train_labels)
                   end) (enumerate W))
    end.

Definition backend : Backend :=
  Build_Backend build_W rewards_to_labels infer_rewards_SSL.

End SpecBackend.

(** ** Sample inputs *)

Module Sample.

Definition tr (obs : Z) (a : nat) (r : Z) : Transition :=
  {| observation := [obs]; next_observation := [obs + 1]%Z;
     action := a; reward := r; done := false; timeout := false |}.

Definition store (capacity : nat) (l : list Transition) : ReplayBuffer.t :=
  fold_left ReplayBuffer.add l (ReplayBuffer.empty capacity).

Definition cfg (p : Q) (learning_starts ssl_freq : Z) : Config :=
  {| buffer_size := 8;
     unlabeled_buffer_size := 8;
     ssl_buffer_size := 8;
     learning_starts := learning_starts;
     batch_size := 256;
     ssl_batch_size := 512;
     train_freq := {| frequency := 1; unit := STEP |};
     gradient_steps := 1;
     p := p;
     pseudo_mode := true;
     ssl_freq := ssl_freq;
     method := "Laplace";
     num_envs := 1 |}.

Definition algo (n : Z) (labeled unlabeled : list Transition) : Algo :=
  {| num_timesteps := n;
     replay_buffer := store 8 labeled;
     unlabeled_replay_buffer := Some (store 8 unlabeled);
     ssl_replay_buffer := Some (ReplayBuffer.empty 8);
     trace := [] |}.

Definition step (x : Transition) (u : Q) : EnvStep :=
  {| transition := x; dones := [false]; on_step := true; random_draw := u |}.

(** one labeled and one unlabeled transition with different rows *)
Definition labeled1 : list Transition := [tr 1 0 1].
Definition unlabeled1 : list Transition := [tr 0 0 0].

(** two labeled and two unlabeled transitions; each labeled row lies next to
    the unlabeled row at the other position *)
Definition labeled2 : list Transition := [tr 11 0 0; tr 1 0 1].
Definition unlabeled2 : list Transition := [tr 0 0 0; tr 10 0 1].

(** two environment steps, both drawing [1/2] *)
Definition env2 : list EnvStep :=
  [step (tr 0 0 0) (1 # 2); step (tr 1 0 0) (1 # 2)].

(** the state that [_setup_model] builds for [cfg] *)
Definition start : Algo := algo 0 [] [].

End Sample.

(** ** The router in the words of the specification *)

Inductive target : Type := LabeledStore | UnlabeledStore | Discarded.

(** Section 4.2: with the draw [u], the target is the labeled store if
    [u < p], else the unlabeled store, or nothing when no unlabeled store is
    configured. *)
Definition route (u p : Q) (unlabeled_configured : bool) : target :=
  if Qltb u p then LabeledStore
  else if unlabeled_configured then UnlabeledStore
  else Discarded.

Definition configured (b : option ReplayBuffer.t) : bool :=
  match b with Some _ => true | None => false end.

(** [received_by x s s' tgt]: from [s] to [s'] the transition [x] was added to
    the store [tgt] and to no other. *)
Definition received_by (x : Transition) (s s' : Algo) (tgt : target) : Prop :=
  match tgt with
  | LabeledStore =>
      replay_buffer s' = ReplayBuffer.add (replay_buffer s) x
      /\ unlabeled_replay_buffer s' = unlabeled_replay_buffer s
  | UnlabeledStore =>
      replay_buffer s' = replay_buffer s
      /\ exists b, unlabeled_replay_buffer s = Some b
                   /\ unlabeled_replay_buffer s' = Some (ReplayBuffer.add b x)
  | Discarded =>
      replay_buffer s' = replay_buffer s
      /\ unlabeled_replay_buffer s' = unlabeled_replay_buffer s
  end.

(** ** The refresh condition in words *)

(** the step count [n] is exactly divisible by [ssl_freq] and above half of
    [learning_starts], with pseudo mode enabled *)
Definition refresh_condition (cfg : Config) (n : Z) : Prop :=
  pseudo_mode cfg = true
  /\ ssl_freq cfg <> 0%Z
  /\ (n mod ssl_freq cfg = 0)%Z
  /\ (n > learning_starts cfg / 2)%Z.

Definition is_record (ev : event) : Prop :=
  match ev with Record_ _ _ => True | _ => False end.

(** ** Traces of a run *)

(** [well_traced cfg n0 evs]: in the events [evs] of a run that starts at the
    step count [n0], a refresh is marked exactly at the rollout boundaries
    that went on and meet the refresh condition; every boundary count is [n0]
    plus a multiple of [num_envs]; every call of the optimisation sink is at
    a positive step count above [learning_starts], with a positive number of
    gradient steps, at a boundary. *)
Definition well_traced (cfg : Config) (n0 : Z) (evs : list event) : Prop :=
  (forall m, In (Refresh m) evs
             <-> In (Rollout m true) evs /\ refresh_condition cfg m)
  /\ (forall m c, In (Rollout m c) evs ->
                  exists k : nat, m = (n0 + Z.of_nat k * num_envs cfg)%Z)
  /\ (forall n sz g b sb, In (Train n sz g b sb) evs ->
         (n > 0)%Z /\ (n > learning_starts cfg)%Z /\ (g > 0)%Z
         /\ In (Rollout n true) evs).

(** the events that follow a rollout boundary at the step count [n] *)
Definition after_events (cfg : Config) (n : Z) (mid trains : list event) :
  Prop :=
  ((refresh_condition cfg n
    /\ exists recs, mid = Refresh n :: recs /\ Forall is_record recs)
   \/ (~ refresh_condition cfg n /\ mid = []))
  /\ (trains = []
      \/ exists sz g b sb,
          trains = [Train n sz g b sb]
          /\ (n > 0)%Z /\ (n > learning_starts cfg)%Z /\ (g > 0)%Z).

(** ** Configuration errors in the words of the specification *)

(** Section 7: an unsupported SSL method, a cadence that is not positive, or
    a probability outside [0, 1]. *)
Definition configuration_error (supported : string -> bool) (p : Q)
  (ssl_freq : Z) (method : string) : Prop :=
  supported method = false
  \/ (ssl_freq <= 0)%Z
  \/ ~ (0 <= p /\ p <= 1).

(** ** Rollouts with the episode bookkeeping and the logs *)

(** What [_dump_logs] reads from the statistics buffers, the clock and the
    actor at one call: the episode means (when the info buffer holds any),
    the frames per second, the elapsed time, the exploration spread (with
    gSDE) and the success rate (when known). *)
Record Telemetry : Type := {
  ep_means : option (Q * Q);
  fps : Q;
  time_elapsed : Q;
  train_std : option Q;
  success_rate : option Q
}.

Definition record_ (key : string) (value : Q) : M Datatypes.unit :=
  modify (emit (Record_ key value)).

(** [_dump_logs] (lines 588-611); the final [logger.dump(step)] is noted as
    a record under the key [logger.dump].  The two buffers asserted at its
    head are set by the base class before the loop and are taken to be
    there; what is read from them and from the clock is in [tel]. *)
Definition _dump_logs (tel : Telemetry) (_episode_num : Z) : M Datatypes.unit :=
  record_ "time/episodes" (inject_Z _episode_num) ;;;
  (match ep_means tel with
   | Some (r, l) =>
       record_ "rollout/ep_rew_mean" r ;;; record_ "rollout/ep_len_mean" l
   | None => ret tt
   end) ;;;
  record_ "time/fps" (fps tel) ;;;
  ssl <- attr ssl_replay_buffer ;;
  lb <- gets replay_buffer ;;
  record_ "buffer/available_rewards"
    (inject_Z (Z.of_nat (ReplayBuffer.size ssl + ReplayBuffer.size lb))) ;;;
  record_ "time/time_elapsed" (time_elapsed tel) ;;;
  n <- gets num_timesteps ;;
  record_ "time/total_timesteps" (inject_Z n) ;;;
  (match train_std tel with
   | Some v => record_ "train/std" v
   | None => ret tt
   end) ;;;
  (match success_rate tel with
   | Some v => record_ "rollout/success_rate" v
   | None => ret tt
   end) ;;;
  record_ "logger.dump" (inject_Z n).

(** lines 787-799: the loop over [dones] at the end of a step; it returns
    the new [num_collected_episodes] and [_episode_num].  [clock] gives what
    a dump at a given episode number reads. *)
Fixpoint episode_ends (log_interval : option Z) (clock : Z -> Telemetry)
  (dones : list bool) (num_collected_episodes _episode_num : Z) :
  M (Z * Z) :=
  match dones with
  | [] => ret (num_collected_episodes, _episode_num)
  | d :: rest =>
      if d then
        let num_collected_episodes := (num_collected_episodes + 1)%Z in
        let _episode_num := (_episode_num + 1)%Z in
        (match log_interval with
         | Some interval =>
             r <- lift (py_mod _episode_num interval) ;;
             if (r =? 0)%Z then _dump_logs (clock _episode_num) _episode_num
             else ret tt
         | None => ret tt
         end) ;;;
        episode_ends log_interval clock rest num_collected_episodes
                     _episode_num
      else
        episode_ends log_interval clock rest num_collected_episodes
                     _episode_num
  end.

(** the [while] loop of [collect_rollouts] (lines 747-799) with the loop
    over [dones]; the answer carries the new [_episode_num].  A step of the
    environment stands for [_sample_action], [env.step] and the observation
    bookkeeping at the head of [_store_transition] (lines 646-671, see
    [terminal_observations]), which are taken to return: what they may raise
    is not in this loop. *)
Fixpoint collect_loop_logged (cfg : Config) (log_interval : option Z)
  (clock : Z -> Telemetry) (env : list EnvStep)
  (num_collected_steps num_collected_episodes _episode_num : Z) {struct env} :
  M (RolloutReturn * list EnvStep * Z) :=
  if should_collect_more_steps (train_freq cfg)
       num_collected_steps num_collected_episodes
  then
    match env with
    | [] => raise EnvironmentError
    | step :: env' =>
        modify (fun s =>
                  set_num_timesteps (num_timesteps s + num_envs cfg) s) ;;;
        let num_collected_steps := (num_collected_steps + 1)%Z in
        if negb (on_step step) then
          ret ({| episode_timesteps := num_collected_steps * num_envs cfg;
                  n_episodes := num_collected_episodes;
                  continue_training := false |}, env', _episode_num)
        else
          _store_transition cfg (random_draw step) (transition step) ;;;
          lb <- gets replay_buffer ;;
          record_ "buffer/num_labeled_rewards" (size_value lb) ;;;
          (if pseudo_mode cfg && Qltb (p cfg) 1 then
             ub <- attr unlabeled_replay_buffer ;;
             record_ "buffer/num_unlabeled_rewards" (size_value ub)
           else ret tt) ;;;
          ' (episodes, number) <-
            episode_ends log_interval clock (dones step)
                         num_collected_episodes _episode_num ;;
          collect_loop_logged cfg log_interval clock env'
            num_collected_steps episodes number
    end
  else
    ret ({| episode_timesteps := num_collected_steps * num_envs cfg;
            n_episodes := num_collected_episodes;
            continue_training := true |}, env, _episode_num).

(** [collect_rollouts] (lines 700-802) in full *)
Definition collect_rollouts_logged (cfg : Config) (log_interval : option Z)
  (clock : Z -> Telemetry) (env : list EnvStep) (_episode_num : Z) :
  M (RolloutReturn * list EnvStep * Z) :=
  if negb (frequency (train_freq cfg) >? 0)%Z then raise AssertionError
  else if (num_envs cfg >? 1)%Z
          && match unit (train_freq cfg) with STEP => false | EPISODE => true end
  then raise AssertionError
  else collect_loop_logged cfg log_interval clock env 0 0 _episode_num.

(** One pass of the [while] body of [learn] (lines 385-525) over the full
    rollout. *)
Definition learn_body_logged (bk : Backend) (cfg : Config)
  (log_interval : option Z) (clock : Z -> Telemetry) (env : list EnvStep)
  (_episode_num : Z) : M (bool * list EnvStep * Z) :=
  ' (rollout, env', number) <-
    collect_rollouts_logged cfg log_interval clock env _episode_num ;;
  n <- gets num_timesteps ;;
  modify (emit (Rollout n (continue_training rollout))) ;;;
  if negb (continue_training rollout) then ret (false, env', number)
  else
    after_rollout bk cfg rollout ;;;
    ret (true, env', number).

Fixpoint learn_loop_logged (fuel : nat) (bk : Backend) (cfg : Config)
  (log_interval : option Z) (clock : Z -> Telemetry) (total_timesteps : Z)
  (env : list EnvStep) (_episode_num : Z) : M Datatypes.unit :=
  match fuel with
  | O => raise EnvironmentError
  | S fuel' =>
      n <- gets num_timesteps ;;
      if (n <? total_timesteps)%Z then
        ' (go_on, env', number) <-
          learn_body_logged bk cfg log_interval clock env _episode_num ;;
        if go_on
        then learn_loop_logged fuel' bk cfg log_interval clock
               total_timesteps env' number
        else ret tt
      else ret tt
  end.

(** [learn] (lines 355-529) over the full rollout *)
Definition learn_logged (bk : Backend) (cfg : Config)
  (log_interval : option Z) (clock : Z -> Telemetry) (total_timesteps : Z)
  (env : list EnvStep) (_episode_num : Z) : M Datatypes.unit :=
  learn_loop_logged (S (List.length env)) bk cfg log_interval clock
    total_timesteps env _episode_num.

(** ** The stores after a rollout, as a function of the steps *)

(** the two stores after the transition went to [tgt] *)
Definition deliver (tgt : target) (x : Transition)
  (stores : ReplayBuffer.t * option ReplayBuffer.t) :
  ReplayBuffer.t * option ReplayBuffer.t :=
  match tgt with
  | LabeledStore => (ReplayBuffer.add (fst stores) x, snd stores)
  | UnlabeledStore =>
      (fst stores, option_map (fun b => ReplayBuffer.add b x) (snd stores))
  | Discarded => stores
  end.

Definition store_step (cfg : Config)
  (stores : ReplayBuffer.t * option ReplayBuffer.t) (step : EnvStep) :
  ReplayBuffer.t * option ReplayBuffer.t :=
  deliver (route (random_draw step) (p cfg) (configured (snd stores)))
          (transition step) stores.

Definition stores_of (s : Algo) : ReplayBuffer.t * option ReplayBuffer.t :=
  (replay_buffer s, unlabeled_replay_buffer s).

(** the episodes that end in the given steps *)
Definition episodes_ended (steps : list EnvStep) : Z :=
  fold_right (fun step acc => (count_done (dones step) + acc)%Z) 0%Z steps.

(** [same_but_trace s s']: from [s] to [s'] only telemetry records were
    added to the trace. *)
Definition same_but_trace (s s' : Algo) : Prop :=
  num_timesteps s' = num_timesteps s
  /\ replay_buffer s' = replay_buffer s
  /\ unlabeled_replay_buffer s' = unlabeled_replay_buffer s
  /\ ssl_replay_buffer s' = ssl_replay_buffer s
  /\ exists evs, trace s' = trace s ++ evs /\ Forall is_record evs.

(** [no_new_dump s s']: every log dump in the trace of [s'] was already in
    the trace of [s]. *)
Definition no_new_dump (s s' : Algo) : Prop :=
  forall v, In (Record_ "logger.dump" v) (trace s') ->
            In (Record_ "logger.dump" v) (trace s).

(** A monadic step that only records *)
Definition records_only {A} (m : M A) : Prop :=
  forall s s' r, m s = (s', r) -> same_but_trace s s'.

(** ** The shape of a run *)

(** the number of gradient steps asked of the sink after a rollout that
    advanced the step count by [advance] *)
Definition steps_asked (cfg : Config) (advance : Z) : Z :=
  if (gradient_steps cfg >=? 0)%Z then gradient_steps cfg else advance.

(** the step count at the last rollout boundary among [evs], or [start]
    when there is none *)
Definition last_boundary (start : Z) (evs : list event) : Z :=
  fold_left (fun n ev => match ev with Rollout m _ => m | _ => n end)
            evs start.

(** an event of a refresh cycle: its mark or a telemetry record *)
Definition is_cycle_event (ev : event) : Prop :=
  match ev with
  | Refresh _ | Record_ _ _ => True
  | _ => False
  end.

(** [pass_events cfg n0 n1 go_on evs]: [evs] are the events of one pass of
    the loop that takes the step count from [n0] to [n1]: telemetry of the
    rollout, the boundary mark, then (if the loop goes on) the refresh mark
    with the telemetry of the cycle when the refresh is due, and last the
    call of the sink, if any. *)
Definition pass_events (cfg : Config) (n0 n1 : Z) (go_on : bool)
  (evs : list event) : Prop :=
  exists recs mid trains (k : nat),
    evs = recs ++ Rollout n1 go_on :: mid ++ trains
    /\ Forall is_record recs
    /\ (0 < k)%nat
    /\ n1 = (n0 + Z.of_nat k * num_envs cfg)%Z
    /\ (go_on = false -> mid = [] /\ trains = [])
    /\ ((refresh_condition cfg n1
         /\ exists recs2, mid = Refresh n1 :: recs2 /\ Forall is_record recs2)
        \/ mid = [])
    /\ (trains = []
        \/ exists sz,
            trains = [Train n1 sz (steps_asked cfg (n1 - n0))
                            (batch_size cfg) (ssl_batch_size cfg)]
            /\ (n1 > 0)%Z /\ (n1 > learning_starts cfg)%Z
            /\ (steps_asked cfg (n1 - n0) > 0)%Z).

(** [run_events cfg n0 evs n1]: [evs] is a sequence of passes from the step
    count [n0] to [n1]; only the last one may be a pass that stops. *)
Inductive run_events (cfg : Config) : Z -> list event -> Z -> Prop :=
| run_nil (n : Z) : run_events cfg n [] n
| run_stop (n0 n1 : Z) (evs : list event) :
    pass_events cfg n0 n1 false evs -> run_events cfg n0 evs n1
| run_more (n0 n1 n2 : Z) (evs rest : list event) :
    pass_events cfg n0 n1 true evs ->
    run_events cfg n1 rest n2 ->
    run_events cfg n0 (evs ++ rest) n2.

(** ** First occurrences by a key *)

Section DedupOn.

Variable A B : Type.
Variable eqb : B -> B -> bool.
Variable key : A -> B.

(** Keep the elements whose key occurs for the first time, in order. *)
Fixpoint dedup_on (l : list A) : list A :=
  match l with
  | [] => []
  | x :: l' => x :: filter (fun y => negb (eqb (key x) (key y))) (dedup_on l')
  end.

End DedupOn.

(** ** Further sample inputs *)

Module Sample2.

Import Sample.

(** what a dump reads, the same at every episode number *)
Definition tel0 : Telemetry :=
  {| ep_means := None; fps := 30; time_elapsed := 1;
     train_std := None; success_rate := None |}.

Definition clock0 (_ : Z) : Telemetry := tel0.

(** a step that ends an episode and a step on which the callback stops *)
Definition last_step (x : Transition) (u : Q) : EnvStep :=
  {| transition := x; dones := [true]; on_step := true; random_draw := u |}.

Definition stop_step (x : Transition) (u : Q) : EnvStep :=
  {| transition := x; dones := [false]; on_step := false; random_draw := u |}.

(** the state of an algorithm built with pseudo mode off *)
Definition plain (n : Z) : Algo :=
  {| num_timesteps := n;
     replay_buffer := ReplayBuffer.empty 8;
     unlabeled_replay_buffer := None;
     ssl_replay_buffer := None;
     trace := [] |}.

Definition plain_cfg (learning_starts gradient_steps : Z) : Config :=
  {| buffer_size := 8;
     unlabeled_buffer_size := 8;
     ssl_buffer_size := 8;
     learning_starts := learning_starts;
     batch_size := 256;
     ssl_batch_size := 512;
     train_freq := {| frequency := 1; unit := STEP |};
     gradient_steps := gradient_steps;
     p := 1;
     pseudo_mode := false;
     ssl_freq := 100;
     method := "Laplace";
     num_envs := 1 |}.

(** the state at the first rollout boundary of a run with [p = 1]: one
    labeled transition and no unlabeled one *)
Definition labeled_only : Algo :=
  emit (Rollout 1 true)
       (fst (collect_rollouts (cfg 1 0 1) [step (tr 0 0 1) (1 # 2)] start)).

(** [plain_cfg] with another number of steps per rollout *)
Definition every (frequency : Z) : Config :=
  {| buffer_size := 8;
     unlabeled_buffer_size := 8;
     ssl_buffer_size := 8;
     learning_starts := 0;
     batch_size := 256;
     ssl_batch_size := 512;
     train_freq := {| frequency := frequency; unit := STEP |};
     gradient_steps := 1;
     p := 1;
     pseudo_mode := false;
     ssl_freq := 100;
     method := "Laplace";
     num_envs := 1 |}.

(** two steps, the second of which stops the collection; two steps, the
    second of which ends an episode *)
Definition env_stop : list EnvStep :=
  [step (tr 1 0 0) (1 # 2); stop_step (tr 1 0 0) (1 # 2)].

Definition env_done : list EnvStep :=
  [step (tr 1 0 0) (1 # 2); last_step (tr 1 0 0) (1 # 2)].

End Sample2.

(** ** [_convert_train_freq] (lines 171-193) *)

(** The values that can be given as [train_freq] or sit in its tuple.  A
    [bool] is an [int] for [isinstance]. *)
Inductive PyVal : Type :=
| PyInt (z : Z)
| PyBool (b : bool)
| PyFloat (q : Q)
| PyStr (s : string)
| PyUnit (u : TrainFrequencyUnit)
| PyNone.

Inductive TrainFreqParam : Type :=
| IsTrainFreq (tf : TrainFreq)
| IsTuple (items : list PyVal)
| IsScalar (v : PyVal).

(** [t[i]] on a tuple *)
Definition subscript {A} (t : list A) (i : nat) : outcome A :=
  match nth_error t i with
  | Some x => Ok x
  | None => Raise IndexError
  end.

(** [TrainFrequencyUnit(value)]: the member with that value, or the member
    itself; the values are the two the error message of line 186 names. *)
Definition TrainFrequencyUnit_of (value : PyVal) : outcome TrainFrequencyUnit :=
  match value with
  | PyStr v =>
      if String.eqb v "step" then Ok STEP
      else if String.eqb v "episode" then Ok EPISODE
      else Raise ValueError
  | PyUnit u => Ok u
  | _ => Raise ValueError
  end.

(** [isinstance(v, int)], with the integer that [v] is *)
Definition as_int (v : PyVal) : option Z :=
  match v with
  | PyInt z => Some z
  | PyBool b => Some (Z.b2z b)
  | _ => None
  end.

(** The value of [self.train_freq] after the call. *)
Definition _convert_train_freq (param : TrainFreqParam) : outcome TrainFreq :=
  match param with
  | IsTrainFreq tf => Ok tf
  | _ =>
      let train_freq :=
        match param with
        | IsTuple items => items
        | IsScalar v => [v; PyStr "step"]
        | IsTrainFreq _ => []
        end in
      f <~ subscript train_freq 0 ;;
      u0 <~ subscript train_freq 1 ;;
      u <~ TrainFrequencyUnit_of u0 ;;
      match as_int f with
      | Some z => Ok {| frequency := z; unit := u |}
      | None => Raise ValueError
      end
  end.

(** ** Terminal observations (lines 654-671) *)

(** [next_obs[i] = value] on an array of rows: the value is broadcast to the
    row, which takes a value of the row's length or of length one. *)
Definition setitem (next_obs : list Row) (i : nat) (value : Row) :
  outcome (list Row) :=
  match nth_error next_obs i with
  | None => Raise IndexError
  | Some row =>
      if (List.length value =? List.length row)%nat then
        Ok (firstn i next_obs ++ value :: skipn (S i) next_obs)
      else
        match value with
        | [v] =>
            Ok (firstn i next_obs ++ repeat v (List.length row)
                  :: skipn (S i) next_obs)
        | _ => Raise ValueError
        end
  end.

(** The loop over [enumerate(dones)] from index [i] on, for observations
    that are arrays and no [VecNormalize]; [infos] holds for each environment
    what [.get("terminal_observation")] answers. *)
Fixpoint terminal_observations (i : nat) (dones : list bool)
  (infos : list (option Row)) (next_obs : list Row) : outcome (list Row) :=
  match dones with
  | [] => Ok next_obs
  | done :: rest =>
      if done then
        info <~ subscript infos i ;;
        match info with
        | Some terminal_observation =>
            next_obs' <~ setitem next_obs i terminal_observation ;;
            terminal_observations (S i) rest infos next_obs'
        | None => terminal_observations (S i) rest infos next_obs
        end
      else terminal_observations (S i) rest infos next_obs
  end.

(** unfolding of the monad in a hypothesis *)
Ltac run_in H :=
  unfold bind, ret, raise, lift, gets, modify, attr in H; cbn in H.

(** * Properties *)

(** ** The result monad *)

Lemma omap_map_ok {A B C} (f : B -> outcome C) (g : A -> B) (h : A -> C)
  (l : list A) :
  (forall x, In x l -> f (g x) = Ok (h x)) ->
  omap f (map g l) = Ok (map h l).
Proof.
  induction l as [| x l IH]; intros H; simpl.
  - reflexivity.
  - rewrite (H x (or_introl eq_refl)). simpl.
    rewrite IH by (intros y Hy; apply H; now right).
    reflexivity.
Qed.

(** ** Sorting an index array *)

Section SortFacts.

Variable A : Type.
Variable leb : A -> A -> bool.

Lemma insert_perm (x : A) (l : list A) :
  Permutation (Np.insert leb x l) (x :: l).
Proof.
  induction l as [| y l IH]; simpl.
  - apply Permutation_refl.
  - destruct (leb x y).
    + apply Permutation_refl.
    + eapply Permutation_trans; [apply perm_skip, IH | apply perm_swap].
Qed.

Lemma sort_by_perm (l : list A) : Permutation (Np.sort_by leb l) l.
Proof.
  induction l as [| x l IH]; simpl.
  - constructor.
  - eapply Permutation_trans; [apply insert_perm | now apply perm_skip].
Qed.

End SortFacts.

Lemma insert_sorted (x : nat) (l : list nat) :
  StronglySorted le l -> StronglySorted le (Np.insert Nat.leb x l).
Proof.
  induction l as [| y l IH]; intros Hs; simpl.
  - repeat constructor.
  - inversion Hs as [| ? ? Hl Hall]; subst.
    destruct (Nat.leb x y) eqn:E.
    + apply Nat.leb_le in E. constructor; [assumption |].
      constructor; [assumption |].
      eapply Forall_impl; [| exact Hall]. intros; lia.
    + apply Nat.leb_gt in E. constructor; [now apply IH |].
      apply Forall_forall. intros z Hz.
      apply (Permutation_in _ (insert_perm Nat.leb x l)) in Hz.
      destruct Hz as [<- | Hz]; [lia |].
      rewrite Forall_forall in Hall. now apply Hall.
Qed.

Lemma sort_sorted (l : list nat) : StronglySorted le (Np.sort l).
Proof.
  induction l as [| x l IH]; simpl.
  - constructor.
  - now apply insert_sorted.
Qed.

Lemma sorted_nodup_strict (l : list nat) :
  StronglySorted le l -> NoDup l -> StronglySorted lt l.
Proof.
  induction 1 as [| x l Hs IH Hall]; intros Hnd.
  - constructor.
  - inversion Hnd as [| ? ? Hnotin Hnd']; subst.
    constructor; [now apply IH |].
    rewrite Forall_forall in *. intros y Hy.
    specialize (Hall y Hy).
    assert (x <> y) by (intros ->; contradiction). lia.
Qed.

Lemma strict_nodup (l : list nat) : StronglySorted lt l -> NoDup l.
Proof.
  induction 1 as [| x l Hs IH Hall].
  - constructor.
  - constructor; [| assumption].
    intros Hin. rewrite Forall_forall in Hall.
    specialize (Hall x Hin). lia.
Qed.

Lemma strict_sorted_unique (l1 : list nat) :
  forall l2,
    StronglySorted lt l1 -> StronglySorted lt l2 ->
    (forall x, In x l1 <-> In x l2) -> l1 = l2.
Proof.
  induction l1 as [| a l1 IH]; intros [| b l2] H1 H2 Hin.
  - reflexivity.
  - exfalso. apply (proj2 (Hin b)). now left.
  - exfalso. apply (proj1 (Hin a)). now left.
  - inversion H1 as [| ? ? Hs1 Hall1]; subst.
    inversion H2 as [| ? ? Hs2 Hall2]; subst.
    rewrite Forall_forall in Hall1, Hall2.
    assert (a = b) as ->.
    { destruct (proj1 (Hin a) (or_introl eq_refl)) as [E | Ha]; [auto |].
      destruct (proj2 (Hin b) (or_introl eq_refl)) as [E | Hb]; [auto |].
      specialize (Hall1 b Hb). specialize (Hall2 a Ha). lia. }
    f_equal. apply IH; try assumption.
    intros x; split; intros Hx.
    + destruct (proj1 (Hin x) (or_intror Hx)) as [E | ?]; [| assumption].
      subst x. specialize (Hall1 b Hx). lia.
    + destruct (proj2 (Hin x) (or_intror Hx)) as [E | ?]; [| assumption].
      subst x. specialize (Hall2 b Hx). lia.
Qed.

(** Sorting a rearrangement of an increasing index array gives it back. *)
Lemma sort_of_perm (l s : list nat) :
  StronglySorted lt s -> Permutation l s -> Np.sort l = s.
Proof.
  intros Hs Hp.
  assert (Hps : Permutation (Np.sort l) s).
  { eapply Permutation_trans; [apply sort_by_perm | exact Hp]. }
  apply strict_sorted_unique; [| assumption |].
  - apply sorted_nodup_strict; [apply sort_sorted |].
    apply (Permutation_NoDup (Permutation_sym Hps)).
    now apply strict_nodup.
  - intros x; split; intros Hx.
    + now apply (Permutation_in _ Hps).
    + now apply (Permutation_in _ (Permutation_sym Hps)).
Qed.

(** ** [np.unique] followed by [np.sort] keeps first occurrences in order *)

Section UniqueFacts.

Variable A : Type.
Variable eqb : A -> A -> bool.
Variable leb : A -> A -> bool.
Hypothesis eqb_spec : forall x y, eqb x y = true <-> x = y.

Let eqb_refl (x : A) : eqb x x = true.
Proof. now apply eqb_spec. Qed.

Lemma mem_spec (x : A) (l : list A) : Np.mem eqb x l = true <-> In x l.
Proof.
  induction l as [| y l IH]; simpl.
  - split; [discriminate | contradiction].
  - rewrite orb_true_iff, IH, eqb_spec. tauto.
Qed.

Lemma filter_filter (f g : A -> bool) (l : list A) :
  filter f (filter g l) = filter (fun x => g x && f x) l.
Proof.
  induction l as [| x l IH]; simpl; [reflexivity |].
  destruct (g x); simpl; [destruct (f x) |]; now rewrite IH.
Qed.

Lemma distinct_filter (l : list A) :
  forall seen,
    Np.distinct eqb seen l
    = filter (fun y => negb (Np.mem eqb y seen)) (dedup_first eqb l).
Proof.
  induction l as [| x l IH]; intros seen; simpl; [reflexivity |].
  destruct (Np.mem eqb x seen) eqn:E; simpl.
  - rewrite IH, filter_filter. apply filter_ext_in. intros y _.
    destruct (eqb x y) eqn:Exy; simpl; [| reflexivity].
    apply eqb_spec in Exy. subst y. now rewrite E.
  - f_equal. rewrite IH, filter_filter. apply filter_ext. intros y.
    simpl. destruct (eqb x y); reflexivity.
Qed.

Lemma distinct_dedup (l : list A) : Np.distinct eqb [] l = dedup_first eqb l.
Proof.
  rewrite distinct_filter. simpl.
  induction (dedup_first eqb l) as [| x d IH]; simpl; congruence.
Qed.

Lemma dedup_first_In (x : A) (l : list A) :
  In x (dedup_first eqb l) <-> In x l.
Proof.
  induction l as [| y l IH]; simpl; [tauto |].
  rewrite filter_In, IH. split.
  - tauto.
  - intros [-> | Hx]; [now left |].
    destruct (eqb y x) eqn:E.
    + left. now apply eqb_spec.
    + right. auto.
Qed.

Lemma first_index_nth (x : A) (l : list A) :
  In x l -> nth_error l (Np.first_index eqb x l) = Some x.
Proof.
  induction l as [| y l IH]; simpl; [contradiction |].
  intros H. destruct (eqb y x) eqn:E.
  - apply eqb_spec in E. now subst.
  - simpl. apply IH. destruct H as [-> | H]; [| assumption].
    rewrite eqb_refl in E. discriminate.
Qed.

Lemma shifted_sublist_sorted (f : A -> nat) (q : A -> bool) (d : list A) :
  StronglySorted lt (map f d) ->
  StronglySorted lt (map (fun y => S (f y)) (filter q d)).
Proof.
  induction d as [| x d IH]; simpl; intros Hs; [constructor |].
  inversion Hs as [| ? ? Hs' Hall]; subst.
  destruct (q x); simpl; [| now apply IH].
  constructor; [now apply IH |].
  rewrite Forall_forall in *. intros n Hn.
  apply in_map_iff in Hn. destruct Hn as (y & <- & Hy).
  apply filter_In in Hy. destruct Hy as [Hy _].
  specialize (Hall (f y) (in_map f d y Hy)). lia.
Qed.

(** The first-occurrence positions of the kept rows increase. *)
Lemma first_indices_sorted (l : list A) :
  StronglySorted lt
    (map (fun v => Np.first_index eqb v l) (dedup_first eqb l)).
Proof.
  induction l as [| x l IH]; simpl; [constructor |].
  rewrite eqb_refl.
  rewrite (map_ext_in _ (fun y => S (Np.first_index eqb y l))).
  - constructor; [now apply shifted_sublist_sorted |].
    apply Forall_forall. intros n Hn.
    apply in_map_iff in Hn. destruct Hn as (y & <- & _). lia.
  - intros y Hy. apply filter_In in Hy. destruct Hy as [_ Hy].
    now destruct (eqb x y).
Qed.

Lemma sorted_unique_indices (l : list A) :
  Np.sort (snd (Np.unique eqb leb l))
  = map (fun v => Np.first_index eqb v l) (dedup_first eqb l).
Proof.
  unfold Np.unique; simpl.
  apply sort_of_perm; [apply first_indices_sorted |].
  apply Permutation_map. rewrite distinct_dedup. apply sort_by_perm.
Qed.

(** lines 442-444: indexing with the sorted first-occurrence indices is
    the order-preserving deduplication. *)
Lemma take_unique (l : list A) :
  Np.take l (Np.sort (snd (Np.unique eqb leb l))) = Ok (dedup_first eqb l).
Proof.
  rewrite sorted_unique_indices. unfold Np.take.
  rewrite <- (map_id (dedup_first eqb l)) at 2.
  apply omap_map_ok. intros x Hx.
  apply (proj1 (dedup_first_In _ _)) in Hx. cbv beta.
  rewrite first_index_nth by assumption. reflexivity.
Qed.

Lemma dedup_first_idem (l : list A) :
  dedup_first eqb (dedup_first eqb l) = dedup_first eqb l.
Proof.
  assert (H : forall (q : A -> bool) d,
             dedup_first eqb (filter q d) = filter q (dedup_first eqb d)).
  { intros q d. induction d as [| y d IHd]; simpl; [reflexivity |].
    destruct (q y) eqn:E; simpl.
    - rewrite IHd, !filter_filter. f_equal. apply filter_ext.
      intros z. now rewrite andb_comm.
    - rewrite IHd, filter_filter. apply filter_ext_in. intros z _.
      destruct (eqb y z) eqn:Eyz; simpl; [| reflexivity].
      apply eqb_spec in Eyz. subst z. now rewrite E. }
  induction l as [| x l IH]; simpl; [reflexivity |].
  f_equal. rewrite H, IH, filter_filter.
  apply filter_ext. intros z. now rewrite andb_diag.
Qed.

End UniqueFacts.

(** ** The graph nodes *)

Lemma row_eqb_spec (r s : Row) : row_eqb r s = true <-> r = s.
Proof.
  revert s; induction r as [| x r IH]; intros [| y s]; simpl;
    try (split; [discriminate | discriminate]); [tauto |].
  rewrite andb_true_iff, Z.eqb_eq, IH. split.
  - intros [-> ->]. reflexivity.
  - intros [= -> ->]. auto.
Qed.

Lemma take_unique_rows (rows : list Row) :
  Np.take rows (unique_ind rows) = Ok (dedup rows).
Proof. apply take_unique, row_eqb_spec. Qed.

Lemma nodes_first_occurrences (U L : list Row) :
  graph_nodes U L = Ok (dedup (dedup U ++ dedup L)).
Proof.
  unfold graph_nodes.
  rewrite !take_unique_rows. simpl.
  apply take_unique_rows.
Qed.

(** C8.  The node sequence of the graph is the order-preserving
    deduplication of the unlabeled rows deduplicated in order, followed by the
    labeled rows deduplicated in order: each set is deduplicated against
    itself keeping first occurrences, the unique unlabeled set is followed by
    the unique labeled one, and the concatenation is deduplicated once more,
    keeping first occurrences. *)
Theorem graph_nodes_dedup (unlabeled_state_action labeled_state_action : list Row) :
  graph_nodes unlabeled_state_action labeled_state_action
  = Ok (dedup (dedup unlabeled_state_action ++ dedup labeled_state_action)).
Proof. apply nodes_first_occurrences. Qed.

(** ** The state-action rows *)

Lemma onehot_row_length (k a : nat) : List.length (onehot_row k a) = k.
Proof. unfold onehot_row. now rewrite length_map, length_seq. Qed.

Lemma fold_max_ge (l : list nat) :
  forall x, (x <= fold_left Nat.max l x)%nat
            /\ forall y, In y l -> (y <= fold_left Nat.max l x)%nat.
Proof.
  induction l as [| z l IH]; intros x; cbn [fold_left].
  - split; [lia | intros y []].
  - destruct (IH (Nat.max x z)) as (H1 & H2). split; [lia |].
    intros y [<- | Hy]; [lia | now apply H2].
Qed.

Lemma fold_max_lt (k : nat) (l : list nat) :
  forall x, (x < k)%nat -> (forall y, In y l -> (y < k)%nat) ->
            (fold_left Nat.max l x < k)%nat.
Proof.
  induction l as [| z l IH]; intros x Hx Hl; cbn [fold_left]; [exact Hx |].
  apply IH.
  - specialize (Hl z (or_introl eq_refl)). lia.
  - intros y Hy. apply Hl. now right.
Qed.

Lemma concat_rows_length (k : nat) (rows : list Row) :
  Forall (fun r => List.length r = k) rows ->
  List.length (concat rows) = (List.length rows * k)%nat.
Proof.
  induction 1 as [| r rows Hr _ IH]; [reflexivity |].
  cbn [concat List.length]. rewrite length_app, IH, Hr. lia.
Qed.

Lemma concat_short_length (k : nat) (rows : list Row) :
  Forall (fun r => (List.length r <= k)%nat) rows ->
  (List.length (concat rows) <= List.length rows * k)%nat.
Proof.
  induction 1 as [| r rows Hr _ IH]; [cbn; lia |].
  cbn [concat List.length]. rewrite length_app. lia.
Qed.

Lemma chunks_concat (k : nat) (rows : list Row) :
  (0 < k)%nat ->
  Forall (fun r => List.length r = k) rows ->
  forall fuel, (List.length rows <= fuel)%nat ->
               chunks fuel k (concat rows) = rows.
Proof.
  intros Hk. induction 1 as [| r rows Hr _ IH]; intros fuel Hf.
  - destruct fuel; reflexivity.
  - destruct fuel as [| fuel]; [cbn in Hf; lia |].
    cbn [concat chunks].
    destruct (r ++ concat rows) as [| z rest] eqn:E.
    { apply (f_equal (@List.length Z)) in E. rewrite length_app in E.
      cbn in E. lia. }
    rewrite <- E.
    assert (F : firstn k (r ++ concat rows) = r).
    { rewrite <- Hr, firstn_app, Nat.sub_diag, firstn_all.
      cbn [firstn]. apply app_nil_r. }
    assert (K : skipn k (r ++ concat rows) = concat rows).
    { rewrite <- Hr, skipn_app, Nat.sub_diag, skipn_all. reflexivity. }
    rewrite F, K, IH by (cbn in Hf; lia). reflexivity.
Qed.

Lemma chunks_short (k : nat) :
  forall fuel flat,
    Forall (fun r => (List.length r <= k)%nat) (chunks fuel k flat).
Proof.
  induction fuel as [| fuel IH]; intros flat; [constructor |].
  destruct flat as [| z rest]; [constructor |].
  cbn [chunks]. constructor; [| apply IH].
  rewrite length_firstn. lia.
Qed.

Lemma concat_chunks (k : nat) :
  (0 < k)%nat ->
  forall fuel flat, (List.length flat <= fuel)%nat ->
                    concat (chunks fuel k flat) = flat.
Proof.
  intros Hk. induction fuel as [| fuel IH]; intros flat Hf.
  - destruct flat; [reflexivity | cbn in Hf; lia].
  - destruct flat as [| z rest]; [reflexivity |].
    cbn [chunks concat]. rewrite IH.
    + apply firstn_skipn.
    + rewrite length_skipn. cbn [List.length] in *. lia.
Qed.

Lemma onehot_rows_width (k : nat) (labels : list nat) :
  Forall (fun r => List.length r = k) (map (onehot_row k) labels).
Proof.
  apply Forall_forall. intros r Hr. apply in_map_iff in Hr.
  destruct Hr as (a & <- & _). apply onehot_row_length.
Qed.

Lemma concatenate_sa_rows (replay_data : list Transition) :
  concatenate_axis1 (map observation replay_data)
    (map (onehot_row 4) (map action replay_data))
  = Ok (map sa_row replay_data).
Proof.
  unfold concatenate_axis1. rewrite !length_map, Nat.eqb_refl.
  apply f_equal. induction replay_data as [| x d IH]; [reflexivity |].
  cbn [map combine fst snd]. rewrite IH. reflexivity.
Qed.

(** The rows of a snapshot are built exactly when it is not empty and every
    action is below 4; anything else ends in [ValueError]. *)
Lemma state_action_eq (replay_data : list Transition) :
  state_action replay_data
  = match replay_data with
    | [] => Raise ValueError
    | _ :: _ =>
        if forallb (fun x => action x <? 4) replay_data
        then Ok (map sa_row replay_data)
        else Raise ValueError
    end.
Proof.
  destruct replay_data as [| x d]; [reflexivity |].
  set (data := x :: d).
  unfold state_action, labels_to_onehot.
  change (map action data) with (action x :: map action d).
  cbn [np_max obind].
  set (largest := fold_left Nat.max (map action d) (action x)).
  destruct (fold_max_ge (map action d) (action x)) as (Hx & Hd).
  fold largest in Hx, Hd.
  change (action x :: map action d) with (map action data).
  set (k := Nat.max 4 (S largest)).
  assert (Hw : List.length (concat (map (onehot_row k) (map action data)))
               = (List.length data * k)%nat).
  { rewrite (concat_rows_length (onehot_rows_width k _)).
    now rewrite !length_map. }
  destruct (forallb (fun x0 => action x0 <? 4) data) eqn:Eall.
  - assert (Hk : k = 4%nat).
    { assert (largest < 4)%nat; [| subst k; lia].
      rewrite forallb_forall in Eall. apply fold_max_lt.
      - apply Nat.ltb_lt, (Eall x). now left.
      - intros y Hy. apply in_map_iff in Hy. destruct Hy as (t & <- & Ht).
        apply Nat.ltb_lt, (Eall t). now right. }
    rewrite Hk in *. unfold reshape. rewrite Hw.
    rewrite Nat.Div0.mod_mul. cbn [Nat.eqb orb negb].
    rewrite chunks_concat; [| lia | apply onehot_rows_width |].
    + cbn [obind]. apply concatenate_sa_rows.
    + rewrite !length_map. lia.
  - assert (Hk : (5 <= k)%nat).
    { assert (4 <= largest)%nat; [| subst k; lia].
      apply not_true_iff_false in Eall.
      destruct (Nat.lt_ge_cases largest 4) as [Hlt | Hge]; [| exact Hge].
      exfalso. apply Eall. apply forallb_forall. intros t Ht.
      apply Nat.ltb_lt. destruct Ht as [<- | Ht]; [lia |].
      specialize (Hd (action t) (in_map action _ _ Ht)). lia. }
    unfold reshape.
    destruct ((4 =? 0) || negb (_ mod 4 =? 0)); [reflexivity |].
    cbn [obind]. unfold concatenate_axis1.
    destruct (Nat.eqb_spec (List.length (map observation data))
                (List.length
                   (chunks
                      (List.length
                         (concat (map (onehot_row k) (map action data))))
                      4 (concat (map (onehot_row k) (map action data))))))
      as [Heq | Hne]; [| reflexivity].
    exfalso. rewrite length_map in Heq.
    pose proof (concat_short_length
                  (chunks_short 4
                     (List.length
                        (concat (map (onehot_row k) (map action data))))
                     (concat (map (onehot_row k) (map action data)))))
      as Hshort.
    rewrite concat_chunks in Hshort by lia.
    rewrite <- Heq, Hw in Hshort.
    assert (0 < List.length data)%nat by (subst data; cbn; lia).
    nia.
Qed.

Lemma state_action_ok (replay_data : list Transition) (rows : list Row) :
  state_action replay_data = Ok rows -> rows = map sa_row replay_data.
Proof.
  rewrite state_action_eq. destruct replay_data as [| x d]; [discriminate |].
  destruct (forallb _ _); [| discriminate]. now intros [= <-].
Qed.

(** C9.  The action is one-hot encoded over exactly four classes, whatever
    the action space: the rows of a snapshot are built only if every action
    is one of 0, 1, 2, 3, and then each row is the observation followed by
    four entries, a one at the action's position and zeros elsewhere.  An
    action of 4 or more makes the library widen its array, which the reshape
    to four columns or the concatenation with the observations refuses; an
    empty snapshot has no largest label.  Both end in [ValueError], and a
    snapshot that is not empty with all its actions below 4 is built. *)
Theorem state_action_four_classes (replay_data : list Transition) :
  state_action replay_data
  = match replay_data with
    | [] => Raise ValueError
    | _ :: _ =>
        if forallb (fun x => action x <? 4) replay_data
        then Ok (map (fun x => observation x ++ onehot_row 4 (action x))
                     replay_data)
        else Raise ValueError
    end
  /\ (forall rows,
        state_action replay_data = Ok rows ->
        replay_data <> []
        /\ Forall (fun x => In (action x) [0; 1; 2; 3]%nat) replay_data
        /\ rows = map (fun x => observation x ++ onehot_row 4 (action x))
                      replay_data)
  /\ (forallb (fun x => action x <? 4) replay_data = true
      <-> Forall (fun x => In (action x) [0; 1; 2; 3]%nat) replay_data)
  /\ Forall (fun x =>
               List.length (observation x ++ onehot_row 4 (action x))
               = (List.length (observation x) + 4)%nat
               /\ forall j, nth (List.length (observation x) + j)%nat
                                (observation x ++ onehot_row 4 (action x)) 0%Z
                            = if (j <? 4) && (j =? action x)
                              then 1%Z else 0%Z)
            replay_data.
Proof.
  assert (Hiff : forallb (fun x => action x <? 4) replay_data = true
                 <-> Forall (fun x => In (action x) [0; 1; 2; 3]%nat)
                            replay_data).
  { rewrite forallb_forall, Forall_forall. split; intros H x Hx.
    + specialize (H x Hx). apply Nat.ltb_lt in H. simpl.
      destruct (action x) as [| [| [| [| n]]]]; auto; lia.
    + specialize (H x Hx). apply Nat.ltb_lt. simpl in H.
      intuition lia. }
  split; [apply state_action_eq |]. split; [| split; [exact Hiff |]].
  - intros rows H. rewrite state_action_eq in H.
    destruct replay_data as [| x d]; [discriminate H |].
    destruct (forallb _ (x :: d)) eqn:Eall; [| discriminate H].
    injection H as <-. split; [discriminate |].
    split; [now apply Hiff | reflexivity].
  - apply Forall_forall. intros x _. split.
    + now rewrite length_app, onehot_row_length.
    + intros j. rewrite app_nth2_plus.
      destruct (j <? 4) eqn:Ej; cbn [andb].
      * apply Nat.ltb_lt in Ej.
        destruct j as [| [| [| [| j]]]]; [| | | | lia];
          destruct (action x) as [| [| [| [| n]]]]; reflexivity.
      * apply Nat.ltb_ge in Ej. apply nth_overflow.
        now rewrite onehot_row_length.
Qed.

(** ** Routing *)

Lemma Qltb_lt (u p : Q) : Qltb u p = true <-> u < p.
Proof.
  unfold Qltb. rewrite negb_true_iff, <- not_true_iff_false, Qle_bool_iff.
  split; [apply Qnot_le_lt | apply Qlt_not_le].
Qed.

(** C4.  One draw [u] decides the route: the labeled store receives the
    transition if and only if [u < p]; otherwise the unlabeled store receives
    it when there is one, and it is dropped when there is none.  The store
    that is not the target is left as it was, so no transition enters both
    stores; the pseudo store, the step count and the trace are untouched. *)
Theorem store_transition_routes (cfg : Config) (u : Q) (x : Transition)
  (s : Algo) :
  let tgt := route u (p cfg) (configured (unlabeled_replay_buffer s)) in
  let s' := fst (_store_transition cfg u x s) in
  snd (_store_transition cfg u x s) = Ok tt
  /\ received_by x s s' tgt
  /\ (tgt = LabeledStore <-> u < p cfg)
  /\ (tgt = UnlabeledStore
      <-> ~ u < p cfg /\ unlabeled_replay_buffer s <> None)
  /\ (tgt = Discarded <-> ~ u < p cfg /\ unlabeled_replay_buffer s = None)
  /\ ssl_replay_buffer s' = ssl_replay_buffer s
  /\ num_timesteps s' = num_timesteps s
  /\ trace s' = trace s.
Proof.
  unfold route, _store_transition.
  pose proof (Qltb_lt u (p cfg)) as Hlt.
  destruct (Qltb u (p cfg)); cbn.
  - assert (u < p cfg) by now apply Hlt.
    repeat split; try tauto; try discriminate; intros []; tauto.
  - assert (~ u < p cfg) by (intros H; apply Hlt in H; discriminate).
    unfold bind, gets. cbn.
    destruct (unlabeled_replay_buffer s) as [b |] eqn:E; cbn.
    + repeat split; try tauto; try discriminate; eauto.
      intros [_ [=]].
    + repeat split; try tauto; try discriminate.
      all: try (intros [_ Hn]; now elim Hn).
Qed.

(** ** Running the monad *)

Lemma trace_emit (ev : event) (s : Algo) : trace (emit ev s) = trace s ++ [ev].
Proof. reflexivity. Qed.

(** ** The refresh cycle: what a run leaves behind *)

(** A cycle leaves the step count and the labeled and unlabeled stores as
    they were and only adds records to the trace; when it raises, the pseudo
    store is the one it cleared at its start (or the missing one). *)
Lemma refresh_cycle_frame (bk : Backend) (cfg : Config) (s s' : Algo)
  (r : outcome Datatypes.unit) :
  refresh_cycle bk cfg s = (s', r) ->
  num_timesteps s' = num_timesteps s
  /\ replay_buffer s' = replay_buffer s
  /\ unlabeled_replay_buffer s' = unlabeled_replay_buffer s
  /\ (exists evs, trace s' = trace s ++ evs /\ Forall is_record evs)
  /\ (forall e, r = Raise e ->
       ssl_replay_buffer s'
       = option_map ReplayBuffer.reset (ssl_replay_buffer s)).
Proof.
  assert (Hnil : forall l : list event,
             exists evs, l = l ++ evs /\ Forall is_record evs).
  { intros l. exists []. now rewrite app_nil_r. }
  assert (Hone : forall (l : list event) k v,
             exists evs, l ++ [Record_ k v] = l ++ evs
                         /\ Forall is_record evs).
  { intros l k v. eexists. split; [reflexivity |]. repeat constructor. }
  unfold refresh_cycle. intros H. run_in H.
  destruct (ssl_replay_buffer s) as [ssl |] eqn:Essl; cbn in H.
  2:{ injection H as <- <-. rewrite Essl. cbn. auto 10. }
  destruct (unlabeled_replay_buffer s) as [ub |] eqn:Eub; cbn in H.
  2:{ injection H as <- <-. cbn. auto 10. }
  destruct (ReplayBuffer._get_samples (replay_buffer s) _) as [ld |];
    cbn in H.
  2:{ injection H as <- <-. cbn. auto 10. }
  destruct (ReplayBuffer._get_samples ub _) as [ud |]; cbn in H.
  2:{ injection H as <- <-. cbn. auto 10. }
  destruct (cycle_locals bk (method cfg) ld ud) as [loc |]; cbn in H.
  2:{ injection H as <- <-. cbn. auto 10. }
  destruct (Np.take ud (unique_unlabeled_ind loc)) as [rows |]; cbn in H.
  2:{ injection H as <- <-. cbn. auto 10. }
  destruct (Np.delete (pseudo_rewards loc) (train_ind loc)) as [rest |];
    cbn in H.
  2:{ injection H as <- <-. cbn. auto 10. }
  injection H as <- <-. cbn. repeat split; auto.
  - eexists. rewrite <- app_assoc. split; [reflexivity |].
    repeat constructor.
  - discriminate.
Qed.

(** ** Rollout collection: what a run leaves behind *)

Lemma store_transition_frame (cfg : Config) (u : Q) (x : Transition)
  (s : Algo) :
  snd (_store_transition cfg u x s) = Ok tt
  /\ ssl_replay_buffer (fst (_store_transition cfg u x s))
     = ssl_replay_buffer s
  /\ num_timesteps (fst (_store_transition cfg u x s)) = num_timesteps s
  /\ trace (fst (_store_transition cfg u x s)) = trace s.
Proof.
  unfold _store_transition, bind, gets, modify, ret.
  destruct (Qltb u (p cfg)); cbn; [auto |].
  destruct (unlabeled_replay_buffer s); cbn; auto.
Qed.

(** A rollout adds records only, leaves the pseudo store alone and moves the
    step count by [num_envs] per collected step. *)
Lemma collect_loop_frame (cfg : Config) (env : list EnvStep) :
  forall steps episodes s s' r,
    collect_loop cfg env steps episodes s = (s', r) ->
    ssl_replay_buffer s' = ssl_replay_buffer s
    /\ exists evs k,
        trace s' = trace s ++ evs
        /\ Forall is_record evs
        /\ num_timesteps s'
           = (num_timesteps s + Z.of_nat k * num_envs cfg)%Z.
Proof.
  induction env as [| step env IH]; intros steps episodes s s' r H;
    cbn in H.
  - destruct (should_collect_more_steps _ _ _); injection H as <- <-;
      (split; [reflexivity |]); exists [], 0%nat;
      rewrite app_nil_r; repeat split; auto; lia.
  - destruct (should_collect_more_steps _ _ _).
    2:{ injection H as <- <-. split; [reflexivity |]. exists [], 0%nat.
        rewrite app_nil_r. repeat split; auto; lia. }
    run_in H.
    destruct (on_step step); cbn in H.
    2:{ injection H as <- <-. cbn. split; [reflexivity |].
        exists [], 1%nat. rewrite app_nil_r. repeat split; auto; lia. }
    set (s0 := set_num_timesteps (num_timesteps s + num_envs cfg) s) in *.
    destruct (store_transition_frame cfg (random_draw step)
                (transition step) s0) as (Hok & Hssl & Hn & Htr).
    destruct (_store_transition cfg (random_draw step) (transition step) s0)
      as [s1 r1]. cbn in Hok, Hssl, Hn, Htr. subst r1. cbn in H.
    destruct (pseudo_mode cfg && Qltb (p cfg) 1); cbn in H.
    + destruct (unlabeled_replay_buffer s1) as [ub |]; cbn in H.
      * apply IH in H. destruct H as (Hs & evs & k & Ht & Hr & Hk).
        cbn in Hs, Ht, Hk. split; [congruence |].
        eexists (_ :: _ :: evs), (S k). rewrite Ht, Htr, Hk, Hn.
        rewrite <- !app_assoc. cbn [app]. repeat split; auto.
        -- repeat constructor. exact Hr.
        -- rewrite Nat2Z.inj_succ. ring.
      * injection H as <- <-. cbn. split; [congruence |].
        eexists [_], 1%nat. rewrite Htr, Hn. repeat split; auto.
        -- repeat constructor.
        -- change (Z.of_nat 1) with 1%Z. ring.
    + apply IH in H. destruct H as (Hs & evs & k & Ht & Hr & Hk).
      cbn in Hs, Ht, Hk. split; [congruence |].
      eexists (_ :: evs), (S k). rewrite Ht, Htr, Hk, Hn.
      rewrite <- !app_assoc. cbn [app]. repeat split; auto.
      * repeat constructor. exact Hr.
      * rewrite Nat2Z.inj_succ. ring.
Qed.

Lemma collect_rollouts_frame (cfg : Config) (env : list EnvStep)
  (s s' : Algo) (r : outcome (RolloutReturn * list EnvStep)) :
  collect_rollouts cfg env s = (s', r) ->
  ssl_replay_buffer s' = ssl_replay_buffer s
  /\ exists evs k,
      trace s' = trace s ++ evs
      /\ Forall is_record evs
      /\ num_timesteps s' = (num_timesteps s + Z.of_nat k * num_envs cfg)%Z.
Proof.
  unfold collect_rollouts. intros H.
  assert (Hnil : ssl_replay_buffer s = ssl_replay_buffer s
                 /\ exists evs k,
                     trace s = trace s ++ evs
                     /\ Forall is_record evs
                     /\ num_timesteps s
                        = (num_timesteps s + Z.of_nat k * num_envs cfg)%Z).
  { split; [reflexivity |]. exists [], 0%nat. rewrite app_nil_r.
    repeat split; auto; lia. }
  destruct (negb _); [injection H as <- <-; exact Hnil |].
  destruct (_ && _); [injection H as <- <-; exact Hnil |].
  now apply collect_loop_frame in H.
Qed.

(** A rollout that returns took its steps from the head of the environment's
    steps, and each step taken moved the step count by [num_envs]. *)
Lemma collect_loop_steps (cfg : Config) (env : list EnvStep) :
  forall steps episodes s s' rollout env',
    collect_loop cfg env steps episodes s = (s', Ok (rollout, env')) ->
    exists taken,
      env = taken ++ env'
      /\ num_timesteps s'
         = (num_timesteps s + Z.of_nat (List.length taken) * num_envs cfg)%Z
      /\ episode_timesteps rollout
         = ((steps + Z.of_nat (List.length taken)) * num_envs cfg)%Z
      /\ (should_collect_more_steps (train_freq cfg) steps episodes = true ->
          taken <> []).
Proof.
  induction env as [| step env IH]; intros steps episodes s s' rollout env' H;
    cbn in H.
  - destruct (should_collect_more_steps _ _ _) eqn:Em; [discriminate H |].
    injection H as <- <- <-. exists []. cbn [app List.length episode_timesteps].
    change (Z.of_nat 0) with 0%Z.
    split; [reflexivity |]. split; [ring |]. split; [ring | discriminate].
  - destruct (should_collect_more_steps _ _ _) eqn:Em.
    2:{ injection H as <- <- <-. exists [].
        cbn [app List.length episode_timesteps].
        change (Z.of_nat 0) with 0%Z.
        split; [reflexivity |]. split; [ring |]. split; [ring | discriminate]. }
    run_in H.
    destruct (on_step step); cbn in H.
    2:{ injection H as <- <- <-. exists [step].
        cbn [app List.length episode_timesteps num_timesteps
             set_num_timesteps].
        change (Z.of_nat 1) with 1%Z.
        split; [reflexivity |]. split; [ring |]. split; [ring | discriminate]. }
    set (s0 := set_num_timesteps (num_timesteps s + num_envs cfg) s) in *.
    destruct (store_transition_frame cfg (random_draw step)
                (transition step) s0) as (Hok & _ & Hn & _).
    destruct (_store_transition cfg (random_draw step) (transition step) s0)
      as [s1 r1]. cbn in Hok, Hn. subst r1. cbn in H.
    assert (Hstep : forall s2 : Algo,
               num_timesteps s2 = num_timesteps s1 ->
               collect_loop cfg env (steps + 1)
                 (episodes + count_done (dones step)) s2
               = (s', Ok (rollout, env')) ->
               exists taken,
                 step :: env = taken ++ env'
                 /\ num_timesteps s'
                    = (num_timesteps s
                       + Z.of_nat (List.length taken) * num_envs cfg)%Z
                 /\ episode_timesteps rollout
                    = ((steps + Z.of_nat (List.length taken))
                       * num_envs cfg)%Z
                 /\ (true = true -> taken <> [])).
    { intros s2 Hs2 Hrest. apply IH in Hrest.
      destruct Hrest as (taken & -> & Hcount & Het & _).
      exists (step :: taken). split; [reflexivity |].
      rewrite Hcount, Het, Hs2, Hn. cbn [List.length].
      rewrite Nat2Z.inj_succ. split; [ring |]. split; [ring | discriminate]. }
    destruct (pseudo_mode cfg && Qltb (p cfg) 1); cbn in H.
    + destruct (unlabeled_replay_buffer s1) as [ub |]; cbn in H;
        [| discriminate H].
      now apply Hstep in H.
    + now apply Hstep in H.
Qed.

Lemma collect_rollouts_steps (cfg : Config) (env env' : list EnvStep)
  (s s' : Algo) (rollout : RolloutReturn) :
  collect_rollouts cfg env s = (s', Ok (rollout, env')) ->
  exists taken,
    env = taken ++ env'
    /\ taken <> []
    /\ num_timesteps s'
       = (num_timesteps s + Z.of_nat (List.length taken) * num_envs cfg)%Z
    /\ episode_timesteps rollout
       = (Z.of_nat (List.length taken) * num_envs cfg)%Z.
Proof.
  unfold collect_rollouts. intros H.
  destruct (Z.gtb_spec (frequency (train_freq cfg)) 0) as [Hf | Hf];
    cbn [negb] in H; [| discriminate H].
  destruct (_ && _); [discriminate H |].
  apply collect_loop_steps in H.
  destruct H as (taken & Henv & Hcount & Het & Hne).
  exists taken. split; [exact Henv |]. split.
  - apply Hne. unfold should_collect_more_steps.
    destruct (unit (train_freq cfg)); apply Z.ltb_lt; lia.
  - split; [exact Hcount |]. rewrite Het. ring.
Qed.

(** ** The guard of the refresh branch and the training gate *)

Lemma refresh_due_run (cfg : Config) (s : Algo) :
  exists rd, refresh_due cfg s = (s, rd)
             /\ (rd = Ok true <-> refresh_condition cfg (num_timesteps s))
             /\ (rd = Raise ZeroDivisionError
                 <-> pseudo_mode cfg = true /\ ssl_freq cfg = 0%Z)
             /\ (forall e, rd = Raise e -> e = ZeroDivisionError).
Proof.
  unfold refresh_due, refresh_condition, py_mod, bind, gets, lift, ret.
  destruct (pseudo_mode cfg); cbn.
  2:{ eexists; split; [reflexivity |]; repeat split;
      try discriminate; intuition discriminate. }
  destruct (Z.eqb_spec (ssl_freq cfg) 0) as [E0 | E0]; cbn.
  { eexists; split; [reflexivity |]; repeat split; try discriminate;
      try tauto; try congruence. }
  destruct (Z.eqb_spec (num_timesteps s mod ssl_freq cfg) 0) as [Em | Em];
    cbn.
  2:{ eexists; split; [reflexivity |]; repeat split; try discriminate;
      try tauto. }
  destruct (Z.gtb_spec (num_timesteps s) (learning_starts cfg / 2)); cbn.
  - eexists; split; [reflexivity |]; repeat split; try discriminate;
      try tauto; try lia.
  - eexists; split; [reflexivity |]; repeat split; try discriminate;
      try tauto; try lia.
Qed.

Lemma training_gate_run (cfg : Config) (rollout : RolloutReturn) (s : Algo) :
  exists trains,
    training_gate cfg rollout s
    = ({| num_timesteps := num_timesteps s;
          replay_buffer := replay_buffer s;
          unlabeled_replay_buffer := unlabeled_replay_buffer s;
          ssl_replay_buffer := ssl_replay_buffer s;
          trace := trace s ++ trains |}, Ok tt)
    /\ (trains = []
        \/ exists g,
            trains = [Train (num_timesteps s)
                            (ReplayBuffer.size (replay_buffer s))
                            g (batch_size cfg) (ssl_batch_size cfg)]
            /\ (num_timesteps s > 0)%Z
            /\ (num_timesteps s > learning_starts cfg)%Z
            /\ (g > 0)%Z).
Proof.
  assert (Hnil : exists trains,
             (s, @Ok Datatypes.unit tt)
             = ({| num_timesteps := num_timesteps s;
                   replay_buffer := replay_buffer s;
                   unlabeled_replay_buffer := unlabeled_replay_buffer s;
                   ssl_replay_buffer := ssl_replay_buffer s;
                   trace := trace s ++ trains |}, Ok tt)
             /\ (trains = []
                 \/ exists g,
                     trains = [Train (num_timesteps s)
                                     (ReplayBuffer.size (replay_buffer s))
                                     g (batch_size cfg) (ssl_batch_size cfg)]
                     /\ (num_timesteps s > 0)%Z
                     /\ (num_timesteps s > learning_starts cfg)%Z
                     /\ (g > 0)%Z)).
  { exists []. rewrite app_nil_r. destruct s; auto. }
  unfold training_gate, train, bind, gets, modify, ret. cbn.
  destruct (Z.gtb_spec (num_timesteps s) 0); cbn; [| exact Hnil].
  destruct (Z.gtb_spec (num_timesteps s) (learning_starts cfg)); cbn;
    [| exact Hnil].
  match goal with
  | |- context [if (?g >? 0)%Z then _ else _] =>
      destruct (Z.gtb_spec g 0); [| exact Hnil]
  end.
  eexists. split; [reflexivity |]. right. eexists. split; [reflexivity |].
  lia.
Qed.

Lemma after_rollout_run (bk : Backend) (cfg : Config)
  (rollout : RolloutReturn) (s s' : Algo) (r : outcome Datatypes.unit) :
  after_rollout bk cfg rollout s = (s', r) ->
  num_timesteps s' = num_timesteps s
  /\ exists mid trains,
      trace s' = trace s ++ mid ++ trains
      /\ after_events cfg (num_timesteps s) mid trains.
Proof.
  unfold after_rollout, after_events. intros H.
  destruct (refresh_due_run cfg s) as (rd & Hrd & Hiff & _).
  unfold bind at 1 in H. unfold bind at 1 in H. rewrite Hrd in H.
  destruct rd as [[|] | e]; cbv beta iota in H.
  - assert (Hc : refresh_condition cfg (num_timesteps s)) by now apply Hiff.
    unfold bind, gets, modify in H. cbv beta iota in H.
    destruct (refresh_cycle bk cfg (emit (Refresh (num_timesteps s)) s))
      as [s3 r3] eqn:Ec.
    destruct (refresh_cycle_frame _ _ _ Ec)
      as (Hn & _ & _ & (recs & Ht & Hrec) & _).
    cbn in Hn, Ht. destruct r3 as [[] | e]; cbv beta iota in H.
    + destruct (training_gate_run cfg rollout s3) as (trains & Hg & Htr).
      rewrite Hg in H. injection H as <- <-. cbn.
      split; [assumption |].
      exists (Refresh (num_timesteps s) :: recs), trains.
      rewrite Ht, <- !app_assoc. cbn. split; [reflexivity |].
      split; [left; eauto |].
      destruct Htr as [-> | (g & -> & ? & ? & ?)]; [now left |].
      right. rewrite <- Hn. eauto 10.
    + injection H as <- <-. split; [assumption |].
      exists (Refresh (num_timesteps s) :: recs), [].
      rewrite Ht, <- !app_assoc, app_nil_r. cbn. split; [reflexivity |].
      split; [left; eauto | now left].
  - assert (Hc : ~ refresh_condition cfg (num_timesteps s)).
    { intros Hc. apply Hiff in Hc. discriminate. }
    unfold bind, ret in H. cbv beta iota in H.
    destruct (training_gate_run cfg rollout s) as (trains & Hg & Htr).
    rewrite Hg in H. injection H as <- <-. cbn.
    split; [reflexivity |]. exists [], trains. cbn.
    split; [reflexivity |]. split; [right; auto |].
    destruct Htr as [-> | (g & -> & ? & ? & ?)]; [now left |].
    right. eauto 10.
  - assert (Hc : ~ refresh_condition cfg (num_timesteps s)).
    { intros Hc. apply Hiff in Hc. discriminate. }
    injection H as <- <-. split; [reflexivity |]. exists [], [].
    rewrite app_nil_r. split; [reflexivity |]. split; [right; auto | now left].
Qed.

(** ** Traces of the loop *)

Lemma records_no_marks (l : list event) :
  Forall is_record l ->
  (forall m, ~ In (Refresh m) l)
  /\ (forall m c, ~ In (Rollout m c) l)
  /\ (forall n sz g b sb, ~ In (Train n sz g b sb) l).
Proof.
  intros H. rewrite Forall_forall in H.
  repeat split; repeat intro;
    match goal with Hin : In _ l |- _ => apply H in Hin; exact Hin end.
Qed.

Lemma well_traced_records (cfg : Config) (n0 : Z) (l : list event) :
  Forall is_record l -> well_traced cfg n0 l.
Proof.
  intros H. destruct (records_no_marks H) as (H1 & H2 & H3).
  repeat split; intros; exfalso;
    try (eapply H1; eassumption);
    try (eapply H3; eassumption).
  - destruct H0 as [H0 _]. eapply H2; eassumption.
  - eapply H2; eassumption.
Qed.

Lemma well_traced_app (cfg : Config) (n0 : Z) (k : nat) (e1 e2 : list event) :
  well_traced cfg n0 e1 ->
  well_traced cfg (n0 + Z.of_nat k * num_envs cfg) e2 ->
  well_traced cfg n0 (e1 ++ e2).
Proof.
  intros (A1 & B1 & C1) (A2 & B2 & C2). split; [| split].
  - intros m. rewrite !in_app_iff. specialize (A1 m). specialize (A2 m).
    tauto.
  - intros m c Hin. apply in_app_or in Hin. destruct Hin as [Hin | Hin].
    + eapply B1; eassumption.
    + apply B2 in Hin. destruct Hin as (k' & ->).
      exists (k + k')%nat. rewrite Nat2Z.inj_add. ring.
  - intros n sz g b sb Hin. rewrite in_app_iff.
    apply in_app_or in Hin.
    destruct Hin as [Hin | Hin]; [apply C1 in Hin | apply C2 in Hin]; tauto.
Qed.

Lemma boundary_events (cfg : Config) (n : Z) (mid trains : list event) :
  after_events cfg n mid trains ->
  (forall m, In (Refresh m) (mid ++ trains)
             <-> m = n /\ refresh_condition cfg n)
  /\ (forall m c, ~ In (Rollout m c) (mid ++ trains))
  /\ (forall m sz g b sb, In (Train m sz g b sb) (mid ++ trains) ->
        m = n /\ (n > 0)%Z /\ (n > learning_starts cfg)%Z /\ (g > 0)%Z).
Proof.
  intros (Hmid & Htr).
  assert (Htrains : forall e, In e trains ->
            exists sz g b sb, e = Train n sz g b sb
              /\ (n > 0)%Z /\ (n > learning_starts cfg)%Z /\ (g > 0)%Z).
  { intros e He. destruct Htr as [-> | (sz & g & b & sb & -> & ?)].
    - contradiction.
    - destruct He as [<- | []]. eauto 10. }
  assert (Hmids : forall e, In e mid ->
            refresh_condition cfg n /\ (e = Refresh n \/ is_record e)).
  { intros e He. destruct Hmid as [(Hc & recs & -> & Hr) | (_ & ->)].
    - split; [assumption |]. destruct He as [<- | He]; [now left |].
      right. rewrite Forall_forall in Hr. now apply Hr.
    - contradiction. }
  split; [| split].
  - intros m. split.
    + intros Hin. apply in_app_or in Hin. destruct Hin as [Hin | Hin].
      * destruct (Hmids _ Hin) as (Hc & [E | E]); [| contradiction].
        injection E as <-. auto.
      * destruct (Htrains _ Hin) as (? & ? & ? & ? & E & _). discriminate.
    + intros (-> & Hc). apply in_or_app. left.
      destruct Hmid as [(_ & recs & -> & _) | (Hn & _)];
        [now left | contradiction].
  - intros m c Hin. apply in_app_or in Hin. destruct Hin as [Hin | Hin].
    + destruct (Hmids _ Hin) as (_ & [E | E]);
        [discriminate | contradiction].
    + destruct (Htrains _ Hin) as (? & ? & ? & ? & E & _). discriminate.
  - intros m sz g b sb Hin. apply in_app_or in Hin.
    destruct Hin as [Hin | Hin].
    + destruct (Hmids _ Hin) as (_ & [E | E]);
        [discriminate | contradiction].
    + destruct (Htrains _ Hin) as (? & ? & ? & ? & E & ? & ? & ?).
      injection E as -> -> -> -> ->. auto.
Qed.

Lemma well_traced_boundary (cfg : Config) (n0 : Z) (k : nat) (c : bool)
  (mid trains : list event) :
  let n := (n0 + Z.of_nat k * num_envs cfg)%Z in
  (c = true -> after_events cfg n mid trains) ->
  (c = false -> mid = [] /\ trains = []) ->
  well_traced cfg n0 (Rollout n c :: mid ++ trains).
Proof.
  intros n Ht Hf. destruct c.
  - destruct (boundary_events (Ht eq_refl)) as (HA & HB & HC).
    split; [| split].
    + intros m. cbn [In]. rewrite HA. split.
      * intros [E | (-> & Hc)]; [discriminate | auto].
      * intros [[E | Hin] Hc]; [injection E as <-; auto |].
        now apply HB in Hin.
    + intros m c [E | Hin]; [injection E as <- <-; now exists k |].
      now apply HB in Hin.
    + intros m sz g b sb [E | Hin]; [discriminate |].
      apply HC in Hin. destruct Hin as (-> & ? & ? & ?).
      repeat split; auto. now left.
  - destruct (Hf eq_refl) as (-> & ->). cbn. split; [| split].
    + intros m. split.
      * intros [E | []]. discriminate.
      * intros [[E | []] _]. discriminate.
    + intros m c [E | []]. injection E as <- <-. now exists k.
    + intros m sz g b sb [E | []]. discriminate.
Qed.

Lemma learn_body_run (bk : Backend) (cfg : Config) (env : list EnvStep)
  (s s' : Algo) (r : outcome (bool * list EnvStep)) :
  learn_body bk cfg env s = (s', r) ->
  exists evs k,
    trace s' = trace s ++ evs
    /\ num_timesteps s' = (num_timesteps s + Z.of_nat k * num_envs cfg)%Z
    /\ well_traced cfg (num_timesteps s) evs.
Proof.
  unfold learn_body. intros H. unfold bind at 1 in H.
  destruct (collect_rollouts cfg env s) as [s1 r1] eqn:Ec.
  destruct (collect_rollouts_frame _ _ _ Ec) as (_ & recs & k & Ht & Hr & Hk).
  destruct r1 as [[rollout env'] | e].
  2:{ injection H as <- <-. exists recs, k.
      split; [assumption |]. split; [assumption |].
      now apply well_traced_records. }
  unfold bind at 1 in H. unfold gets at 1 in H.
  unfold bind at 1 in H. unfold modify at 1 in H.
  set (s2 := emit (Rollout (num_timesteps s1) (continue_training rollout)) s1)
    in *.
  assert (Ht2 : trace s2 = trace s ++ recs
                        ++ [Rollout (num_timesteps s1)
                                    (continue_training rollout)]).
  { subst s2. cbn. now rewrite Ht, app_assoc. }
  assert (Hpre : well_traced cfg (num_timesteps s) recs)
    by now apply well_traced_records.
  destruct (continue_training rollout) eqn:Econt; cbn [negb] in H.
  - unfold bind at 1 in H.
    destruct (after_rollout bk cfg rollout s2) as [s3 r3] eqn:Ea.
    destruct (after_rollout_run _ _ _ _ Ea) as (Hn & mid & trains & Ht3 & Hev).
    assert (Hs' : s' = s3) by (destruct r3; now injection H).
    subst s'. clear H.
    exists (recs ++ Rollout (num_timesteps s1) true :: mid ++ trains), k.
    split; [| split].
    + rewrite Ht3, Ht2, <- !app_assoc. reflexivity.
    + rewrite Hn. subst s2. exact Hk.
    + apply well_traced_app with (k := 0%nat); [assumption |].
      replace (num_timesteps s + Z.of_nat 0 * num_envs cfg)%Z
        with (num_timesteps s) by (cbn; ring).
      rewrite Hk. apply well_traced_boundary.
      * intros _. rewrite <- Hk. exact Hev.
      * discriminate.
  - injection H as <- <-.
    exists (recs ++ [Rollout (num_timesteps s1) false]), k.
    split; [assumption |]. split; [exact Hk |].
    apply well_traced_app with (k := 0%nat); [assumption |].
    replace (num_timesteps s + Z.of_nat 0 * num_envs cfg)%Z
      with (num_timesteps s) by (cbn; ring).
    rewrite Hk.
    apply well_traced_boundary with (c := false) (mid := [])
                                    (trains := []).
    + discriminate.
    + auto.
Qed.

Lemma learn_loop_run (bk : Backend) (cfg : Config) (total_timesteps : Z)
  (fuel : nat) :
  forall env s s' r,
    learn_loop fuel bk cfg total_timesteps env s = (s', r) ->
    exists evs k,
      trace s' = trace s ++ evs
      /\ num_timesteps s' = (num_timesteps s + Z.of_nat k * num_envs cfg)%Z
      /\ well_traced cfg (num_timesteps s) evs.
Proof.
  assert (Hnil : forall s : Algo,
             exists evs k,
               trace s = trace s ++ evs
               /\ num_timesteps s
                  = (num_timesteps s + Z.of_nat k * num_envs cfg)%Z
               /\ well_traced cfg (num_timesteps s) evs).
  { intros s. exists [], 0%nat. rewrite app_nil_r.
    split; [reflexivity |]. split; [cbn; ring |].
    now apply well_traced_records. }
  induction fuel as [| fuel IH]; intros env s s' r H; cbn [learn_loop] in H.
  - injection H as <- <-. apply Hnil.
  - unfold bind at 1 in H. unfold gets at 1 in H.
    destruct (num_timesteps s <? total_timesteps)%Z.
    2:{ injection H as <- <-. apply Hnil. }
    unfold bind at 1 in H.
    destruct (learn_body bk cfg env s) as [s1 r1] eqn:Eb.
    destruct (learn_body_run _ _ _ _ Eb) as (evs1 & k1 & Ht1 & Hk1 & Hw1).
    destruct r1 as [[go_on env'] | e].
    2:{ injection H as <- <-. eauto. }
    destruct go_on.
    2:{ injection H as <- <-. eauto. }
    apply IH in H. destruct H as (evs2 & k2 & Ht2 & Hk2 & Hw2).
    exists (evs1 ++ evs2), (k1 + k2)%nat. split; [| split].
    + now rewrite Ht2, Ht1, app_assoc.
    + rewrite Hk2, Hk1, Nat2Z.inj_add. ring.
    + apply well_traced_app with (k := k1); [assumption |].
      now rewrite <- Hk1.
Qed.

(** ** A failing cycle inside the loop *)

Lemma after_rollout_cycle_raise (bk : Backend) (cfg : Config)
  (rollout : RolloutReturn) (s s3 : Algo) (e : exn) :
  refresh_condition cfg (num_timesteps s) ->
  refresh_cycle bk cfg (emit (Refresh (num_timesteps s)) s) = (s3, Raise e) ->
  after_rollout bk cfg rollout s = (s3, Raise e).
Proof.
  intros Hc Hcycle. unfold after_rollout.
  destruct (refresh_due_run cfg s) as (rd & Hrd & Hiff & _).
  apply Hiff in Hc. subst rd.
  unfold bind at 1. unfold bind at 1. rewrite Hrd. cbv beta iota.
  unfold bind at 1. unfold bind at 1. unfold gets at 1. cbv beta iota.
  unfold modify at 1. cbv beta iota.
  now rewrite Hcycle.
Qed.

Lemma learn_loop_cycle_raise (bk : Backend) (cfg : Config)
  (total_timesteps : Z) (fuel : nat) (env env' : list EnvStep)
  (s s1 s3 : Algo) (rollout : RolloutReturn) (e : exn) :
  (num_timesteps s < total_timesteps)%Z ->
  collect_rollouts cfg env s = (s1, Ok (rollout, env')) ->
  continue_training rollout = true ->
  refresh_condition cfg (num_timesteps s1) ->
  refresh_cycle bk cfg
    (emit (Refresh (num_timesteps s1))
          (emit (Rollout (num_timesteps s1) true) s1))
  = (s3, Raise e) ->
  learn_body bk cfg env s = (s3, Raise e)
  /\ learn_loop (S fuel) bk cfg total_timesteps env s = (s3, Raise e).
Proof.
  intros Hlt Hcol Hcont Hc Hcycle.
  assert (Hbody : learn_body bk cfg env s = (s3, Raise e)).
  { unfold learn_body. unfold bind at 1. rewrite Hcol. cbv beta iota.
    unfold bind at 1. unfold gets at 1. cbv beta iota.
    unfold bind at 1. unfold modify at 1. cbv beta iota.
    rewrite Hcont. cbn [negb]. unfold bind at 1.
    erewrite after_rollout_cycle_raise; [reflexivity | exact Hc |].
    exact Hcycle. }
  split; [exact Hbody |].
  cbn [learn_loop]. unfold bind at 1. unfold gets at 1. cbv beta iota.
  apply Z.ltb_lt in Hlt. rewrite Hlt.
  unfold bind at 1. now rewrite Hbody.
Qed.

(** ** The local variables of a cycle that completes *)

Lemma cycle_locals_inv (bk : Backend) (method : string)
  (labeled_replay_data unlabeled_replay_data : list Transition)
  (loc : Locals) :
  cycle_locals bk method labeled_replay_data unlabeled_replay_data = Ok loc ->
  exists U L,
    state_action unlabeled_replay_data = Ok U
    /\ state_action labeled_replay_data = Ok L
    /\ unique_unlabeled_ind loc = unique_ind U
    /\ unique_unlabeled_sa loc = dedup U
    /\ unique_labeled_ind loc = unique_ind L
    /\ unique_labeled_sa loc = dedup L
    /\ X_prime_unique loc = dedup (dedup U ++ dedup L)
    /\ train_ind loc = Np.arange (List.length (dedup L))
    /\ exists W, construct_connected_W bk (X_prime_unique loc) = Ok W
                 /\ infer_rewards_SSL bk method W (train_labels loc)
                      (train_ind loc) = Ok (pred_labels loc).
Proof.
  unfold cycle_locals. intros H.
  destruct (state_action unlabeled_replay_data) as [U |]; [| discriminate].
  destruct (state_action labeled_replay_data) as [L |]; [| discriminate].
  cbn [obind] in H. exists U, L.
  rewrite (take_unique_rows U) in H. cbn [obind] in H.
  destruct (Np.take (map reward unlabeled_replay_data) _) as [ur |];
    [| discriminate]. cbn [obind] in H.
  rewrite (take_unique_rows L) in H. cbn [obind] in H.
  destruct (Np.take (map reward labeled_replay_data) _) as [lr |];
    [| discriminate]. cbn [obind] in H.
  rewrite (take_unique_rows (dedup U ++ dedup L)) in H. cbn [obind] in H.
  destruct (construct_connected_W bk _) as [W |] eqn:EW; [| discriminate].
  cbn [obind] in H.
  destruct (rewards_to_labels bk lr) as [labels l2r].
  destruct (Np.take (lr ++ ur) _) as [tr |]; [| discriminate].
  cbn [obind] in H.
  destruct (infer_rewards_SSL bk method W labels _) as [pl |] eqn:EI;
    [| discriminate]. cbn [obind] in H.
  destruct (omap (lookup l2r) pl) as [pr |]; [| discriminate].
  cbn [obind] in H.
  destruct (Np.delete pr _) as [prest |]; [| discriminate].
  cbn [obind] in H.
  destruct (Np.delete tr _) as [trest |]; [| discriminate].
  cbn [obind] in H.
  destruct (f1_score prest trest) as [score |]; [| discriminate].
  cbn [obind] in H. injection H as <-. cbn.
  repeat split; try reflexivity. exists W. auto.
Qed.

(** ** The training gate *)

(** C7, as the code has it.  The optimisation sink is called only at a step
    count that is positive and above [learning_starts], with a positive
    number of gradient steps: the gate reads the global step count, not the
    size of the labeled store. *)
Theorem training_gated_by_step_count (bk : Backend) (cfg : Config)
  (total_timesteps : Z) (env : list EnvStep) (s : Algo) :
  exists evs,
    trace (fst (learn bk cfg total_timesteps env s)) = trace s ++ evs
    /\ forall n sz g b sb,
        In (Train n sz g b sb) evs ->
        (n > 0)%Z /\ (n > learning_starts cfg)%Z /\ (g > 0)%Z
        /\ In (Rollout n true) evs.
Proof.
  unfold learn.
  destruct (learn_loop _ bk cfg total_timesteps env s) as [s' r] eqn:E.
  destruct (learn_loop_run _ _ _ _ _ _ E) as (evs & k & Ht & _ & _ & _ & Hw).
  exists evs. split; [exact Ht | exact Hw].
Qed.

(** C7 as stated fails: with [p = 0] and [learning_starts = 1] the second
    pass calls the sink at step count 2 while the labeled store is empty. *)
Lemma training_with_empty_labeled_store :
  ~ (forall bk cfg total_timesteps env s n sz g b sb,
        In (Train n sz g b sb)
           (trace (fst (learn bk cfg total_timesteps env s))) ->
        (Z.of_nat sz > learning_starts cfg)%Z).
Proof.
  intros H.
  specialize (H SpecBackend.backend (Sample.cfg 0 1 5) 2%Z Sample.env2
                Sample.start 2%Z 0%nat 1%Z 256%Z 512%Z).
  assert (Hin : In (Train 2 0 1 256 512)
                  (trace (fst (learn SpecBackend.backend (Sample.cfg 0 1 5) 2
                                 Sample.env2 Sample.start)))).
  { vm_compute. tauto. }
  apply H in Hin. vm_compute in Hin. discriminate.
Qed.

(** ** The refresh condition *)

(** C10.  After a rollout that lets the loop go on, the refresh branch is
    entered if and only if pseudo mode is on, the step count is exactly
    divisible by [ssl_freq] and the step count is above
    [learning_starts // 2].  A rollout that returns has taken at least one
    step from the head of the environment's steps and has moved the count by
    exactly [num_envs] for each step taken, so the count at a rollout
    boundary is the starting count plus [num_envs] per collected step; the
    condition is tested at boundaries only: when no boundary count is a
    multiple of [ssl_freq] the branch is never entered. *)
Theorem refresh_exactly_when_due (bk : Backend) (cfg : Config)
  (total_timesteps : Z) (env : list EnvStep) (s : Algo) :
  (forall s0,
      fst (refresh_due cfg s0) = s0
      /\ (snd (refresh_due cfg s0) = Ok true
          <-> pseudo_mode cfg = true
              /\ ssl_freq cfg <> 0%Z
              /\ (num_timesteps s0 mod ssl_freq cfg = 0)%Z
              /\ (num_timesteps s0 > learning_starts cfg / 2)%Z))
  /\ (forall env0 env1 s0 s1 rollout,
        collect_rollouts cfg env0 s0 = (s1, Ok (rollout, env1)) ->
        exists taken,
          env0 = taken ++ env1
          /\ taken <> []
          /\ num_timesteps s1
             = (num_timesteps s0
                + Z.of_nat (List.length taken) * num_envs cfg)%Z
          /\ episode_timesteps rollout
             = (Z.of_nat (List.length taken) * num_envs cfg)%Z)
  /\ exists evs,
      trace (fst (learn bk cfg total_timesteps env s)) = trace s ++ evs
      /\ (forall m, In (Refresh m) evs
                    <-> In (Rollout m true) evs /\ refresh_condition cfg m)
      /\ (forall m c, In (Rollout m c) evs ->
            exists k : nat, m = (num_timesteps s + Z.of_nat k * num_envs cfg)%Z)
      /\ ((forall m, In (Rollout m true) evs ->
                     (m mod ssl_freq cfg)%Z <> 0%Z) ->
          forall m, ~ In (Refresh m) evs).
Proof.
  split; [| split].
  - intros s0. destruct (refresh_due_run cfg s0) as (rd & Hrd & Hiff & _).
    rewrite Hrd. cbn. split; [reflexivity | exact Hiff].
  - intros env0 env1 s0 s1 rollout H.
    destruct (collect_rollouts_steps _ _ _ H)
      as (taken & Henv & Hne & Hcount & Het).
    exists taken. now repeat split.
  - unfold learn.
    destruct (learn_loop _ bk cfg total_timesteps env s) as [s' r] eqn:E.
    destruct (learn_loop_run _ _ _ _ _ _ E)
      as (evs & k & Ht & _ & HA & HB & _).
    exists evs. cbn [fst]. split; [exact Ht |]. split; [exact HA |].
    split; [exact HB |].
    intros Hno m Hin. apply HA in Hin. destruct Hin as (Hr & _ & _ & Hm & _).
    now apply (Hno m).
Qed.

(** ** Failure of a cycle *)

(** C3, as the code has it.  [learn] has no handler: when a refresh cycle
    raises, the error leaves the pass and the loop, so no further rollout
    and no training follow; the trace gets the boundary and refresh marks
    and telemetry records only.  The cycle cleared the pseudo store before it
    failed and wrote nothing to it afterwards: the store is empty (or still
    missing), never partially filled, and the labeled and unlabeled stores
    are as the rollout left them. *)
Theorem failing_cycle_propagates (bk : Backend) (cfg : Config)
  (total_timesteps : Z) (env env' : list EnvStep) (s s1 s3 : Algo)
  (rollout : RolloutReturn) (e : exn) :
  (num_timesteps s < total_timesteps)%Z ->
  collect_rollouts cfg env s = (s1, Ok (rollout, env')) ->
  continue_training rollout = true ->
  refresh_condition cfg (num_timesteps s1) ->
  refresh_cycle bk cfg
    (emit (Refresh (num_timesteps s1))
          (emit (Rollout (num_timesteps s1) true) s1))
  = (s3, Raise e) ->
  learn bk cfg total_timesteps env s = (s3, Raise e)
  /\ ssl_replay_buffer s3
     = option_map ReplayBuffer.reset (ssl_replay_buffer s1)
  /\ (forall b, ssl_replay_buffer s3 = Some b ->
                ReplayBuffer.size b = 0%nat /\ ReplayBuffer.data b = [])
  /\ replay_buffer s3 = replay_buffer s1
  /\ unlabeled_replay_buffer s3 = unlabeled_replay_buffer s1
  /\ exists recs,
      trace s3
      = trace s1 ++ Rollout (num_timesteps s1) true
                 :: Refresh (num_timesteps s1) :: recs
      /\ Forall is_record recs.
Proof.
  intros Hlt Hcol Hcont Hc Hcycle.
  destruct (@learn_loop_cycle_raise bk cfg total_timesteps (List.length env)
              env env' s s1 s3 rollout e Hlt Hcol Hcont Hc Hcycle)
    as (_ & Hloop).
  destruct (refresh_cycle_frame _ _ _ Hcycle)
    as (_ & Hlb & Hub & (recs & Ht & Hrec) & Hssl).
  specialize (Hssl e eq_refl). cbn in Hlb, Hub, Ht, Hssl.
  split; [exact Hloop |]. split; [exact Hssl |]. split.
  - intros b Hb. rewrite Hssl in Hb.
    destruct (ssl_replay_buffer s1); [| discriminate].
    injection Hb as <-. auto.
  - split; [exact Hlb |]. split; [exact Hub |].
    exists recs. split; [| exact Hrec].
    rewrite Ht, <- !app_assoc. reflexivity.
Qed.

Lemma failing_cycle_propagates_witness :
  exists s3,
    learn SpecBackend.backend (Sample.cfg 0 0 1) 2 Sample.env2 Sample.start
    = (s3, Raise ValueError)
    /\ forall b, ssl_replay_buffer s3 = Some b ->
                 ReplayBuffer.size b = 0%nat /\ ReplayBuffer.data b = [].
Proof.
  eexists.
  refine ((fun H => conj (proj1 H) (proj1 (proj2 (proj2 H))))
            (@failing_cycle_propagates SpecBackend.backend (Sample.cfg 0 0 1)
               2 Sample.env2 _ Sample.start _ _ _ ValueError
               _ _ _ _ _)).
  - reflexivity.
  - vm_compute. reflexivity.
  - reflexivity.
  - unfold refresh_condition. vm_compute. repeat split; discriminate.
  - vm_compute. reflexivity.
Defined.

(** C3 as stated fails: with [p = 0] the first cycle finds no labeled
    transition, the encoding of the empty labeled snapshot raises, and the
    error is not skipped: [learn] ends with it after one of the two steps,
    below its budget, with the refresh mark as its last event. *)
Lemma cycle_error_leaves_learn :
  ~ (forall bk cfg total_timesteps env env' s s1 s3 rollout e,
        (num_timesteps s < total_timesteps)%Z ->
        collect_rollouts cfg env s = (s1, Ok (rollout, env')) ->
        continue_training rollout = true ->
        refresh_condition cfg (num_timesteps s1) ->
        refresh_cycle bk cfg
          (emit (Refresh (num_timesteps s1))
                (emit (Rollout (num_timesteps s1) true) s1))
        = (s3, Raise e) ->
        snd (learn bk cfg total_timesteps env s) <> Raise e).
Proof.
  intros H.
  apply (H SpecBackend.backend (Sample.cfg 0 0 1) 2%Z Sample.env2
              [Sample.step (Sample.tr 1 0 0) (1 # 2)] Sample.start
              (fst (collect_rollouts (Sample.cfg 0 0 1) Sample.env2
                      Sample.start))
              (fst (learn SpecBackend.backend (Sample.cfg 0 0 1) 2
                      Sample.env2 Sample.start))
              {| episode_timesteps := 1; n_episodes := 0;
                 continue_training := true |}
              ValueError).
  - reflexivity.
  - vm_compute. reflexivity.
  - reflexivity.
  - unfold refresh_condition. vm_compute. repeat split; discriminate.
  - vm_compute. reflexivity.
  - vm_compute. reflexivity.
Qed.

(** ** The empty snapshot *)

Lemma state_action_nonempty (replay_data : list Transition) (rows : list Row) :
  state_action replay_data = Ok rows ->
  exists x rest, replay_data = x :: rest /\ rows = sa_row x :: map sa_row rest.
Proof.
  rewrite state_action_eq. destruct replay_data as [| x rest]; [discriminate |].
  destruct (forallb _ _); [| discriminate].
  intros [= <-]. exists x, rest. split; reflexivity.
Qed.

Lemma state_action_error (replay_data : list Transition) (e : exn) :
  state_action replay_data = Raise e -> e = ValueError.
Proof.
  rewrite state_action_eq. destruct replay_data as [| x rest].
  - now intros [= <-].
  - destruct (forallb _ _); [discriminate | now intros [= <-]].
Qed.

Lemma cycle_locals_empty (bk : Backend) (method : string)
  (ld ud : list Transition) :
  ud = [] \/ ld = [] ->
  cycle_locals bk method ld ud = Raise ValueError.
Proof.
  intros Hempty. unfold cycle_locals.
  destruct (state_action ud) as [U | e] eqn:EU.
  - destruct Hempty as [-> | ->].
    + rewrite state_action_eq in EU. discriminate EU.
    + rewrite (state_action_eq []). reflexivity.
  - apply state_action_error in EU. now subst e.
Qed.

(** C5, as the code has it.  A cycle is attempted with an empty snapshot
    when a refresh is due and the unlabeled store is empty, as it stays with
    [p = 1.0] where every draw below 1 routes to the labeled store, or when
    the labeled store is empty.  The one-hot encoding of the empty snapshot
    then raises [ValueError] before any node is formed, whatever the graph
    builder and the engine are; the error leaves the refresh branch (there
    is no handler that skips the cycle) and the pseudo store is the one the
    cycle cleared, of size 0.  The builder is never given an empty node set:
    when both encodings succeed, the node set has a first row. *)
Theorem empty_snapshot_raises (bk : Backend) (cfg : Config)
  (rollout : RolloutReturn) (s : Algo) (ssl ub : ReplayBuffer.t)
  (ld ud : list Transition) :
  refresh_condition cfg (num_timesteps s) ->
  ssl_replay_buffer s = Some ssl ->
  unlabeled_replay_buffer s = Some ub ->
  ReplayBuffer._get_samples (replay_buffer s)
    (Np.arange (ReplayBuffer.size (replay_buffer s))) = Ok ld ->
  ReplayBuffer._get_samples ub (Np.arange (ReplayBuffer.size ub)) = Ok ud ->
  ud = [] \/ ld = [] ->
  after_rollout bk cfg rollout s
  = (set_ssl_replay_buffer (ReplayBuffer.reset ssl)
       (emit (Refresh (num_timesteps s)) s),
     Raise ValueError)
  /\ ReplayBuffer.size (ReplayBuffer.reset ssl) = 0%nat
  /\ (forall u, p cfg == 1 -> u < 1 -> Qltb u (p cfg) = true)
  /\ (forall ld' ud' U L,
        state_action ud' = Ok U ->
        state_action ld' = Ok L ->
        exists r nodes, graph_nodes U L = Ok (r :: nodes)).
Proof.
  intros Hc Hssl Hub Hld Hud Hempty. split; [| split; [| split]].
  - apply after_rollout_cycle_raise; [exact Hc |].
    unfold refresh_cycle, bind, attr, modify, gets, lift.
    cbn. rewrite Hssl. cbn. rewrite Hub. cbn. rewrite Hld, Hud.
    now rewrite (cycle_locals_empty bk (method cfg) Hempty).
  - reflexivity.
  - intros u Hp Hu. apply Qltb_lt. now rewrite Hp.
  - intros ld' ud' U L HU HL.
    destruct (state_action_nonempty _ HU) as (x & rest & _ & ->).
    rewrite nodes_first_occurrences.
    destruct (dedup (dedup (sa_row x :: map sa_row rest) ++ dedup L))
      as [| r nodes] eqn:E; [| eauto].
    exfalso.
    assert (Hin : In (sa_row x)
                     (dedup (dedup (sa_row x :: map sa_row rest)
                             ++ dedup L))).
    { apply (dedup_first_In row_eqb row_leb row_eqb_spec).
      apply in_or_app. left.
      apply (dedup_first_In row_eqb row_leb row_eqb_spec). now left. }
    rewrite E in Hin. contradiction.
Qed.

Lemma empty_snapshot_raises_witness :
  after_rollout SpecBackend.backend (Sample.cfg 1 0 1)
    {| episode_timesteps := 1; n_episodes := 0; continue_training := true |}
    Sample2.labeled_only
  = (set_ssl_replay_buffer (ReplayBuffer.reset (ReplayBuffer.empty 8))
       (emit (Refresh 1) Sample2.labeled_only),
     Raise ValueError).
Proof.
  refine (proj1 (@empty_snapshot_raises SpecBackend.backend
                   (Sample.cfg 1 0 1)
                   {| episode_timesteps := 1; n_episodes := 0;
                      continue_training := true |}
                   Sample2.labeled_only (ReplayBuffer.empty 8)
                   (ReplayBuffer.empty 8) [Sample.tr 0 0 1] []
                   _ _ _ _ _ _)).
  - unfold refresh_condition. vm_compute. repeat split; discriminate.
  - reflexivity.
  - reflexivity.
  - reflexivity.
  - reflexivity.
  - left. reflexivity.
Defined.

(** C5 as stated fails.  With [p = 1.0] the unlabeled store stays empty and
    the cycle that runs after the first step does not get to the builder:
    the run ends in the [ValueError] of the encoding, not in
    [InsufficientDataError], and the cycle is not skipped, as [learn] ends
    with the error below its budget of two steps. *)
Lemma full_labelling_stops_learn :
  let run := learn SpecBackend.backend (Sample.cfg 1 0 1) 2
               [Sample.step (Sample.tr 0 0 1) (1 # 2);
                Sample.step (Sample.tr 1 0 1) (1 # 2)] Sample.start in
  p (Sample.cfg 1 0 1) == 1
  /\ unlabeled_replay_buffer (fst run) = Some (ReplayBuffer.empty 8)
  /\ ssl_replay_buffer (fst run) = Some (ReplayBuffer.empty 8)
  /\ trace (fst run)
     = [Record_ "buffer/num_labeled_rewards" 1; Rollout 1 true; Refresh 1]
  /\ num_timesteps (fst run) = 1%Z
  /\ snd run = Raise ValueError
  /\ snd run <> Raise InsufficientDataError
  /\ snd run <> Ok tt.
Proof.
  vm_compute. repeat split; try tauto; try discriminate.
Qed.

(** ** Construction and setup *)

(** C6, as the code has it.  Construction and setup check none of the SSL
    method name, the cadence and the probability: whatever their values,
    [__init__] stores them unchanged and [_setup_model] builds the stores.
    A zero cadence shows only after the first rollout, when the refresh
    condition divides by it. *)
Theorem setup_accepts_any_configuration
  (capacity unlabeled_capacity ssl_capacity : nat)
  (warmup batch ssl_batch : Z) (tf : TrainFreq)
  (steps : Z) (prob : Q) (pseudo : bool) (cadence : Z)
  (name : string) (envs : Z) :
  exists cfg s,
    init capacity unlabeled_capacity ssl_capacity warmup batch ssl_batch tf
         steps prob pseudo cadence name envs = Ok cfg
    /\ p cfg = prob
    /\ ssl_freq cfg = cadence
    /\ method cfg = name
    /\ pseudo_mode cfg = pseudo
    /\ _setup_model cfg = Ok s
    /\ num_timesteps s = 0%Z
    /\ trace s = []
    /\ (pseudo = true -> cadence = 0%Z ->
        forall bk rollout s0,
          after_rollout bk cfg rollout s0 = (s0, Raise ZeroDivisionError)).
Proof.
  eexists. eexists. split; [reflexivity |].
  repeat (split; [reflexivity |]).
  intros -> -> bk rollout s0. reflexivity.
Qed.

(** C6 as stated fails: a zero cadence and a probability of 2 are accepted
    by construction and by setup. *)
Lemma bad_configuration_accepted :
  ~ (forall supported capacity unlabeled_capacity ssl_capacity warmup batch
            ssl_batch tf steps prob pseudo cadence name envs,
        configuration_error supported prob cadence name ->
        init capacity unlabeled_capacity ssl_capacity warmup batch ssl_batch
             tf steps prob pseudo cadence name envs
        = Raise ConfigurationError
        \/ exists cfg,
            init capacity unlabeled_capacity ssl_capacity warmup batch
                 ssl_batch tf steps prob pseudo cadence name envs
            = Ok cfg
            /\ _setup_model cfg = Raise ConfigurationError).
Proof.
  intros H.
  destruct (H (fun _ => false) 8%nat 8%nat 8%nat 0%Z 256%Z 512%Z
              {| frequency := 1; unit := STEP |} 1%Z 2 true 0%Z
              "Nonesuch"%string 1%Z) as [E | (cfg & _ & E)].
  - left. reflexivity.
  - discriminate.
  - discriminate.
Qed.

(** ** The seeds of the inference *)

(** C1 fails on the code.  With one labeled and one unlabeled transition
    that differ, the graph has the unlabeled row as node 0 and the labeled
    row as node 1, while the seed indices are [[0]]: the seed (carrying the
    label of the labeled reward) sits on the unlabeled node, and the labeled
    node is not seeded. *)
Theorem seed_indices_miss_labeled_nodes :
  exists loc,
    cycle_locals SpecBackend.backend "Laplace"
      Sample.labeled1 Sample.unlabeled1 = Ok loc
    /\ X_prime_unique loc
       = [sa_row (Sample.tr 0 0 0); sa_row (Sample.tr 1 0 1)]
    /\ unique_labeled_sa loc = [sa_row (Sample.tr 1 0 1)]
    /\ train_ind loc = [0%nat]
    /\ List.length (train_labels loc) = List.length (train_ind loc)
    /\ nth_error (X_prime_unique loc) 0 = Some (sa_row (Sample.tr 0 0 0))
    /\ ~ In (sa_row (Sample.tr 0 0 0)) (unique_labeled_sa loc)
    /\ nth_error (X_prime_unique loc) 1 = Some (sa_row (Sample.tr 1 0 1))
    /\ In (sa_row (Sample.tr 1 0 1)) (unique_labeled_sa loc)
    /\ ~ In 1%nat (train_ind loc).
Proof.
  eexists. split; [vm_compute; reflexivity |].
  vm_compute. repeat split; try reflexivity; try tauto.
  - intros [E | []]. discriminate.
  - intros [E | []]. discriminate.
Qed.

(** ** The pseudo store after a cycle *)

(** C2 fails on the code.  With two labeled and two unlabeled transitions
    the cycle completes; the pseudo store holds the two unlabeled
    transitions with every field but the reward unchanged, but the first one
    carries reward 1 while the label predicted for its own node (node 0)
    maps back to reward 0: the rewards written are those of the nodes from
    position 2 on, which are the labeled rows. *)
Theorem pseudo_reward_of_another_node :
  let cfg := Sample.cfg (1 # 2) 0 1 in
  let s := Sample.algo 4 Sample.labeled2 Sample.unlabeled2 in
  exists loc b,
    cycle_locals SpecBackend.backend (method cfg)
      Sample.labeled2 Sample.unlabeled2 = Ok loc
    /\ snd (refresh_cycle SpecBackend.backend cfg s) = Ok tt
    /\ ssl_replay_buffer (fst (refresh_cycle SpecBackend.backend cfg s))
       = Some b
    /\ ReplayBuffer.data b
       = [ReplayBuffer.with_reward (Sample.tr 0 0 0) 1;
          ReplayBuffer.with_reward (Sample.tr 10 0 1) 0]
    /\ nth_error (X_prime_unique loc) 0 = Some (sa_row (Sample.tr 0 0 0))
    /\ nth_error (pseudo_rewards loc) 0 = Some 0%Z
    /\ nth_error (X_prime_unique loc) 2 = Some (sa_row (Sample.tr 11 0 0))
    /\ nth_error (pseudo_rewards loc) 2 = Some 1%Z
    /\ train_ind loc = [0%nat; 1%nat].
Proof.
  eexists. eexists. split; [vm_compute; reflexivity |].
  split; [vm_compute; reflexivity |].
  split; [vm_compute; reflexivity |].
  vm_compute. repeat split; reflexivity.
Qed.

(** ** The sample inputs *)

Lemma setup_gives_sample_start (prob : Q) (warmup cadence : Z) :
  _setup_model (Sample.cfg prob warmup cadence) = Ok Sample.start.
Proof. reflexivity. Qed.

(** * Further properties of the code *)

(** ** The structure of the node sequence *)

Section DedupFacts.

Variable A : Type.
Variable eqb : A -> A -> bool.
Hypothesis eqb_spec : forall x y, eqb x y = true <-> x = y.

Lemma dedup_first_NoDup (l : list A) : NoDup (dedup_first eqb l).
Proof.
  induction l as [| x l IH]; simpl; [constructor |].
  constructor.
  - rewrite filter_In. intros [_ H].
    rewrite (proj2 (eqb_spec x x) eq_refl) in H. discriminate.
  - now apply NoDup_filter.
Qed.

Lemma dedup_first_app (a b : list A) :
  dedup_first eqb (a ++ b)
  = dedup_first eqb a
    ++ filter (fun y => negb (Np.mem eqb y a)) (dedup_first eqb b).
Proof.
  induction a as [| x a IH]; simpl.
  - induction (dedup_first eqb b) as [| y d IHd]; simpl; congruence.
  - f_equal. rewrite IH, filter_app. f_equal.
    rewrite filter_filter. apply filter_ext. intros y.
    rewrite negb_orb. apply andb_comm.
Qed.

Lemma mem_dedup_first (y : A) (l : list A) :
  Np.mem eqb y (dedup_first eqb l) = Np.mem eqb y l.
Proof.
  apply eq_true_iff_eq.
  rewrite !(mem_spec eqb eqb eqb_spec). apply (dedup_first_In eqb eqb eqb_spec).
Qed.

Lemma dedup_merge (u l : list A) :
  dedup_first eqb (dedup_first eqb u ++ dedup_first eqb l)
  = dedup_first eqb u
    ++ filter (fun y => negb (Np.mem eqb y u)) (dedup_first eqb l).
Proof.
  rewrite dedup_first_app, !(dedup_first_idem eqb eqb_spec). f_equal.
  apply filter_ext. intros y. now rewrite mem_dedup_first.
Qed.

Lemma filter_split_length (f : A -> bool) (l : list A) :
  List.length l
  = (List.length (filter f l)
     + List.length (filter (fun y => negb (f y)) l))%nat.
Proof.
  induction l as [| x l IH]; simpl; [reflexivity |].
  destruct (f x); simpl; lia.
Qed.

End DedupFacts.

(** The nodes are the unique unlabeled rows, in order, followed by the
    unique labeled rows that are not unlabeled rows.  No row occurs twice,
    every row of either snapshot is a node, and there are at least as many
    nodes as unique labeled rows, so the seed indices are positions of the
    node sequence. *)
Theorem graph_nodes_structure (U L : list Row) :
  exists nodes,
    graph_nodes U L = Ok nodes
    /\ nodes = dedup U ++ filter (fun r => negb (Np.mem row_eqb r U)) (dedup L)
    /\ NoDup nodes
    /\ (forall r, In r nodes <-> In r U \/ In r L)
    /\ (List.length (dedup L) <= List.length nodes)%nat
    /\ Forall (fun i => (i < List.length nodes)%nat)
              (Np.arange (List.length (dedup L))).
Proof.
  eexists. split; [apply nodes_first_occurrences |].
  assert (Hm : dedup (dedup U ++ dedup L)
               = dedup U
                 ++ filter (fun r => negb (Np.mem row_eqb r U)) (dedup L))
    by (apply dedup_merge, row_eqb_spec).
  split; [exact Hm |].
  assert (Hin : forall r, In r (dedup (dedup U ++ dedup L))
                          <-> In r U \/ In r L).
  { intros r. rewrite (dedup_first_In row_eqb row_leb row_eqb_spec), in_app_iff,
      !(dedup_first_In row_eqb row_leb row_eqb_spec). tauto. }
  assert (Hlen : (List.length (dedup L)
                  <= List.length (dedup (dedup U ++ dedup L)))%nat).
  { rewrite Hm, length_app.
    rewrite (filter_split_length (fun r => Np.mem row_eqb r U) (dedup L)).
    apply Nat.add_le_mono_r.
    apply NoDup_incl_length.
    - apply NoDup_filter, dedup_first_NoDup, row_eqb_spec.
    - intros r Hr. apply filter_In in Hr. destruct Hr as [_ Hr].
      apply (mem_spec row_eqb row_leb row_eqb_spec) in Hr.
      now apply (dedup_first_In row_eqb row_leb row_eqb_spec). }
  split; [apply dedup_first_NoDup, row_eqb_spec |].
  split; [exact Hin |]. split; [exact Hlen |].
  apply Forall_forall. intros i Hi. unfold Np.arange in Hi.
  apply in_seq in Hi. lia.
Qed.

(** ** Indexing and deleting with index ranges *)

Section DedupOnFacts.

Variable A B : Type.
Variable eqb leb : B -> B -> bool.
Variable key : A -> B.
Hypothesis eqb_spec : forall x y, eqb x y = true <-> x = y.

Lemma map_filter_key (g : B -> bool) (d : list A) :
  map key (filter (fun y => g (key y)) d) = filter g (map key d).
Proof.
  induction d as [| y d IHd]; [reflexivity |].
  cbn [filter map]. destruct (g (key y)); cbn [map]; now rewrite IHd.
Qed.

Lemma map_dedup_on (l : list A) :
  map key (dedup_on eqb key l) = dedup_first eqb (map key l).
Proof.
  induction l as [| x l IH]; simpl; [reflexivity |].
  f_equal. rewrite <- IH.
  apply (map_filter_key (fun b => negb (eqb (key x) b))).
Qed.

Lemma dedup_on_nth (x : A) (l : list A) :
  In x (dedup_on eqb key l) ->
  nth_error l (Np.first_index eqb (key x) (map key l)) = Some x.
Proof.
  induction l as [| y l IH]; simpl; [contradiction |].
  intros [-> | Hx].
  - now rewrite (proj2 (eqb_spec (key x) (key x)) eq_refl).
  - apply filter_In in Hx. destruct Hx as [Hx Hne].
    destruct (eqb (key y) (key x)); [discriminate |].
    simpl. now apply IH.
Qed.

Lemma dedup_on_incl (x : A) (l : list A) : In x (dedup_on eqb key l) -> In x l.
Proof.
  induction l as [| y l IH]; simpl; [tauto |].
  intros [-> | Hx]; [now left |].
  apply filter_In in Hx. right. now apply IH.
Qed.

(** Indexing a column with the sorted first-occurrence indices of its keys
    keeps the elements whose key occurs for the first time. *)
Lemma take_dedup_on (l : list A) :
  Np.take l (Np.sort (snd (Np.unique eqb leb (map key l))))
  = Ok (dedup_on eqb key l).
Proof.
  rewrite (sorted_unique_indices eqb leb eqb_spec), <- map_dedup_on, map_map.
  unfold Np.take. rewrite <- (map_id (dedup_on eqb key l)) at 2.
  apply omap_map_ok. intros x Hx. cbv beta.
  now rewrite (dedup_on_nth _ _ Hx).
Qed.

End DedupOnFacts.

Lemma existsb_eqb_seq (k n : nat) :
  existsb (Nat.eqb k) (seq 0 n) = (k <? n).
Proof.
  apply eq_true_iff_eq. rewrite existsb_exists, Nat.ltb_lt. split.
  - intros (i & Hi & E). apply in_seq in Hi. apply Nat.eqb_eq in E. lia.
  - intros H. exists k. split; [apply in_seq; lia | apply Nat.eqb_refl].
Qed.

Lemma delete_from_arange {A} (a : list A) :
  forall k n, Np.delete_from k a (Np.arange n) = skipn (n - k) a.
Proof.
  unfold Np.arange.
  induction a as [| x a IH]; intros k n; simpl.
  - now rewrite skipn_nil.
  - rewrite existsb_eqb_seq, IH.
    destruct (k <? n) eqn:E.
    + apply Nat.ltb_lt in E. replace (n - k)%nat with (S (n - S k)) by lia.
      reflexivity.
    + apply Nat.ltb_ge in E. replace (n - k)%nat with 0%nat by lia.
      replace (n - S k)%nat with 0%nat by lia. reflexivity.
Qed.

(** [np.delete(a, np.arange(n))] drops the first [n] entries, and raises
    when [a] has fewer. *)
Lemma delete_arange {A} (a : list A) (n : nat) :
  Np.delete a (Np.arange n)
  = if n <=? List.length a then Ok (skipn n a) else Raise IndexError.
Proof.
  unfold Np.delete. rewrite delete_from_arange, Nat.sub_0_r.
  destruct (n <=? List.length a) eqn:E.
  - apply Nat.leb_le in E.
    replace (forallb _ _) with true; [reflexivity |].
    symmetry. apply forallb_forall. intros i Hi. apply in_seq in Hi.
    apply Nat.ltb_lt. lia.
  - apply Nat.leb_gt in E.
    replace (forallb _ _) with false; [reflexivity |].
    symmetry. apply not_true_iff_false. intros H.
    rewrite forallb_forall in H.
    specialize (H (n - 1)%nat). rewrite Nat.ltb_lt in H.
    assert (In (n - 1)%nat (Np.arange n)) by (apply in_seq; lia).
    apply H in H0. lia.
Qed.

(** ** What the stores hold after additions *)

Lemma write_In (i : nat) (x y : Transition) (l : list Transition) :
  In y (ReplayBuffer.write i x l) -> y = x \/ In y l.
Proof.
  revert i; induction l as [| z l IH]; intros [| i]; simpl.
  - intros [<- | []]. now left.
  - intros [<- | []]. now left.
  - intros [<- | H]; auto.
  - intros [<- | H]; auto. apply IH in H. tauto.
Qed.

Lemma add_In (b : ReplayBuffer.t) (x y : Transition) :
  In y (ReplayBuffer.data (ReplayBuffer.add b x)) ->
  y = x \/ In y (ReplayBuffer.data b).
Proof.
  unfold ReplayBuffer.add. destruct (_ =? _); simpl; apply write_In.
Qed.

Lemma fold_add_In (xs : list Transition) :
  forall b y,
    In y (ReplayBuffer.data (fold_left ReplayBuffer.add xs b)) ->
    In y xs \/ In y (ReplayBuffer.data b).
Proof.
  induction xs as [| x xs IH]; intros b y H; simpl in *; [auto |].
  apply IH in H. destruct H as [H | H]; [auto |].
  apply add_In in H. destruct H as [-> | H]; auto.
Qed.

(** ** The refresh cycle, further *)

Lemma state_action_raises (x : Transition) (l : list Transition) :
  In x l -> (4 <= action x)%nat -> state_action l = Raise ValueError.
Proof.
  intros Hin Hx. rewrite state_action_eq.
  destruct l as [| y l]; [reflexivity |].
  destruct (forallb _ (y :: l)) eqn:E; [| reflexivity].
  rewrite forallb_forall in E. specialize (E x Hin).
  apply Nat.ltb_lt in E. lia.
Qed.

Lemma cycle_locals_wide_action (bk : Backend) (method : string)
  (ld ud : list Transition) (x : Transition) :
  In x (ud ++ ld) -> (4 <= action x)%nat ->
  cycle_locals bk method ld ud = Raise ValueError.
Proof.
  intros Hin Hx. unfold cycle_locals. apply in_app_or in Hin.
  destruct Hin as [Hin | Hin].
  - now rewrite (state_action_raises _ _ Hin Hx).
  - rewrite (state_action_raises _ _ Hin Hx).
    destruct (state_action ud) as [U | e] eqn:EU; [reflexivity |].
    apply state_action_error in EU. now subst e.
Qed.

(** The one-hot width is fixed at four: as soon as either store holds a
    transition whose action index is 4 or more, every refresh cycle raises
    [ValueError] (the library widens its array, which no longer fits the
    four columns), after it has cleared the pseudo store and before anything
    else is written or recorded. *)
Theorem cycle_rejects_wide_actions (bk : Backend) (cfg : Config) (s : Algo)
  (ssl ub : ReplayBuffer.t) (ld ud : list Transition) (x : Transition) :
  ssl_replay_buffer s = Some ssl ->
  unlabeled_replay_buffer s = Some ub ->
  ReplayBuffer._get_samples (replay_buffer s)
    (Np.arange (ReplayBuffer.size (replay_buffer s))) = Ok ld ->
  ReplayBuffer._get_samples ub (Np.arange (ReplayBuffer.size ub)) = Ok ud ->
  In x (ud ++ ld) ->
  (4 <= action x)%nat ->
  refresh_cycle bk cfg s
  = (set_ssl_replay_buffer (ReplayBuffer.reset ssl) s, Raise ValueError).
Proof.
  intros Hssl Hub Hld Hud Hin Hx.
  unfold refresh_cycle, bind, attr, modify, gets, lift.
  rewrite Hssl. cbn. rewrite Hub. cbn. rewrite Hld, Hud.
  now rewrite (cycle_locals_wide_action bk (method cfg) _ _ _ Hin Hx).
Qed.

Lemma cycle_rejects_wide_actions_witness :
  refresh_cycle SpecBackend.backend (Sample.cfg (1 # 2) 0 1)
    (Sample.algo 4 [Sample.tr 0 0 1] [Sample.tr 1 4 0])
  = (set_ssl_replay_buffer (ReplayBuffer.reset (ReplayBuffer.empty 8))
       (Sample.algo 4 [Sample.tr 0 0 1] [Sample.tr 1 4 0]),
     Raise ValueError).
Proof.
  apply (@cycle_rejects_wide_actions SpecBackend.backend
           (Sample.cfg (1 # 2) 0 1)
           (Sample.algo 4 [Sample.tr 0 0 1] [Sample.tr 1 4 0])
           (ReplayBuffer.empty 8)
           (Sample.store 8 [Sample.tr 1 4 0])
           [Sample.tr 0 0 1] [Sample.tr 1 4 0] (Sample.tr 1 4 0)).
  - reflexivity.
  - reflexivity.
  - reflexivity.
  - reflexivity.
  - simpl. left. reflexivity.
  - simpl. lia.
Defined.

(** A cycle that completes refills the cleared pseudo store from the
    unlabeled snapshot: with the transitions whose state-action row occurs
    for the first time, in order, paired with the pseudo rewards that remain
    after the first [nL] are dropped, [nL] being the number of unique labeled
    rows.  Every transition the pseudo store then holds is a transition of
    the unlabeled store with nothing but its reward replaced by one of the
    pseudo rewards; the labeled and unlabeled stores are as before. *)
Theorem cycle_refills_pseudo_store (bk : Backend) (cfg : Config)
  (s s' : Algo) (ssl : ReplayBuffer.t) :
  ssl_replay_buffer s = Some ssl ->
  refresh_cycle bk cfg s = (s', Ok tt) ->
  exists ub ld ud loc refill,
    unlabeled_replay_buffer s = Some ub
    /\ ReplayBuffer._get_samples (replay_buffer s)
         (Np.arange (ReplayBuffer.size (replay_buffer s))) = Ok ld
    /\ ReplayBuffer._get_samples ub (Np.arange (ReplayBuffer.size ub)) = Ok ud
    /\ cycle_locals bk (method cfg) ld ud = Ok loc
    /\ refill = ReplayBuffer.extend (ReplayBuffer.reset ssl)
                  (dedup_on row_eqb sa_row ud)
                  (skipn (List.length (dedup (map sa_row ld)))
                         (pseudo_rewards loc))
    /\ ssl_replay_buffer s' = Some refill
    /\ (forall y, In y (ReplayBuffer.data refill) ->
          exists x r, In x ud /\ In r (pseudo_rewards loc)
                      /\ y = ReplayBuffer.with_reward x r)
    /\ replay_buffer s' = replay_buffer s
    /\ unlabeled_replay_buffer s' = unlabeled_replay_buffer s.
Proof.
  intros Hssl H.
  destruct (refresh_cycle_frame _ _ _ H) as (_ & Hlb & Hub' & _ & _).
  unfold refresh_cycle in H. run_in H. rewrite Hssl in H. cbn in H.
  destruct (unlabeled_replay_buffer s) as [ub |] eqn:Eub; cbn in H;
    [| discriminate H].
  destruct (ReplayBuffer._get_samples (replay_buffer s) _) as [ld |] eqn:Eld;
    cbv beta iota in H; [| discriminate H].
  destruct (ReplayBuffer._get_samples ub _) as [ud |] eqn:Eud;
    cbv beta iota in H; [| discriminate H].
  destruct (cycle_locals bk (method cfg) ld ud) as [loc |] eqn:El;
    cbv beta iota in H; [| discriminate H].
  destruct (cycle_locals_inv _ _ _ _ El)
    as (U & L & HU & HL & Hind & _ & _ & _ & _ & Htrain & _).
  apply state_action_ok in HU, HL. subst U L.
  rewrite Hind in H. unfold unique_ind in H.
  rewrite (take_dedup_on row_eqb row_leb sa_row row_eqb_spec ud) in H.
  cbv beta iota in H.
  rewrite Htrain, delete_arange in H.
  destruct (_ <=? _); cbv beta iota in H; [| discriminate H].
  cbn in H. injection H as <-.
  exists ub, ld, ud, loc. eexists.
  do 4 (split; [first [reflexivity | assumption] |]).
  split; [reflexivity |]. split; [reflexivity |]. split.
  - intros y Hy. unfold ReplayBuffer.extend in Hy.
    apply fold_add_In in Hy. destruct Hy as [Hy | []].
    apply in_map_iff in Hy. destruct Hy as ([x r] & <- & Hxr).
    pose proof (in_combine_l _ _ _ _ Hxr) as Hx.
    pose proof (in_combine_r _ _ _ _ Hxr) as Hr.
    exists x, r. split; [| split; [| reflexivity]].
    + apply dedup_on_incl in Hx; first [exact Hx | exact row_leb].
    + rewrite <- (firstn_skipn (List.length (dedup (map sa_row ld)))
                   (pseudo_rewards loc)).
      apply in_or_app. now right.
  - cbn. auto.
Qed.

Lemma cycle_refills_pseudo_store_witness :
  exists refill,
    ssl_replay_buffer
      (fst (refresh_cycle SpecBackend.backend (Sample.cfg (1 # 2) 0 1)
              (Sample.algo 4 Sample.labeled2 Sample.unlabeled2)))
    = Some refill
    /\ replay_buffer
         (fst (refresh_cycle SpecBackend.backend (Sample.cfg (1 # 2) 0 1)
                 (Sample.algo 4 Sample.labeled2 Sample.unlabeled2)))
       = Sample.store 8 Sample.labeled2.
Proof.
  destruct (@cycle_refills_pseudo_store SpecBackend.backend
              (Sample.cfg (1 # 2) 0 1)
              (Sample.algo 4 Sample.labeled2 Sample.unlabeled2)
              (fst (refresh_cycle SpecBackend.backend
                      (Sample.cfg (1 # 2) 0 1)
                      (Sample.algo 4 Sample.labeled2 Sample.unlabeled2)))
              (ReplayBuffer.empty 8))
    as (ub & ld & ud & loc & refill & _ & _ & _ & _ & _ & H1 & _ & H2 & _).
  - reflexivity.
  - vm_compute. reflexivity.
  - exists refill. split; [exact H1 | exact H2].
Defined.

(** ** Logging *)

Lemma same_but_trace_refl (s : Algo) : same_but_trace s s.
Proof.
  repeat split. exists []. now rewrite app_nil_r.
Qed.

Lemma same_but_trace_trans (s1 s2 s3 : Algo) :
  same_but_trace s1 s2 -> same_but_trace s2 s3 -> same_but_trace s1 s3.
Proof.
  intros (A1 & B1 & C1 & D1 & e1 & T1 & R1) (A2 & B2 & C2 & D2 & e2 & T2 & R2).
  repeat split; try congruence.
  exists (e1 ++ e2). split.
  - now rewrite T2, T1, app_assoc.
  - now apply Forall_app.
Qed.

Lemma same_but_trace_record (key : string) (value : Q) (s : Algo) :
  same_but_trace s (emit (Record_ key value) s).
Proof.
  repeat split. eexists. split; [reflexivity |]. repeat constructor.
Qed.

Lemma records_only_bind {A B} (m : M A) (k : A -> M B) :
  records_only m -> (forall a, records_only (k a)) -> records_only (bind m k).
Proof.
  intros Hm Hk s s' r H. unfold bind in H.
  destruct (m s) as [s1 [a | e]] eqn:E.
  - eapply same_but_trace_trans; [eapply Hm; exact E | eapply Hk; exact H].
  - injection H as <- <-. eapply Hm. exact E.
Qed.

Lemma records_only_ret {A} (a : A) : records_only (ret a).
Proof. intros s s' r [= <- <-]. apply same_but_trace_refl. Qed.

Lemma records_only_lift {A} (o : outcome A) : records_only (lift o).
Proof. intros s s' r [= <- <-]. apply same_but_trace_refl. Qed.

Lemma records_only_gets {A} (f : Algo -> A) : records_only (gets f).
Proof. intros s s' r [= <- <-]. apply same_but_trace_refl. Qed.

Lemma records_only_attr {A} (f : Algo -> option A) : records_only (attr f).
Proof.
  intros s s' r H. unfold attr in H.
  destruct (f s); injection H as <- <-; apply same_but_trace_refl.
Qed.

Lemma records_only_record (key : string) (value : Q) :
  records_only (record_ key value).
Proof. intros s s' r [= <- <-]. apply same_but_trace_record. Qed.

Lemma dump_logs_records_only (tel : Telemetry) (number : Z) :
  records_only (_dump_logs tel number).
Proof.
  unfold _dump_logs.
  repeat first
    [ apply records_only_bind; [| intros ?]
    | apply records_only_record
    | apply records_only_attr
    | apply records_only_gets
    | apply records_only_ret
    | match goal with
      | |- records_only (match ?x with _ => _ end) => destruct x
      end ].
Qed.

Lemma dump_logs_run (tel : Telemetry) (number : Z)
  (s : Algo) :
  same_but_trace s (fst (_dump_logs tel number s))
  /\ snd (_dump_logs tel number s)
     = match ssl_replay_buffer s with
       | Some _ => Ok tt
       | None => Raise AttributeError
       end
  /\ exists evs,
      trace (fst (_dump_logs tel number s)) = trace s ++ evs
      /\ match ssl_replay_buffer s with
         | Some ssl =>
             exists before,
               evs = before
                     ++ [Record_ "logger.dump" (inject_Z (num_timesteps s))]
               /\ In (Record_ "buffer/available_rewards"
                        (inject_Z
                           (Z.of_nat (ReplayBuffer.size ssl
                                      + ReplayBuffer.size (replay_buffer s)))))
                     before
         | None => forall v, ~ In (Record_ "logger.dump" v) evs
         end.
Proof.
  split.
  { destruct (_dump_logs tel number s) as [s' r] eqn:E.
    cbn. eapply dump_logs_records_only. exact E. }
  unfold _dump_logs, bind, record_, modify, gets, attr, ret. cbn.
  destruct (ep_means tel) as [[r l] |]; cbn;
    destruct (ssl_replay_buffer s) as [ssl |]; cbn;
    try (destruct (train_std tel); cbn; destruct (success_rate tel); cbn);
    (split; [reflexivity |]); rewrite <- ?app_assoc; cbn [app];
    eexists; (split; [reflexivity |]);
    try (eexists; split;
         [ repeat (rewrite app_comm_cons || idtac);
           match goal with
           | |- ?l = ?b ++ [?x] =>
               let l' := eval cbv in (removelast l) in
               instantiate (1 := l'); reflexivity
           end
         | cbn; auto 12 ]);
    try (intros v Hin; cbn in Hin;
         repeat (destruct Hin as [Hin | Hin]; [discriminate Hin |]);
         exact Hin).
Qed.

(** [_dump_logs] reads the size of the pseudo store without checking that
    the store exists: on an algorithm without one (pseudo mode off) the call
    raises [AttributeError] after the first records and never reaches
    [logger.dump]; with one it records the sum of the sizes of the pseudo and
    the labeled store as the available rewards and ends with the dump at the
    current step count.  Either way it changes nothing but the trace. *)
Theorem dump_logs_needs_pseudo_store (tel : Telemetry) (number : Z)
  (s : Algo) :
  same_but_trace s (fst (_dump_logs tel number s))
  /\ snd (_dump_logs tel number s)
     = match ssl_replay_buffer s with
       | Some _ => Ok tt
       | None => Raise AttributeError
       end
  /\ exists evs,
      trace (fst (_dump_logs tel number s)) = trace s ++ evs
      /\ match ssl_replay_buffer s with
         | Some ssl =>
             exists before,
               evs = before
                     ++ [Record_ "logger.dump" (inject_Z (num_timesteps s))]
               /\ In (Record_ "buffer/available_rewards"
                        (inject_Z
                           (Z.of_nat (ReplayBuffer.size ssl
                                      + ReplayBuffer.size (replay_buffer s)))))
                     before
         | None => forall v, ~ In (Record_ "logger.dump" v) evs
         end.
Proof. apply dump_logs_run. Qed.

(** ** The loop over [dones] *)

Lemma count_done_cons (d : bool) (l : list bool) :
  count_done (d :: l) = ((if d then 1 else 0) + count_done l)%Z.
Proof.
  unfold count_done. destruct d; cbn [filter List.length].
  - rewrite Nat2Z.inj_succ. lia.
  - lia.
Qed.

Lemma episode_ends_run (log_interval : option Z) (clock : Z -> Telemetry)
  (dones : list bool) :
  forall episodes number s s' r,
    episode_ends log_interval clock dones episodes number s = (s', r) ->
    same_but_trace s s'
    /\ match r with
       | Ok (episodes', number') =>
           episodes' = (episodes + count_done dones)%Z
           /\ number' = (number + count_done dones)%Z
       | Raise e =>
           (e = AttributeError /\ ssl_replay_buffer s = None)
           \/ (e = ZeroDivisionError /\ log_interval = Some 0%Z)
       end.
Proof.
  assert (Hpass : forall (s s1 s' : Algo) (r : outcome (Z * Z))
                         (episodes number episodes1 number1 c : Z)
                         (rest : list bool),
             same_but_trace s s1 ->
             (same_but_trace s1 s'
              /\ match r with
                 | Ok (episodes', number') =>
                     episodes' = (episodes1 + count_done rest)%Z
                     /\ number' = (number1 + count_done rest)%Z
                 | Raise e =>
                     (e = AttributeError /\ ssl_replay_buffer s1 = None)
                     \/ (e = ZeroDivisionError /\ log_interval = Some 0%Z)
                 end) ->
             episodes1 = (episodes + c)%Z -> number1 = (number + c)%Z ->
             same_but_trace s s'
             /\ match r with
                | Ok (episodes', number') =>
                    episodes' = (episodes + (c + count_done rest))%Z
                    /\ number' = (number + (c + count_done rest))%Z
                | Raise e =>
                    (e = AttributeError /\ ssl_replay_buffer s = None)
                    \/ (e = ZeroDivisionError /\ log_interval = Some 0%Z)
                end).
  { intros s s1 s' r episodes number episodes1 number1 c rest Hs (Hs' & Hr)
      -> ->.
    split; [eapply same_but_trace_trans; eassumption |].
    destruct r as [[e' n'] | e].
    - destruct Hr as (-> & ->). split; ring.
    - destruct Hs as (_ & _ & _ & Hssl & _). now rewrite <- Hssl. }
  induction dones as [| d dones IH]; intros episodes number s s' r H;
    cbn [episode_ends] in H.
  - injection H as <- <-. split; [apply same_but_trace_refl |].
    unfold count_done. simpl. split; ring.
  - rewrite count_done_cons. destruct d.
    + unfold bind at 1 in H.
      destruct log_interval as [interval |] eqn:Eli.
      * unfold bind at 1 in H. unfold lift, py_mod in H.
        destruct (Z.eqb_spec interval 0) as [-> | Hne].
        { injection H as <- <-. split; [apply same_but_trace_refl | auto]. }
        cbv beta iota in H.
        destruct (_ =? 0)%Z.
        -- pose proof (dump_logs_run
                         (clock (number + 1)%Z) (number + 1)%Z s)
             as (Hsame & Hres & _).
           destruct (_dump_logs (clock (number + 1)%Z) (number + 1)%Z s)
             as [s1 r1]. cbn in Hsame, Hres. subst r1.
           destruct (ssl_replay_buffer s) eqn:Essl.
           ++ apply IH in H. rewrite <- Essl.
              eapply Hpass; [exact Hsame | exact H | reflexivity | reflexivity].
           ++ injection H as <- <-. split; [assumption | auto].
        -- unfold ret in H. apply IH in H.
           eapply Hpass;
             [apply same_but_trace_refl | exact H | reflexivity | reflexivity].
      * unfold ret in H. apply IH in H.
        eapply Hpass;
          [apply same_but_trace_refl | exact H | reflexivity | reflexivity].
    + apply IH in H.
      replace episodes with (episodes + 0)%Z in H by ring.
      replace number with (number + 0)%Z in H by ring.
      eapply Hpass;
        [apply same_but_trace_refl | exact H | ring | ring].
Qed.

(** ** Rollouts in full *)

Lemma store_transition_stores (cfg : Config) (step : EnvStep) (s : Algo) :
  stores_of (fst (_store_transition cfg (random_draw step)
                    (transition step) s))
  = store_step cfg (stores_of s) step.
Proof.
  unfold _store_transition, store_step, route, stores_of, bind, gets, modify,
    ret. cbn.
  destruct (Qltb (random_draw step) (p cfg)); cbn; [reflexivity |].
  destruct (unlabeled_replay_buffer s) eqn:E; cbn; rewrite ?E; reflexivity.
Qed.

Lemma removelast_cons {A} (x : A) (l : list A) :
  l <> [] -> removelast (x :: l) = x :: removelast l.
Proof. destruct l; [congruence | reflexivity]. Qed.

Lemma collect_loop_logged_ok (cfg : Config) (log_interval : option Z)
  (clock : Z -> Telemetry) (env : list EnvStep) :
  forall steps episodes number s s' rollout env' number',
    collect_loop_logged cfg log_interval clock env steps episodes number s
    = (s', Ok (rollout, env', number')) ->
    exists taken,
      let kept := if continue_training rollout then taken
                  else removelast taken in
      env = taken ++ env'
      /\ episode_timesteps rollout
         = ((steps + Z.of_nat (List.length taken)) * num_envs cfg)%Z
      /\ num_timesteps s'
         = (num_timesteps s + Z.of_nat (List.length taken) * num_envs cfg)%Z
      /\ ssl_replay_buffer s' = ssl_replay_buffer s
      /\ (exists evs, trace s' = trace s ++ evs /\ Forall is_record evs)
      /\ stores_of s' = fold_left (store_step cfg) kept (stores_of s)
      /\ Forall (fun step => on_step step = true) kept
      /\ n_episodes rollout = (episodes + episodes_ended kept)%Z
      /\ number' = (number + episodes_ended kept)%Z
      /\ (continue_training rollout = false ->
          exists last, taken = kept ++ [last] /\ on_step last = false)
      /\ (continue_training rollout = true ->
          should_collect_more_steps (train_freq cfg)
            (steps + Z.of_nat (List.length taken)) (n_episodes rollout)
          = false)
      /\ (unit (train_freq cfg) = STEP ->
          (steps <= frequency (train_freq cfg))%Z ->
          continue_training rollout = true ->
          (steps + Z.of_nat (List.length taken))%Z = frequency (train_freq cfg))
      /\ (continue_training rollout = true -> taken <> [] ->
          should_collect_more_steps (train_freq cfg)
            (steps + Z.of_nat (List.length (removelast taken)))
            (episodes + episodes_ended (removelast taken)) = true).
Proof.
  assert (Hstop : forall steps episodes number s s' rollout env' number'
                         (env0 : list EnvStep),
             should_collect_more_steps (train_freq cfg) steps episodes = false ->
             (s, Ok ({| episode_timesteps := steps * num_envs cfg;
                        n_episodes := episodes;
                        continue_training := true |}, env0, number))
             = (s', Ok (rollout, env', number')) ->
             exists taken,
               let kept := if continue_training rollout then taken
                           else removelast taken in
               env0 = taken ++ env'
               /\ episode_timesteps rollout
                  = ((steps + Z.of_nat (List.length taken)) * num_envs cfg)%Z
               /\ num_timesteps s'
                  = (num_timesteps s
                     + Z.of_nat (List.length taken) * num_envs cfg)%Z
               /\ ssl_replay_buffer s' = ssl_replay_buffer s
               /\ (exists evs, trace s' = trace s ++ evs
                               /\ Forall is_record evs)
               /\ stores_of s' = fold_left (store_step cfg) kept (stores_of s)
               /\ Forall (fun step => on_step step = true) kept
               /\ n_episodes rollout = (episodes + episodes_ended kept)%Z
               /\ number' = (number + episodes_ended kept)%Z
               /\ (continue_training rollout = false ->
                   exists last, taken = kept ++ [last] /\ on_step last = false)
               /\ (continue_training rollout = true ->
                   should_collect_more_steps (train_freq cfg)
                     (steps + Z.of_nat (List.length taken))
                     (n_episodes rollout) = false)
               /\ (unit (train_freq cfg) = STEP ->
                   (steps <= frequency (train_freq cfg))%Z ->
                   continue_training rollout = true ->
                   (steps + Z.of_nat (List.length taken))%Z
                   = frequency (train_freq cfg))
               /\ (continue_training rollout = true -> taken <> [] ->
                   should_collect_more_steps (train_freq cfg)
                     (steps + Z.of_nat (List.length (removelast taken)))
                     (episodes + episodes_ended (removelast taken)) = true)).
  { intros steps episodes number s s' rollout env' number' env0 Hsc H.
    injection H as <- <- <- <-. exists []. cbn.
    rewrite !Z.add_0_r.
    split; [reflexivity |]. split; [reflexivity |]. split; [ring |].
    split; [reflexivity |].
    split; [exists []; now rewrite app_nil_r |].
    split; [reflexivity |]. split; [constructor |].
    split; [reflexivity |]. split; [reflexivity |].
    split; [discriminate |]. split; [intros _; exact Hsc |].
    split; [| intros _ Hne; now elim Hne].
    intros Hu Hle _. unfold should_collect_more_steps in Hsc.
    rewrite Hu in Hsc. apply Z.ltb_ge in Hsc. lia. }
  induction env as [| step env IH];
    intros steps episodes number s s' rollout env' number' H;
    cbn [collect_loop_logged] in H.
  - destruct (should_collect_more_steps _ _ _) eqn:Hsc; [discriminate H |].
    eapply Hstop; eassumption.
  - destruct (should_collect_more_steps _ _ _) eqn:Hsc.
    2:{ eapply Hstop; eassumption. }
    unfold bind at 1 in H. unfold modify at 1 in H. cbv beta iota in H.
    set (s0 := set_num_timesteps (num_timesteps s + num_envs cfg) s) in *.
    destruct (on_step step) eqn:Hon; cbn [negb] in H.
    2:{ injection H as <- <- <- <-. exists [step].
        cbn [continue_training removelast app List.length fold_left
             episodes_ended fold_right episode_timesteps n_episodes].
        change (Z.of_nat 1) with 1%Z.
        split; [reflexivity |]. split; [reflexivity |].
        split; [subst s0; unfold set_num_timesteps; cbn [num_timesteps];
                ring |].
        split; [reflexivity |].
        split; [exists []; now rewrite app_nil_r |].
        split; [reflexivity |]. split; [constructor |].
        split; [ring |]. split; [ring |].
        split; [intros _; exists step; auto |].
        split; [discriminate |]. split; discriminate. }
    unfold bind at 1 in H.
    pose proof (store_transition_stores cfg step s0) as Hst.
    destruct (store_transition_frame cfg (random_draw step)
                (transition step) s0) as (Hok & Hssl & Hn & Htr).
    destruct (_store_transition cfg (random_draw step) (transition step) s0)
      as [s1 r1]. cbn [fst snd] in Hok, Hssl, Hn, Htr, Hst. subst r1.
    unfold bind at 1 in H. unfold gets at 1 in H. cbv beta iota in H.
    unfold bind at 1 in H. unfold record_ at 1, modify at 1 in H.
    cbv beta iota in H.
    set (s2 := emit _ s1) in H.
    unfold bind at 1 in H.
    assert (Hs3 : forall s3 r3,
               (if pseudo_mode cfg && Qltb (p cfg) 1
                then ub <- attr unlabeled_replay_buffer;;
                     record_ "buffer/num_unlabeled_rewards" (size_value ub)
                else ret tt) s2 = (s3, r3) -> same_but_trace s1 s3).
    { intros s3 r3 E.
      apply same_but_trace_trans with (s2 := s2);
        [apply same_but_trace_record |].
      destruct (pseudo_mode cfg && Qltb (p cfg) 1).
      - revert E. apply records_only_bind; [apply records_only_attr |].
        intros ub. apply records_only_record.
      - injection E as <- <-. apply same_but_trace_refl. }
    destruct ((if pseudo_mode cfg && Qltb (p cfg) 1
               then ub <- attr unlabeled_replay_buffer;;
                    record_ "buffer/num_unlabeled_rewards" (size_value ub)
               else ret tt) s2) as [s3 r3] eqn:E3.
    specialize (Hs3 s3 r3 eq_refl).
    destruct r3 as [[] | e3]; [| discriminate H].
    unfold bind at 1 in H.
    destruct (episode_ends log_interval clock (dones step) episodes number s3)
      as [s4 r4] eqn:E4.
    destruct (episode_ends_run _ _ _ _ _ _ E4) as (Hs4 & Hr4).
    destruct r4 as [[episodes4 number4] | e4]; [| discriminate H].
    destruct Hr4 as (-> & ->).
    apply IH in H. destruct H as (taken & Henv & Het & Hnt & Hsl & Hev
                                    & Hstores & Hon' & Hne & Hnum & Hlast
                                    & Hsc' & Hstep & Hprev).
    pose proof (same_but_trace_trans Hs3 Hs4)
      as (A & B & C & D & evs14 & T14 & R14).
    destruct Hev as (evs & Tev & Rev).
    exists (step :: taken). cbn zeta.
    assert (Hkept : (if continue_training rollout then step :: taken
                     else removelast (step :: taken))
                    = step :: (if continue_training rollout then taken
                               else removelast taken)).
    { destruct (continue_training rollout); [reflexivity |].
      apply removelast_cons. destruct (Hlast eq_refl) as (last & -> & _).
      now destruct (removelast taken). }
    rewrite Hkept. cbn [List.length fold_left app episodes_ended fold_right].
    rewrite Nat2Z.inj_succ.
    replace (steps + Z.succ (Z.of_nat (List.length taken)))%Z
      with (steps + 1 + Z.of_nat (List.length taken))%Z by ring.
    split; [now rewrite Henv |]. split; [exact Het |].
    split; [rewrite Hnt, A, Hn; subst s0; unfold set_num_timesteps;
            cbn [num_timesteps]; ring |].
    split; [rewrite Hsl, D, Hssl; reflexivity |].
    split.
    { exists (evs14 ++ evs). split.
      - rewrite Tev, T14, Htr, app_assoc. reflexivity.
      - now apply Forall_app. }
    split.
    { rewrite Hstores. f_equal. unfold stores_of in *.
      rewrite B, C. exact Hst. }
    split; [constructor; assumption |].
    split; [rewrite Hne; fold (episodes_ended
              (if continue_training rollout then taken
               else removelast taken)); ring |].
    split; [rewrite Hnum; fold (episodes_ended
              (if continue_training rollout then taken
               else removelast taken)); ring |].
    split.
    { intros Hc. destruct (Hlast Hc) as (last & Ht & Hl).
      exists last. split; [| exact Hl]. rewrite Hc in *. cbn [app].
      now rewrite <- Ht. }
    split; [exact Hsc' |].
    split.
    { intros Hu Hle Hc. apply Hstep; try assumption.
      unfold should_collect_more_steps in Hsc. rewrite Hu in Hsc.
      apply Z.ltb_lt in Hsc. lia. }
    intros Hc _. destruct taken as [| step' taken'].
    + cbn. rewrite !Z.add_0_r. exact Hsc.
    + rewrite removelast_cons by discriminate.
      cbn [List.length episodes_ended fold_right].
      fold (episodes_ended (removelast (step' :: taken'))).
      rewrite Nat2Z.inj_succ.
      specialize (Hprev Hc ltac:(discriminate)).
      replace (steps + Z.succ (Z.of_nat (List.length
                                           (removelast (step' :: taken')))))%Z
        with (steps + 1 + Z.of_nat (List.length
                                      (removelast (step' :: taken'))))%Z
        by ring.
      now rewrite Z.add_assoc.
Qed.

Lemma store_step_configured (cfg : Config) (step : EnvStep)
  (stores : ReplayBuffer.t * option ReplayBuffer.t) :
  configured (snd (store_step cfg stores step)) = configured (snd stores).
Proof.
  unfold store_step, route. destruct stores as [lb [ub |]]; cbn;
    destruct (Qltb _ _); reflexivity.
Qed.

Lemma configured_none (b : option ReplayBuffer.t) :
  configured b = false <-> b = None.
Proof. destruct b; cbn; split; congruence. Qed.

Lemma collect_loop_logged_frame (cfg : Config) (log_interval : option Z)
  (clock : Z -> Telemetry) (env : list EnvStep) :
  forall steps episodes number s s' r,
    collect_loop_logged cfg log_interval clock env steps episodes number s
    = (s', r) ->
    ssl_replay_buffer s' = ssl_replay_buffer s
    /\ configured (unlabeled_replay_buffer s')
       = configured (unlabeled_replay_buffer s)
    /\ (exists evs k,
           trace s' = trace s ++ evs
           /\ Forall is_record evs
           /\ num_timesteps s'
              = (num_timesteps s + Z.of_nat k * num_envs cfg)%Z)
    /\ forall e,
        r = Raise e ->
        e = EnvironmentError
        \/ (e = AttributeError
            /\ (ssl_replay_buffer s = None
                \/ (unlabeled_replay_buffer s = None
                    /\ pseudo_mode cfg && Qltb (p cfg) 1 = true)))
        \/ (e = ZeroDivisionError /\ log_interval = Some 0%Z).
Proof.
  assert (Hnil : forall s : Algo,
             exists (evs : list event) (k : nat),
               trace s = trace s ++ evs
               /\ Forall is_record evs
               /\ num_timesteps s
                  = (num_timesteps s + Z.of_nat k * num_envs cfg)%Z).
  { intros s. exists [], 0%nat. rewrite app_nil_r.
    split; [reflexivity |]. split; [constructor | cbn; ring]. }
  induction env as [| step env IH]; intros steps episodes number s s' r H;
    cbn [collect_loop_logged] in H.
  - destruct (should_collect_more_steps _ _ _); injection H as <- <-;
      (split; [reflexivity |]); (split; [reflexivity |]);
      (split; [apply Hnil |]); intros e [=]; auto.
  - destruct (should_collect_more_steps _ _ _).
    2:{ injection H as <- <-. split; [reflexivity |].
        split; [reflexivity |]. split; [apply Hnil |]. discriminate. }
    unfold bind at 1 in H. unfold modify at 1 in H. cbv beta iota in H.
    set (s0 := set_num_timesteps (num_timesteps s + num_envs cfg) s) in *.
    destruct (on_step step); cbn [negb] in H.
    2:{ injection H as <- <-. split; [reflexivity |].
        split; [reflexivity |]. split; [| discriminate].
        exists [], 1%nat. rewrite app_nil_r. split; [reflexivity |].
        split; [constructor |]. subst s0. unfold set_num_timesteps.
        cbn [num_timesteps]. change (Z.of_nat 1) with 1%Z. ring. }
    unfold bind at 1 in H.
    pose proof (store_transition_stores cfg step s0) as Hst.
    destruct (store_transition_frame cfg (random_draw step)
                (transition step) s0) as (Hok & Hssl & Hn & Htr).
    destruct (_store_transition cfg (random_draw step) (transition step) s0)
      as [s1 r1]. cbn [fst snd] in Hok, Hssl, Hn, Htr, Hst. subst r1.
    change (ssl_replay_buffer s0) with (ssl_replay_buffer s) in Hssl.
    change (trace s0) with (trace s) in Htr.
    change (num_timesteps s0) with (num_timesteps s + num_envs cfg)%Z in Hn.
    assert (Hconf1 : configured (unlabeled_replay_buffer s1)
                     = configured (unlabeled_replay_buffer s)).
    { change (unlabeled_replay_buffer s1) with (snd (stores_of s1)).
      rewrite Hst. apply store_step_configured. }
    unfold bind at 1 in H. unfold gets at 1 in H. cbv beta iota in H.
    unfold bind at 1 in H. unfold record_ at 1, modify at 1 in H.
    cbv beta iota in H.
    set (s2 := emit _ s1) in H.
    unfold bind at 1 in H.
    assert (Hbase : forall k evs s3,
               same_but_trace s1 s3 ->
               trace s3 = trace s1 ++ evs -> Forall is_record evs ->
               k = 1%nat ->
               ssl_replay_buffer s3 = ssl_replay_buffer s
               /\ configured (unlabeled_replay_buffer s3)
                  = configured (unlabeled_replay_buffer s)
               /\ exists evs' k',
                   trace s3 = trace s ++ evs'
                   /\ Forall is_record evs'
                   /\ num_timesteps s3
                      = (num_timesteps s + Z.of_nat k' * num_envs cfg)%Z).
    { intros k evs s3 (A & B & C & D & _) T R ->.
      split; [congruence |]. split; [now rewrite C |].
      exists evs, 1%nat. rewrite T, Htr. split; [reflexivity |].
      split; [assumption |]. rewrite A, Hn.
      change (Z.of_nat 1) with 1%Z. ring. }
    destruct ((if pseudo_mode cfg && Qltb (p cfg) 1
               then ub <- attr unlabeled_replay_buffer;;
                    record_ "buffer/num_unlabeled_rewards" (size_value ub)
               else ret tt) s2) as [s3 r3] eqn:E3.
    assert (Hs3 : same_but_trace s1 s3
                  /\ forall e, r3 = Raise e ->
                       e = AttributeError
                       /\ unlabeled_replay_buffer s = None
                       /\ pseudo_mode cfg && Qltb (p cfg) 1 = true).
    { destruct (pseudo_mode cfg && Qltb (p cfg) 1) eqn:Epm.
      - unfold bind, attr, record_, modify in E3. subst s2. cbn in E3.
        destruct (unlabeled_replay_buffer s1) eqn:Eub.
        + injection E3 as <- <-. split; [| discriminate].
          eapply same_but_trace_trans; apply same_but_trace_record.
        + injection E3 as <- <-. split; [apply same_but_trace_record |].
          intros e [= <-]. split; [reflexivity |]. split; [| reflexivity].
          apply configured_none. rewrite <- Hconf1. reflexivity.
      - injection E3 as <- <-. split; [| discriminate].
        subst s2. apply same_but_trace_record. }
    destruct Hs3 as (Hs3 & He3).
    destruct r3 as [[] | e3].
    2:{ injection H as <- <-.
        destruct Hs3 as (A & B & C & D & evs & T & R).
        destruct (Hbase 1%nat evs s3) as (X1 & X2 & X3); auto.
        { repeat split; auto. eauto. }
        split; [exact X1 |]. split; [exact X2 |]. split; [exact X3 |].
        intros e [= <-]. destruct (He3 e3 eq_refl) as (-> & Hu & Hp).
        right. left. auto. }
    unfold bind at 1 in H.
    destruct (episode_ends log_interval clock (dones step) episodes number s3)
      as [s4 r4] eqn:E4.
    destruct (episode_ends_run _ _ _ _ _ _ E4) as (Hs4 & Hr4).
    pose proof (same_but_trace_trans Hs3 Hs4) as Hs14.
    destruct r4 as [[episodes4 number4] | e4].
    2:{ injection H as <- <-.
        pose proof Hs14 as (A & B & C & D & evs & T & R).
        destruct (Hbase 1%nat evs s4) as (X1 & X2 & X3); auto.
        split; [exact X1 |]. split; [exact X2 |]. split; [exact X3 |].
        intros e [= <-].
        destruct Hr4 as [(-> & Hnone) | (-> & Hli)]; [| auto].
        right. left. split; [reflexivity |]. left.
        destruct Hs3 as (_ & _ & _ & D3 & _). congruence. }
    apply IH in H.
    destruct H as (Y1 & Y2 & (evs' & k' & T' & R' & N') & Yerr).
    pose proof Hs14 as (A & B & C & D & evs & T & R).
    split; [congruence |]. split; [rewrite Y2, C; exact Hconf1 |].
    split.
    { exists (evs ++ evs'), (S k'). split; [| split].
      - rewrite T', T, Htr, app_assoc. reflexivity.
      - now apply Forall_app.
      - rewrite N', A, Hn, Nat2Z.inj_succ. ring. }
    intros e He. destruct (Yerr e He) as [-> | [(-> & Hc) | (-> & Hli)]];
      [auto | | auto].
    right. left. split; [reflexivity |].
    destruct Hc as [Hc | (Hc & Hp)].
    + left. congruence.
    + right. split; [| exact Hp]. apply configured_none.
      rewrite <- Hconf1, <- C. apply configured_none. exact Hc.
Qed.

Lemma collect_rollouts_logged_ok (cfg : Config) (log_interval : option Z)
  (clock : Z -> Telemetry) (env : list EnvStep) (number : Z) (s s' : Algo)
  (rollout : RolloutReturn) (env' : list EnvStep) (number' : Z) :
  collect_rollouts_logged cfg log_interval clock env number s
  = (s', Ok (rollout, env', number')) ->
  (frequency (train_freq cfg) > 0)%Z
  /\ (unit (train_freq cfg) = EPISODE -> (num_envs cfg <= 1)%Z)
  /\ collect_loop_logged cfg log_interval clock env 0 0 number s
     = (s', Ok (rollout, env', number')).
Proof.
  unfold collect_rollouts_logged. intros H.
  destruct (Z.gtb_spec (frequency (train_freq cfg)) 0); cbn [negb] in H;
    [| discriminate H].
  destruct (Z.gtb_spec (num_envs cfg) 1); cbn [andb] in H.
  - destruct (unit (train_freq cfg)); [| discriminate H].
    split; [lia |]. split; [discriminate | exact H].
  - split; [lia |]. split; [intros _; lia | exact H].
Qed.

Lemma rollout_accounting_aux (cfg : Config) (log_interval : option Z)
  (clock : Z -> Telemetry) (env : list EnvStep) (number : Z) (s s' : Algo)
  (rollout : RolloutReturn) (env' : list EnvStep) (number' : Z) :
  collect_rollouts_logged cfg log_interval clock env number s
  = (s', Ok (rollout, env', number')) ->
  exists taken,
    env = taken ++ env'
    /\ taken <> []
    /\ episode_timesteps rollout
       = (Z.of_nat (List.length taken) * num_envs cfg)%Z
    /\ num_timesteps s' = (num_timesteps s + episode_timesteps rollout)%Z
    /\ ssl_replay_buffer s' = ssl_replay_buffer s
    /\ exists evs, trace s' = trace s ++ evs /\ Forall is_record evs.
Proof.
  intros H. apply collect_rollouts_logged_ok in H.
  destruct H as (Hf & _ & H).
  apply collect_loop_logged_ok in H.
  destruct H as (taken & Henv & Het & Hnt & Hssl & Hev & _ & _ & Hne & _
                   & Hlast & Hsc & _ & _).
  exists taken. split; [exact Henv |]. split.
  - intros ->. destruct (continue_training rollout) eqn:Ec.
    + specialize (Hsc eq_refl). cbn in Hne, Hsc. rewrite Hne in Hsc.
      unfold should_collect_more_steps in Hsc.
      destruct (unit (train_freq cfg)); apply Z.ltb_ge in Hsc; lia.
    + destruct (Hlast eq_refl) as (last & E & _).
      now destruct (removelast []).
  - rewrite Z.add_0_l in Het. rewrite Het.
    repeat split; assumption.
Qed.

(** A rollout that returns has taken at least one step of the environment;
    the [episode_timesteps] it reports is the number of steps taken times
    [num_envs], and the global step count has advanced by exactly that
    amount, the step on which the callback stopped included.  The pseudo
    store is untouched and only telemetry records are added. *)
Theorem rollout_accounting (cfg : Config) (log_interval : option Z)
  (clock : Z -> Telemetry) (env : list EnvStep) (number : Z) (s s' : Algo)
  (rollout : RolloutReturn) (env' : list EnvStep) (number' : Z) :
  collect_rollouts_logged cfg log_interval clock env number s
  = (s', Ok (rollout, env', number')) ->
  exists taken,
    env = taken ++ env'
    /\ taken <> []
    /\ episode_timesteps rollout
       = (Z.of_nat (List.length taken) * num_envs cfg)%Z
    /\ num_timesteps s' = (num_timesteps s + episode_timesteps rollout)%Z
    /\ ssl_replay_buffer s' = ssl_replay_buffer s
    /\ exists evs, trace s' = trace s ++ evs /\ Forall is_record evs.
Proof. apply rollout_accounting_aux. Qed.

Lemma rollout_accounting_witness :
  exists taken,
    Sample.env2 = taken ++ [Sample.step (Sample.tr 1 0 0) (1 # 2)]
    /\ taken <> [].
Proof.
  destruct (@rollout_accounting (Sample.cfg (1 # 2) 0 1) (Some 4%Z)
              Sample2.clock0 Sample.env2 0%Z Sample.start
              (fst (collect_rollouts_logged (Sample.cfg (1 # 2) 0 1)
                      (Some 4%Z) Sample2.clock0 Sample.env2 0%Z Sample.start))
              {| episode_timesteps := 1; n_episodes := 0;
                 continue_training := true |}
              [Sample.step (Sample.tr 1 0 0) (1 # 2)] 0%Z)
    as (taken & H1 & H2 & _).
  - vm_compute. reflexivity.
  - exists taken. split; assumption.
Defined.

(** After a rollout the labeled and the unlabeled store are the stores
    before it with the steps routed one after the other, in order: all steps
    taken when the rollout ends normally, all but the last when the callback
    stopped it.  The step on which the callback answers [False] is counted
    but its transition enters no store, and its [dones] are not counted as
    episodes. *)
Theorem rollout_stores (cfg : Config) (log_interval : option Z)
  (clock : Z -> Telemetry) (env : list EnvStep) (number : Z) (s s' : Algo)
  (rollout : RolloutReturn) (env' : list EnvStep) (number' : Z) :
  collect_rollouts_logged cfg log_interval clock env number s
  = (s', Ok (rollout, env', number')) ->
  exists taken kept,
    env = taken ++ env'
    /\ kept = (if continue_training rollout then taken else removelast taken)
    /\ stores_of s' = fold_left (store_step cfg) kept (stores_of s)
    /\ Forall (fun step => on_step step = true) kept
    /\ n_episodes rollout = episodes_ended kept
    /\ number' = (number + episodes_ended kept)%Z
    /\ (continue_training rollout = false ->
        exists last, taken = kept ++ [last] /\ on_step last = false).
Proof.
  intros H. apply collect_rollouts_logged_ok in H.
  destruct H as (_ & _ & H). apply collect_loop_logged_ok in H.
  destruct H as (taken & Henv & _ & _ & _ & _ & Hst & Hon & Hne & Hnum
                   & Hlast & _ & _ & _).
  exists taken. eexists. split; [exact Henv |]. split; [reflexivity |].
  rewrite Z.add_0_l in Hne. repeat split; assumption.
Qed.

Lemma rollout_stores_witness :
  exists s' rollout env' number',
    collect_rollouts_logged (Sample.cfg (1 # 2) 0 1) (Some 4%Z)
      Sample2.clock0
      [Sample2.stop_step (Sample.tr 0 0 0) (1 # 4)] 0%Z Sample.start
    = (s', Ok (rollout, env', number'))
    /\ stores_of s' = stores_of Sample.start
    /\ num_timesteps s' = 1%Z.
Proof.
  do 4 eexists.
  refine ((fun H => conj (proj1 H) (proj2 H)) (_ : _ /\ _)).
  split; [vm_compute; reflexivity |].
  destruct (@rollout_stores (Sample.cfg (1 # 2) 0 1) (Some 4%Z)
              Sample2.clock0 [Sample2.stop_step (Sample.tr 0 0 0) (1 # 4)]
              0%Z Sample.start
              (set_num_timesteps 1 Sample.start)
              {| episode_timesteps := 1; n_episodes := 0;
                 continue_training := false |} [] 0%Z eq_refl)
    as (taken & kept & _).
  split; reflexivity.
Defined.

(** A rollout that ends normally has met its quota and no more: in step mode
    it has taken exactly [train_freq.frequency] steps; in episode mode (one
    environment only) the episodes ended reach the frequency with the last
    step taken and were below it before. *)
Theorem rollout_quota (cfg : Config) (log_interval : option Z)
  (clock : Z -> Telemetry) (env : list EnvStep) (number : Z) (s s' : Algo)
  (rollout : RolloutReturn) (env' : list EnvStep) (number' : Z) :
  collect_rollouts_logged cfg log_interval clock env number s
  = (s', Ok (rollout, env', number')) ->
  continue_training rollout = true ->
  exists taken,
    env = taken ++ env'
    /\ taken <> []
    /\ (unit (train_freq cfg) = STEP ->
        Z.of_nat (List.length taken) = frequency (train_freq cfg)
        /\ episode_timesteps rollout
           = (frequency (train_freq cfg) * num_envs cfg)%Z)
    /\ (unit (train_freq cfg) = EPISODE ->
        (num_envs cfg <= 1)%Z
        /\ n_episodes rollout = episodes_ended taken
        /\ (frequency (train_freq cfg) <= episodes_ended taken)%Z
        /\ (episodes_ended (removelast taken) < frequency (train_freq cfg))%Z).
Proof.
  intros H Hc. apply collect_rollouts_logged_ok in H.
  destruct H as (Hf & He & H).
  apply collect_loop_logged_ok in H.
  destruct H as (taken & Henv & Het & _ & _ & _ & _ & _ & Hne & _ & _
                   & Hsc & Hstep & Hprev).
  rewrite Hc in Hne. specialize (Hsc Hc). rewrite Z.add_0_l in *.
  assert (Hnonempty : taken <> []).
  { intros ->. cbn in Hne, Hsc. rewrite Hne in Hsc.
    unfold should_collect_more_steps in Hsc.
    destruct (unit (train_freq cfg)); apply Z.ltb_ge in Hsc; lia. }
  exists taken. split; [exact Henv |]. split; [exact Hnonempty |]. split.
  - intros Hu. specialize (Hstep Hu ltac:(lia) Hc).
    split; [exact Hstep |]. now rewrite Het, Hstep.
  - intros Hu. split; [now apply He |]. split; [exact Hne |].
    specialize (Hprev Hc Hnonempty).
    unfold should_collect_more_steps in Hsc, Hprev. rewrite Hu in Hsc, Hprev.
    apply Z.ltb_ge in Hsc. apply Z.ltb_lt in Hprev.
    rewrite Z.add_0_l in Hprev. rewrite <- Hne. split; assumption.
Qed.

Lemma rollout_quota_witness :
  exists taken,
    Sample.env2 = taken ++ [Sample.step (Sample.tr 1 0 0) (1 # 2)]
    /\ Z.of_nat (List.length taken) = 1%Z.
Proof.
  destruct (@rollout_quota (Sample.cfg (1 # 2) 0 1) (Some 4%Z)
              Sample2.clock0 Sample.env2 0%Z Sample.start
              (fst (collect_rollouts_logged (Sample.cfg (1 # 2) 0 1)
                      (Some 4%Z) Sample2.clock0 Sample.env2 0%Z Sample.start))
              {| episode_timesteps := 1; n_episodes := 0;
                 continue_training := true |}
              [Sample.step (Sample.tr 1 0 0) (1 # 2)] 0%Z)
    as (taken & H1 & _ & H2 & _).
  - vm_compute. reflexivity.
  - reflexivity.
  - exists taken. split; [exact H1 |]. now apply H2.
Defined.

(** What the loop as it is modelled can raise, the steps of the environment
    being taken to return. *)
Lemma rollout_errors_aux (cfg : Config) (log_interval : option Z)
  (clock : Z -> Telemetry) (env : list EnvStep) (number : Z) (s : Algo) :
  ((frequency (train_freq cfg) <= 0)%Z
   \/ ((num_envs cfg > 1)%Z /\ unit (train_freq cfg) = EPISODE) ->
   collect_rollouts_logged cfg log_interval clock env number s
   = (s, Raise AssertionError))
  /\ forall s' e,
      collect_rollouts_logged cfg log_interval clock env number s
      = (s', Raise e) ->
      (e = AssertionError /\ s' = s
       /\ ((frequency (train_freq cfg) <= 0)%Z
           \/ ((num_envs cfg > 1)%Z /\ unit (train_freq cfg) = EPISODE)))
      \/ e = EnvironmentError
      \/ (e = AttributeError
          /\ (ssl_replay_buffer s = None
              \/ (unlabeled_replay_buffer s = None
                  /\ pseudo_mode cfg = true /\ p cfg < 1)))
      \/ (e = ZeroDivisionError /\ log_interval = Some 0%Z).
Proof.
  unfold collect_rollouts_logged. split.
  - intros [Hf | (Hn & Hu)].
    + destruct (Z.gtb_spec (frequency (train_freq cfg)) 0); [lia |].
      reflexivity.
    + destruct (Z.gtb_spec (frequency (train_freq cfg)) 0);
        [| reflexivity]. cbn [negb].
      destruct (Z.gtb_spec (num_envs cfg) 1); [| lia].
      now rewrite Hu.
  - intros s' e H.
    destruct (Z.gtb_spec (frequency (train_freq cfg)) 0); cbn [negb] in H.
    2:{ injection H as <- <-. left. auto. }
    destruct (Z.gtb_spec (num_envs cfg) 1); cbn [andb] in H.
    + destruct (unit (train_freq cfg)) eqn:Eu.
      * apply collect_loop_logged_frame in H.
        destruct H as (_ & _ & _ & He).
        destruct (He e eq_refl) as [-> | [(-> & Hc) | Hz]]; auto.
        right. right. left. split; [reflexivity |].
        destruct Hc as [Hc | (Hc & Hp)]; [auto |].
        apply andb_true_iff in Hp. destruct Hp as (Hp1 & Hp2).
        apply Qltb_lt in Hp2. auto.
      * injection H as <- <-. left. split; [reflexivity |].
        split; [reflexivity |]. right. split; [lia | reflexivity].
    + apply collect_loop_logged_frame in H.
      destruct H as (_ & _ & _ & He).
      destruct (He e eq_refl) as [-> | [(-> & Hc) | Hz]]; auto.
      right. right. left. split; [reflexivity |].
      destruct Hc as [Hc | (Hc & Hp)]; [auto |].
      apply andb_true_iff in Hp. destruct Hp as (Hp1 & Hp2).
      apply Qltb_lt in Hp2. auto.
Qed.

(** The two assertions at the head of [collect_rollouts] are checked before
    any step is taken.  With a frequency that is not positive, or with more
    than one environment in episode mode, the call raises [AssertionError]
    and leaves the step count, the stores, the logs and the environment's
    steps as they were; a rollout that returns had a positive frequency and,
    in episode mode, a single environment. *)
Theorem rollout_head_assertions (cfg : Config) (log_interval : option Z)
  (clock : Z -> Telemetry) (env : list EnvStep) (number : Z) (s : Algo) :
  ((frequency (train_freq cfg) <= 0)%Z
   \/ ((num_envs cfg > 1)%Z /\ unit (train_freq cfg) = EPISODE) ->
   collect_rollouts_logged cfg log_interval clock env number s
   = (s, Raise AssertionError))
  /\ (forall s' rollout env' number',
        collect_rollouts_logged cfg log_interval clock env number s
        = (s', Ok (rollout, env', number')) ->
        (frequency (train_freq cfg) > 0)%Z
        /\ (unit (train_freq cfg) = EPISODE -> (num_envs cfg <= 1)%Z)
        /\ exists step rest, env = step :: rest).
Proof.
  split.
  - apply rollout_errors_aux.
  - intros s' rollout env' number' H.
    destruct (rollout_accounting_aux _ _ _ _ _ _ H)
      as (taken & Henv & Hne & _).
    apply collect_rollouts_logged_ok in H. destruct H as (Hf & Hu & _).
    split; [exact Hf |]. split; [exact Hu |].
    destruct taken as [| step taken]; [congruence |].
    exists step, (taken ++ env'). exact Henv.
Qed.

Lemma fold_store_step_labeled (cfg : Config) (steps : list EnvStep) :
  Forall (fun step => random_draw step < p cfg) steps ->
  forall stores,
    fold_left (store_step cfg) steps stores
    = (fold_left ReplayBuffer.add (map transition steps) (fst stores),
       snd stores).
Proof.
  induction 1 as [| step steps Hd _ IH]; intros [lb ub]; cbn.
  - reflexivity.
  - rewrite IH. unfold store_step, route.
    apply Qltb_lt in Hd. now rewrite Hd.
Qed.

Lemma fold_store_step_unlabeled (cfg : Config) (steps : list EnvStep) :
  Forall (fun step => ~ random_draw step < p cfg) steps ->
  forall stores,
    fold_left (store_step cfg) steps stores
    = (fst stores,
       option_map (fun b => fold_left ReplayBuffer.add (map transition steps) b)
                  (snd stores)).
Proof.
  induction 1 as [| step steps Hd _ IH]; intros [lb ub]; cbn.
  - now destruct ub.
  - rewrite IH. unfold store_step, route.
    destruct (Qltb (random_draw step) (p cfg)) eqn:E.
    + apply Qltb_lt in E. contradiction.
    + destruct ub; reflexivity.
Qed.

Lemma removelast_incl {A} (l : list A) (x : A) :
  In x (removelast l) -> In x l.
Proof.
  induction l as [| y l IH]; [contradiction |].
  destruct l as [| z l]; [contradiction |].
  cbn [removelast]. intros [-> | H]; [now left | right; now apply IH].
Qed.

(** With [p = 1] the loop is the usual off-policy loop: as every draw of
    [np.random.random()] is below 1, each transition collected goes to the
    replay buffer, in order, and the unlabeled store is never written. *)
Theorem rollout_all_labeled (cfg : Config) (log_interval : option Z)
  (clock : Z -> Telemetry) (env : list EnvStep) (number : Z) (s s' : Algo)
  (rollout : RolloutReturn) (env' : list EnvStep) (number' : Z) :
  p cfg == 1 ->
  Forall (fun step => random_draw step < 1) env ->
  collect_rollouts_logged cfg log_interval clock env number s
  = (s', Ok (rollout, env', number')) ->
  exists taken,
    env = taken ++ env'
    /\ replay_buffer s'
       = fold_left ReplayBuffer.add
           (map transition (if continue_training rollout then taken
                            else removelast taken))
           (replay_buffer s)
    /\ unlabeled_replay_buffer s' = unlabeled_replay_buffer s.
Proof.
  intros Hp Hd H. apply collect_rollouts_logged_ok in H.
  destruct H as (_ & _ & H). apply collect_loop_logged_ok in H.
  destruct H as (taken & Henv & _ & _ & _ & _ & Hst & _).
  exists taken. split; [exact Henv |].
  rewrite fold_store_step_labeled in Hst.
  - unfold stores_of in Hst. cbn in Hst. injection Hst as -> ->. auto.
  - rewrite Forall_forall in *. intros step Hin. rewrite Hp. apply Hd.
    rewrite Henv. apply in_or_app. left.
    destruct (continue_training rollout); [assumption |].
    now apply removelast_incl.
Qed.

Lemma rollout_all_labeled_witness :
  exists s' rollout env' number',
    collect_rollouts_logged (Sample.cfg 1 0 1) (Some 4%Z) Sample2.clock0
      Sample.env2 0%Z Sample.start
    = (s', Ok (rollout, env', number'))
    /\ unlabeled_replay_buffer s' = unlabeled_replay_buffer Sample.start.
Proof.
  do 4 eexists. split; [vm_compute; reflexivity |].
  destruct (@rollout_all_labeled (Sample.cfg 1 0 1) (Some 4%Z)
              Sample2.clock0 Sample.env2 0%Z Sample.start
              (fst (collect_rollouts_logged (Sample.cfg 1 0 1) (Some 4%Z)
                      Sample2.clock0 Sample.env2 0%Z Sample.start))
              {| episode_timesteps := 1; n_episodes := 0;
                 continue_training := true |}
              [Sample.step (Sample.tr 1 0 0) (1 # 2)] 0%Z)
    as (taken & _ & _ & H).
  - reflexivity.
  - repeat constructor.
  - vm_compute. reflexivity.
  - exact H.
Defined.

(** With [p = 0] no transition is labeled: as no draw is negative, the
    replay buffer is never written.  The transitions go to the unlabeled
    store, in order; on an algorithm without one (pseudo mode off) they are
    all dropped and a rollout leaves both stores as they were. *)
Theorem rollout_none_labeled (cfg : Config) (log_interval : option Z)
  (clock : Z -> Telemetry) (env : list EnvStep) (number : Z) (s s' : Algo)
  (rollout : RolloutReturn) (env' : list EnvStep) (number' : Z) :
  p cfg <= 0 ->
  Forall (fun step => 0 <= random_draw step) env ->
  collect_rollouts_logged cfg log_interval clock env number s
  = (s', Ok (rollout, env', number')) ->
  exists taken,
    env = taken ++ env'
    /\ replay_buffer s' = replay_buffer s
    /\ unlabeled_replay_buffer s'
       = option_map
           (fun b =>
              fold_left ReplayBuffer.add
                (map transition (if continue_training rollout then taken
                                 else removelast taken)) b)
           (unlabeled_replay_buffer s)
    /\ (unlabeled_replay_buffer s = None -> stores_of s' = stores_of s).
Proof.
  intros Hp Hd H. apply collect_rollouts_logged_ok in H.
  destruct H as (_ & _ & H). apply collect_loop_logged_ok in H.
  destruct H as (taken & Henv & _ & _ & _ & _ & Hst & _).
  exists taken. split; [exact Henv |].
  rewrite fold_store_step_unlabeled in Hst.
  - unfold stores_of in *. cbn in Hst. injection Hst as -> ->.
    split; [reflexivity |]. split; [reflexivity |].
    intros ->. reflexivity.
  - rewrite Forall_forall in *. intros step Hin Hlt.
    assert (Hs : In step env).
    { rewrite Henv. apply in_or_app. left.
      destruct (continue_training rollout); [assumption |].
      now apply removelast_incl. }
    specialize (Hd step Hs).
    apply (Qlt_irrefl 0). eapply Qle_lt_trans; [exact Hd |].
    eapply Qlt_le_trans; [exact Hlt | exact Hp].
Qed.

Lemma rollout_none_labeled_witness :
  exists s' rollout env' number',
    collect_rollouts_logged (Sample.cfg 0 0 1) (Some 4%Z) Sample2.clock0
      Sample.env2 0%Z Sample.start
    = (s', Ok (rollout, env', number'))
    /\ replay_buffer s' = replay_buffer Sample.start.
Proof.
  do 4 eexists. split; [vm_compute; reflexivity |].
  destruct (@rollout_none_labeled (Sample.cfg 0 0 1) (Some 4%Z)
              Sample2.clock0 Sample.env2 0%Z Sample.start
              (fst (collect_rollouts_logged (Sample.cfg 0 0 1) (Some 4%Z)
                      Sample2.clock0 Sample.env2 0%Z Sample.start))
              {| episode_timesteps := 1; n_episodes := 0;
                 continue_training := true |}
              [Sample.step (Sample.tr 1 0 0) (1 # 2)] 0%Z)
    as (taken & _ & H & _).
  - apply Qle_refl.
  - repeat constructor; discriminate.
  - vm_compute. reflexivity.
  - exact H.
Defined.

(** ** The passes of the loop *)

Lemma training_gate_exact (cfg : Config) (rollout : RolloutReturn) (s : Algo) :
  training_gate cfg rollout s
  = (let n := num_timesteps s in
     let g := steps_asked cfg (episode_timesteps rollout) in
     if (n >? 0)%Z && (n >? learning_starts cfg)%Z && (g >? 0)%Z
     then emit (Train n (ReplayBuffer.size (replay_buffer s)) g
                      (batch_size cfg) (ssl_batch_size cfg)) s
     else s,
     Ok tt).
Proof.
  unfold training_gate, train, steps_asked, bind, gets, modify, ret. cbn.
  destruct (num_timesteps s >? 0)%Z; cbn; [| reflexivity].
  destruct (num_timesteps s >? learning_starts cfg)%Z; cbn; [| reflexivity].
  destruct (_ >? 0)%Z; reflexivity.
Qed.

Lemma after_rollout_pass (bk : Backend) (cfg : Config)
  (rollout : RolloutReturn) (s s' : Algo) (r : outcome Datatypes.unit) :
  after_rollout bk cfg rollout s = (s', r) ->
  num_timesteps s' = num_timesteps s
  /\ stores_of s' = stores_of s
  /\ (pseudo_mode cfg = false -> ssl_replay_buffer s' = ssl_replay_buffer s)
  /\ exists mid trains,
      trace s' = trace s ++ mid ++ trains
      /\ ((refresh_condition cfg (num_timesteps s)
           /\ exists recs2, mid = Refresh (num_timesteps s) :: recs2
                            /\ Forall is_record recs2)
          \/ mid = [])
      /\ (trains = []
          \/ exists sz,
              trains = [Train (num_timesteps s) sz
                              (steps_asked cfg (episode_timesteps rollout))
                              (batch_size cfg) (ssl_batch_size cfg)]
              /\ (num_timesteps s > 0)%Z
              /\ (num_timesteps s > learning_starts cfg)%Z
              /\ (steps_asked cfg (episode_timesteps rollout) > 0)%Z).
Proof.
  assert (Hgate : forall s0 : Algo,
             exists trains,
               training_gate cfg rollout s0
               = ({| num_timesteps := num_timesteps s0;
                     replay_buffer := replay_buffer s0;
                     unlabeled_replay_buffer := unlabeled_replay_buffer s0;
                     ssl_replay_buffer := ssl_replay_buffer s0;
                     trace := trace s0 ++ trains |}, Ok tt)
               /\ (trains = []
                   \/ exists sz,
                       trains
                       = [Train (num_timesteps s0) sz
                                (steps_asked cfg (episode_timesteps rollout))
                                (batch_size cfg) (ssl_batch_size cfg)]
                       /\ (num_timesteps s0 > 0)%Z
                       /\ (num_timesteps s0 > learning_starts cfg)%Z
                       /\ (steps_asked cfg (episode_timesteps rollout) > 0)%Z)).
  { intros s0. rewrite training_gate_exact. cbv zeta.
    destruct (Z.gtb_spec (num_timesteps s0) 0); cbn [andb];
      [| exists []; rewrite app_nil_r; destruct s0; auto].
    destruct (Z.gtb_spec (num_timesteps s0) (learning_starts cfg));
      cbn [andb]; [| exists []; rewrite app_nil_r; destruct s0; auto].
    destruct (Z.gtb_spec (steps_asked cfg (episode_timesteps rollout)) 0);
      [| exists []; rewrite app_nil_r; destruct s0; auto].
    eexists. split; [reflexivity |]. right. eexists.
    split; [reflexivity |]. lia. }
  unfold after_rollout. intros H.
  destruct (refresh_due_run cfg s) as (rd & Hrd & Hiff & _).
  unfold bind at 1 in H. unfold bind at 1 in H. rewrite Hrd in H.
  destruct rd as [[|] | e]; cbv beta iota in H.
  - assert (Hc : refresh_condition cfg (num_timesteps s)) by now apply Hiff.
    unfold bind, gets, modify in H. cbv beta iota in H.
    destruct (refresh_cycle bk cfg (emit (Refresh (num_timesteps s)) s))
      as [s3 r3] eqn:Ec.
    destruct (refresh_cycle_frame _ _ _ Ec)
      as (Hn & Hlb & Hub & (recs & Ht & Hrec) & _).
    cbn in Hn, Ht, Hlb, Hub.
    assert (Hpm : pseudo_mode cfg = false ->
                  ssl_replay_buffer s3 = ssl_replay_buffer s).
    { intros Hp. destruct Hc as (Hp' & _). congruence. }
    destruct r3 as [[] | e]; cbv beta iota in H.
    + destruct (Hgate s3) as (trains & Hg & Htr).
      rewrite Hg in H. injection H as <- <-. cbn.
      split; [assumption |]. split; [unfold stores_of; cbn; congruence |].
      split; [assumption |].
      exists (Refresh (num_timesteps s) :: recs), trains.
      rewrite Ht, <- !app_assoc. cbn. split; [reflexivity |].
      split; [left; eauto |]. now rewrite <- Hn.
    + injection H as <- <-. split; [assumption |].
      split; [unfold stores_of; cbn; congruence |]. split; [assumption |].
      exists (Refresh (num_timesteps s) :: recs), [].
      rewrite Ht, <- !app_assoc, app_nil_r. cbn. split; [reflexivity |].
      split; [left; eauto | now left].
  - unfold bind, ret in H. cbv beta iota in H.
    destruct (Hgate s) as (trains & Hg & Htr).
    rewrite Hg in H. injection H as <- <-. cbn.
    split; [reflexivity |]. split; [reflexivity |]. split; [reflexivity |].
    exists [], trains. cbn. split; [reflexivity |]. split; [now right |].
    exact Htr.
  - injection H as <- <-. split; [reflexivity |]. split; [reflexivity |].
    split; [reflexivity |]. exists [], [].
    rewrite app_nil_r. split; [reflexivity |]. split; [now right | now left].
Qed.

Lemma learn_body_logged_pass (bk : Backend) (cfg : Config)
  (log_interval : option Z) (clock : Z -> Telemetry) (env : list EnvStep)
  (number : Z) (s s' : Algo) (r : outcome (bool * list EnvStep * Z)) :
  learn_body_logged bk cfg log_interval clock env number s = (s', r) ->
  (pseudo_mode cfg = false -> ssl_replay_buffer s' = ssl_replay_buffer s)
  /\ ((exists e recs,
          r = Raise e
          /\ trace s' = trace s ++ recs /\ Forall is_record recs
          /\ (pseudo_mode cfg = false ->
              e = AssertionError \/ e = EnvironmentError
              \/ e = AttributeError
              \/ (e = ZeroDivisionError /\ log_interval = Some 0%Z)))
      \/ (exists go_on evs,
             pass_events cfg (num_timesteps s) (num_timesteps s') go_on evs
             /\ trace s' = trace s ++ evs
             /\ match r with
                | Ok (b, _, _) => b = go_on
                | Raise e => go_on = true /\ pseudo_mode cfg = true
                end)).
Proof.
  unfold learn_body_logged. intros H. unfold bind at 1 in H.
  destruct (collect_rollouts_logged cfg log_interval clock env number s)
    as [s1 r1] eqn:Ec.
  destruct r1 as [[[rollout env'] number'] | e].
  2:{ injection H as <- <-.
      destruct (rollout_errors_aux cfg log_interval clock env number s)
        as (_ & Herr).
      specialize (Herr _ _ Ec).
      assert (Hfr : ssl_replay_buffer s1 = ssl_replay_buffer s
                    /\ exists recs, trace s1 = trace s ++ recs
                                    /\ Forall is_record recs).
      { unfold collect_rollouts_logged in Ec.
        destruct (negb _).
        - injection Ec as <- _. split; [reflexivity |]. exists [].
          now rewrite app_nil_r.
        - destruct (_ && _).
          + injection Ec as <- _. split; [reflexivity |]. exists [].
            now rewrite app_nil_r.
          + apply collect_loop_logged_frame in Ec.
            destruct Ec as (Hs & _ & (evs & k & T & R & _) & _).
            split; [exact Hs |]. eauto. }
      destruct Hfr as (Hs & recs & T & R).
      split; [intros _; exact Hs |]. left. exists e, recs.
      split; [reflexivity |]. split; [exact T |]. split; [exact R |].
      intros _. destruct Herr as [(-> & _) | [-> | [(-> & _) | Hz]]]; auto. }
  pose proof (rollout_accounting_aux _ _ _ _ _ _ Ec)
    as (taken & Henv & Hne & Het & Hnt & Hssl & recs & T & R).
  unfold bind at 1 in H. unfold gets at 1 in H. cbv beta iota in H.
  unfold bind at 1 in H. unfold modify at 1 in H. cbv beta iota in H.
  set (s2 := emit (Rollout (num_timesteps s1) (continue_training rollout)) s1)
    in *.
  assert (Hk : (0 < List.length taken)%nat)
    by (destruct taken; [congruence | cbn; lia]).
  destruct (continue_training rollout) eqn:Econt; cbn [negb] in H.
  - unfold bind at 1 in H.
    destruct (after_rollout bk cfg rollout s2) as [s3 r3] eqn:Ea.
    destruct (after_rollout_pass _ _ _ _ Ea)
      as (Hn & _ & Hpm & mid & trains & T3 & Hmid & Htr).
    change (num_timesteps s2) with (num_timesteps s1) in *.
    change (ssl_replay_buffer s2) with (ssl_replay_buffer s1) in Hpm.
    change (trace s2)
      with (trace s1 ++ [Rollout (num_timesteps s1) true]) in T3.
    assert (Hs' : s' = s3) by (destruct r3; now injection H).
    subst s'.
    split; [intros Hp; rewrite (Hpm Hp); exact Hssl |].
    right. exists true, (recs ++ Rollout (num_timesteps s1) true
                              :: mid ++ trains).
    split.
    + exists recs, mid, trains, (List.length taken).
      rewrite Hn. split; [reflexivity |]. split; [exact R |].
      split; [exact Hk |]. split; [rewrite Hnt, Het; reflexivity |].
      split; [discriminate |]. split; [exact Hmid |].
      replace (num_timesteps s1 - num_timesteps s)%Z
        with (episode_timesteps rollout) by lia.
      exact Htr.
    + split; [rewrite T3, T, <- !app_assoc; reflexivity |].
      destruct r3 as [[] | e3].
      * now injection H as <-.
      * injection H as <-. split; [reflexivity |].
        destruct (pseudo_mode cfg) eqn:Ep; [reflexivity |].
        exfalso. clear - Ea Ep. unfold after_rollout in Ea.
        destruct (refresh_due_run cfg s2) as (rd & Hrd & Hiff & Hz & _).
        unfold bind at 1 in Ea. unfold bind at 1 in Ea.
        rewrite Hrd in Ea. destruct rd as [[|] | e]; cbv beta iota in Ea.
        -- assert (Hcond : refresh_condition cfg (num_timesteps s2))
             by now apply Hiff.
           destruct Hcond as (Hp & _). congruence.
        -- unfold bind, ret in Ea. cbv beta iota in Ea.
           rewrite training_gate_exact in Ea. discriminate Ea.
        -- unfold refresh_due in Hrd. rewrite Ep in Hrd. discriminate Hrd.
  - injection H as <- <-.
    split; [intros _; exact Hssl |].
    right. exists false, (recs ++ [Rollout (num_timesteps s1) false]).
    split.
    + exists recs, [], [], (List.length taken). cbn [app].
      split; [reflexivity |]. split; [exact R |]. split; [exact Hk |].
      split; [cbn; rewrite Hnt, Het; reflexivity |].
      split; [auto |]. split; [now right | now left].
    + split; [| reflexivity]. subst s2. cbn. now rewrite T, app_assoc.
Qed.

Lemma run_events_app (cfg : Config) (n0 n1 n2 : Z) (evs rest : list event) :
  pass_events cfg n0 n1 true evs ->
  run_events cfg n1 rest n2 ->
  run_events cfg n0 (evs ++ rest) n2.
Proof. apply run_more. Qed.

Lemma learn_loop_logged_run (bk : Backend) (cfg : Config)
  (log_interval : option Z) (clock : Z -> Telemetry) (total_timesteps : Z)
  (fuel : nat) :
  forall env number s s' r,
    learn_loop_logged fuel bk cfg log_interval clock total_timesteps env
      number s = (s', r) ->
    (pseudo_mode cfg = false -> ssl_replay_buffer s' = ssl_replay_buffer s)
    /\ exists evs tail n1,
        trace s' = trace s ++ evs ++ tail
        /\ run_events cfg (num_timesteps s) evs n1
        /\ Forall is_record tail
        /\ (r = Ok tt ->
            tail = [] /\ num_timesteps s' = n1
            /\ ((total_timesteps <= n1)%Z
                \/ exists before, evs = before ++ [Rollout n1 false]))
        /\ (forall e, r = Raise e -> pseudo_mode cfg = false ->
              e = AssertionError \/ e = EnvironmentError
              \/ e = AttributeError
              \/ (e = ZeroDivisionError /\ log_interval = Some 0%Z)).
Proof.
  induction fuel as [| fuel IH]; intros env number s s' r H;
    cbn [learn_loop_logged] in H.
  - injection H as <- <-. split; [reflexivity |].
    exists [], [], (num_timesteps s). rewrite !app_nil_r.
    split; [reflexivity |]. split; [constructor |]. split; [constructor |].
    split; [discriminate |]. intros e [= <-] _. auto.
  - unfold bind at 1 in H. unfold gets at 1 in H. cbv beta iota in H.
    destruct (Z.ltb_spec (num_timesteps s) total_timesteps).
    2:{ injection H as <- <-. split; [reflexivity |].
        exists [], [], (num_timesteps s). rewrite !app_nil_r.
        split; [reflexivity |]. split; [constructor |].
        split; [constructor |]. split; [| discriminate].
        intros _. split; [reflexivity |]. split; [reflexivity |].
        left. lia. }
    unfold bind at 1 in H.
    destruct (learn_body_logged bk cfg log_interval clock env number s)
      as [s1 r1] eqn:Eb.
    destruct (learn_body_logged_pass _ _ _ _ _ _ _ Eb) as (Hpm & Hcases).
    destruct Hcases as [(e & recs & -> & T & R & Herr)
                       | (go_on & evs & Hpass & T & Hr)].
    + injection H as <- <-. split; [exact Hpm |].
      exists [], recs, (num_timesteps s). cbn [app].
      split; [exact T |]. split; [constructor |]. split; [exact R |].
      split; [discriminate |]. intros e' [= <-]. exact Herr.
    + destruct r1 as [[[b env'] number'] | e].
      * subst b. destruct go_on.
        -- apply IH in H.
           destruct H as (Hpm' & evs' & tail & n1 & T' & Hrun & Rt & Hok & He).
           split; [intros Hp; rewrite (Hpm' Hp); now apply Hpm |].
           exists (evs ++ evs'), tail, n1.
           split; [rewrite T', T, <- !app_assoc; reflexivity |].
           split; [eapply run_more; eassumption |].
           split; [exact Rt |]. split; [| exact He].
           intros Hr'. destruct (Hok Hr') as (-> & Hn & Hend).
           split; [reflexivity |]. split; [exact Hn |].
           destruct Hend as [Hend | (before & ->)]; [now left |].
           right. exists (evs ++ before). now rewrite app_assoc.
        -- injection H as <- <-. split; [exact Hpm |].
           exists evs, [], (num_timesteps s1). rewrite app_nil_r.
           split; [exact T |]. split; [now apply run_stop |].
           split; [constructor |]. split; [| discriminate].
           intros _. split; [reflexivity |]. split; [reflexivity |].
           right. destruct Hpass as (recs & mid & trains & k & -> & _ & _ & _
                                       & Hstop & _).
           destruct (Hstop eq_refl) as (-> & ->). exists recs. reflexivity.
      * injection H as <- <-. destruct Hr as (-> & Hp).
        split; [exact Hpm |].
        exists evs, [], (num_timesteps s1). rewrite app_nil_r.
        split; [exact T |].
        split; [rewrite <- (app_nil_r evs); eapply run_more;
                [exact Hpass | constructor] |].
        split; [constructor |]. split; [discriminate |].
        intros e' _ Hp'. congruence.
Qed.

(** *** What a sequence of passes holds *)

Lemma pass_events_in (cfg : Config) (n0 n1 : Z) (go_on : bool)
  (evs : list event) :
  pass_events cfg n0 n1 go_on evs ->
  (exists k : nat, (0 < k)%nat /\ n1 = (n0 + Z.of_nat k * num_envs cfg)%Z)
  /\ (forall m, In (Refresh m) evs ->
        m = n1 /\ go_on = true /\ refresh_condition cfg n1)
  /\ (forall m c, In (Rollout m c) evs -> m = n1 /\ c = go_on)
  /\ In (Rollout n1 go_on) evs
  /\ (forall n sz g b sb,
        In (Train n sz g b sb) evs ->
        n = n1 /\ go_on = true
        /\ g = steps_asked cfg (n1 - n0)
        /\ b = batch_size cfg /\ sb = ssl_batch_size cfg
        /\ (n1 > 0)%Z /\ (n1 > learning_starts cfg)%Z /\ (g > 0)%Z).
Proof.
  intros (recs & mid & trains & k & -> & Hrecs & Hk & Hn & Hstop & Hmid & Htr).
  assert (Hrec : forall ev, In ev recs -> is_record ev)
    by (now apply Forall_forall).
  assert (Hgo : mid <> [] \/ trains <> [] -> go_on = true).
  { intros Hne. destruct go_on; [reflexivity |].
    destruct (Hstop eq_refl) as (-> & ->). now destruct Hne. }
  split; [exists k; now split |]. split; [| split; [| split]].
  - intros m Hin. apply in_app_or in Hin. destruct Hin as [Hin | Hin].
    { apply Hrec in Hin. contradiction. }
    destruct Hin as [Hin | Hin]; [discriminate Hin |].
    apply in_app_or in Hin. destruct Hin as [Hin | Hin].
    + destruct Hmid as [(Hc & recs2 & -> & Hrecs2) | ->]; [| contradiction].
      destruct Hin as [Hin | Hin].
      { injection Hin as <-. split; [reflexivity |]. split; [| exact Hc].
        apply Hgo. left. discriminate. }
      rewrite Forall_forall in Hrecs2. apply Hrecs2 in Hin. contradiction.
    + destruct Htr as [-> | (sz & -> & _)]; [contradiction |].
      destruct Hin as [Hin | []]. discriminate Hin.
  - intros m c Hin. apply in_app_or in Hin. destruct Hin as [Hin | Hin].
    { apply Hrec in Hin. contradiction. }
    destruct Hin as [Hin | Hin]; [injection Hin as <- <-; now split |].
    apply in_app_or in Hin. destruct Hin as [Hin | Hin].
    + destruct Hmid as [(Hc & recs2 & -> & Hrecs2) | ->]; [| contradiction].
      destruct Hin as [Hin | Hin]; [discriminate Hin |].
      rewrite Forall_forall in Hrecs2. apply Hrecs2 in Hin. contradiction.
    + destruct Htr as [-> | (sz & -> & _)]; [contradiction |].
      destruct Hin as [Hin | []]. discriminate Hin.
  - apply in_or_app. right. now left.
  - intros n sz g b sb Hin. apply in_app_or in Hin.
    destruct Hin as [Hin | Hin].
    { apply Hrec in Hin. contradiction. }
    destruct Hin as [Hin | Hin]; [discriminate Hin |].
    apply in_app_or in Hin. destruct Hin as [Hin | Hin].
    + destruct Hmid as [(Hc & recs2 & -> & Hrecs2) | ->]; [| contradiction].
      destruct Hin as [Hin | Hin]; [discriminate Hin |].
      rewrite Forall_forall in Hrecs2. apply Hrecs2 in Hin. contradiction.
    + destruct Htr as [-> | (sz' & -> & Hp & Hl & Hg)]; [contradiction |].
      destruct Hin as [Hin | []]. injection Hin as <- <- <- <- <-.
      split; [reflexivity |]. split.
      { apply Hgo. right. discriminate. }
      repeat (split; [first [reflexivity | assumption] |]). exact Hg.
Qed.

Lemma run_events_in (cfg : Config) (n0 n1 : Z) (evs : list event) :
  run_events cfg n0 evs n1 ->
  (exists k : nat, n1 = (n0 + Z.of_nat k * num_envs cfg)%Z)
  /\ (forall m, In (Refresh m) evs ->
        refresh_condition cfg m /\ In (Rollout m true) evs)
  /\ (forall m c, In (Rollout m c) evs ->
        exists k : nat,
          (0 < k)%nat /\ m = (n0 + Z.of_nat k * num_envs cfg)%Z)
  /\ (forall n sz g b sb,
        In (Train n sz g b sb) evs ->
        In (Rollout n true) evs
        /\ b = batch_size cfg /\ sb = ssl_batch_size cfg
        /\ (n > 0)%Z /\ (n > learning_starts cfg)%Z /\ (g > 0)%Z
        /\ ((gradient_steps cfg >= 0)%Z -> g = gradient_steps cfg)
        /\ ((gradient_steps cfg < 0)%Z ->
            exists k : nat,
              (0 < k)%nat /\ g = (Z.of_nat k * num_envs cfg)%Z)).
Proof.
  assert (Hone : forall a b go_on es,
             pass_events cfg a b go_on es ->
             (forall m, In (Refresh m) es ->
                refresh_condition cfg m /\ In (Rollout m true) es)
             /\ (forall m c, In (Rollout m c) es ->
                   exists k : nat,
                     (0 < k)%nat /\ m = (a + Z.of_nat k * num_envs cfg)%Z)
             /\ (forall n sz g b' sb,
                   In (Train n sz g b' sb) es ->
                   In (Rollout n true) es
                   /\ b' = batch_size cfg /\ sb = ssl_batch_size cfg
                   /\ (n > 0)%Z /\ (n > learning_starts cfg)%Z /\ (g > 0)%Z
                   /\ ((gradient_steps cfg >= 0)%Z -> g = gradient_steps cfg)
                   /\ ((gradient_steps cfg < 0)%Z ->
                       exists k : nat,
                         (0 < k)%nat
                         /\ g = (Z.of_nat k * num_envs cfg)%Z))).
  { intros a b go_on es Hp.
    destruct (pass_events_in Hp) as ((k & Hk & Hb) & Hr & Hro & Hin & Ht).
    split; [| split].
    - intros m Hm. destruct (Hr m Hm) as (-> & -> & Hc). now split.
    - intros m c Hm. destruct (Hro m c Hm) as (-> & _). exists k. now split.
    - intros n sz g b' sb Hm.
      destruct (Ht _ _ _ _ _ Hm) as (-> & -> & Hg & -> & -> & H1 & H2 & H3).
      split; [exact Hin |]. do 2 (split; [reflexivity |]).
      do 3 (split; [assumption |]).
      unfold steps_asked in Hg. split.
      + intros Hge. destruct (Z.geb_spec (gradient_steps cfg) 0); [exact Hg | lia].
      + intros Hlt. destruct (Z.geb_spec (gradient_steps cfg) 0); [lia |].
        exists k. split; [exact Hk |]. rewrite Hg, Hb. ring. }
  induction 1 as [n | a b es Hp | a b c es rest Hp Hrun IH].
  - split; [exists 0%nat; cbn; ring |].
    split; [intros m [] |]. split; [intros m c [] |]. intros n0 sz g b sb [].
  - destruct (pass_events_in Hp) as ((k & Hk & Hb) & _).
    split; [exists k; exact Hb |]. exact (Hone _ _ _ _ Hp).
  - destruct (pass_events_in Hp) as ((k & Hk & Hb) & _).
    destruct (Hone _ _ _ _ Hp) as (P1 & P2 & P3).
    destruct IH as ((k' & Hc) & I1 & I2 & I3).
    split; [exists (k + k')%nat; rewrite Hc, Hb, Nat2Z.inj_add; ring |].
    split; [| split].
    + intros m Hm. apply in_app_or in Hm. destruct Hm as [Hm | Hm].
      * destruct (P1 m Hm) as (Hcnd & Hin). split; [exact Hcnd |].
        apply in_or_app. now left.
      * destruct (I1 m Hm) as (Hcnd & Hin). split; [exact Hcnd |].
        apply in_or_app. now right.
    + intros m c' Hm. apply in_app_or in Hm. destruct Hm as [Hm | Hm].
      * exact (P2 m c' Hm).
      * destruct (I2 m c' Hm) as (j & Hj & ->).
        exists (k + j)%nat. split; [lia |]. rewrite Hb, Nat2Z.inj_add. ring.
    + intros n sz g b' sb Hm. apply in_app_or in Hm. destruct Hm as [Hm | Hm].
      * destruct (P3 _ _ _ _ _ Hm) as (Hin & Hrest).
        split; [apply in_or_app; now left | exact Hrest].
      * destruct (I3 _ _ _ _ _ Hm) as (Hin & Hrest).
        split; [apply in_or_app; now right | exact Hrest].
Qed.

(** ** The training loop over full rollouts *)

(** A run of [learn] is a sequence of passes.  Each pass writes the telemetry
    of its rollout, marks the boundary at a step count that is the previous
    one plus a positive multiple of [num_envs], and, if the collection was
    not stopped, enters the refresh (only when it is due) and then calls the
    optimiser at most once; a pass that stops is the last one.  What follows
    the last complete pass is telemetry only, and is empty when [learn]
    returns. *)
Theorem learn_runs_in_passes (bk : Backend) (cfg : Config)
  (log_interval : option Z) (clock : Z -> Telemetry) (total_timesteps : Z)
  (env : list EnvStep) (number : Z) (s : Algo) :
  exists evs tail n1,
    trace (fst (learn_logged bk cfg log_interval clock total_timesteps env
                  number s))
    = trace s ++ evs ++ tail
    /\ run_events cfg (num_timesteps s) evs n1
    /\ Forall is_record tail
    /\ (snd (learn_logged bk cfg log_interval clock total_timesteps env
               number s) = Ok tt ->
        tail = []
        /\ num_timesteps
             (fst (learn_logged bk cfg log_interval clock total_timesteps env
                     number s)) = n1).
Proof.
  unfold learn_logged.
  destruct (learn_loop_logged _ bk cfg log_interval clock total_timesteps env
              number s) as [s' r] eqn:E.
  destruct (@learn_loop_logged_run _ _ _ _ _ _ _ _ _ _ _ E)
    as (_ & evs & tail & n1 & T & Hrun & Rt & Hok & _).
  exists evs, tail, n1. cbn [fst snd].
  split; [exact T |]. split; [exact Hrun |]. split; [exact Rt |].
  intros Hr. destruct (Hok Hr) as (Ht & Hn & _). now split.
Qed.

(** [learn] returns only when the step count has reached the budget or when
    the last rollout was stopped by the callback, in which case the boundary
    mark of that rollout is the last event. *)
Theorem learn_returns_at_budget_or_stop (bk : Backend) (cfg : Config)
  (log_interval : option Z) (clock : Z -> Telemetry) (total_timesteps : Z)
  (env : list EnvStep) (number : Z) (s s' : Algo) :
  learn_logged bk cfg log_interval clock total_timesteps env number s
  = (s', Ok tt) ->
  (total_timesteps <= num_timesteps s')%Z
  \/ exists before,
      trace s' = trace s ++ before ++ [Rollout (num_timesteps s') false].
Proof.
  unfold learn_logged. intros E.
  destruct (@learn_loop_logged_run _ _ _ _ _ _ _ _ _ _ _ E)
    as (_ & evs & tail & n1 & T & _ & _ & Hok & _).
  destruct (Hok eq_refl) as (-> & <- & [Hb | (before & ->)]);
    [now left | right].
  exists before. rewrite T, app_nil_r. reflexivity.
Qed.

Lemma learn_returns_at_budget_or_stop_witness :
  (5 <= 2)%Z
  \/ exists before,
      trace (fst (learn_logged SpecBackend.backend (Sample2.plain_cfg 0 (-1))
                    None Sample2.clock0 5 Sample2.env_stop 0
                    (Sample2.plain 0)))
      = [] ++ before ++ [Rollout 2 false].
Proof.
  apply (@learn_returns_at_budget_or_stop SpecBackend.backend
           (Sample2.plain_cfg 0 (-1)) None Sample2.clock0 5%Z
           Sample2.env_stop 0%Z (Sample2.plain 0)
           (fst (learn_logged SpecBackend.backend (Sample2.plain_cfg 0 (-1))
                   None Sample2.clock0 5 Sample2.env_stop 0
                   (Sample2.plain 0)))).
  vm_compute. reflexivity.
Defined.

(** With pseudo mode off a run of [learn] never enters the refresh, whatever
    [ssl_freq] is, and leaves the pseudo-labeled store as it found it,
    however the run ends. *)
Theorem learn_without_pseudo_mode (bk : Backend) (cfg : Config)
  (log_interval : option Z) (clock : Z -> Telemetry) (total_timesteps : Z)
  (env : list EnvStep) (number : Z) (s s' : Algo) (r : outcome Datatypes.unit) :
  pseudo_mode cfg = false ->
  learn_logged bk cfg log_interval clock total_timesteps env number s
  = (s', r) ->
  ssl_replay_buffer s' = ssl_replay_buffer s
  /\ exists evs, trace s' = trace s ++ evs
                 /\ forall m, ~ In (Refresh m) evs.
Proof.
  unfold learn_logged. intros Hp E.
  destruct (@learn_loop_logged_run _ _ _ _ _ _ _ _ _ _ _ E)
    as (Hssl & evs & tail & n1 & T & Hrun & Rt & _).
  split; [now apply Hssl |].
  exists (evs ++ tail). split; [exact T |].
  intros m Hm. apply in_app_or in Hm. destruct Hm as [Hm | Hm].
  - destruct (run_events_in Hrun) as (_ & Hr & _).
    destruct (Hr m Hm) as ((Hq & _) & _). congruence.
  - rewrite Forall_forall in Rt. apply Rt in Hm. contradiction.
Qed.

Lemma learn_without_pseudo_mode_witness :
  ssl_replay_buffer
    (fst (learn_logged SpecBackend.backend (Sample2.plain_cfg 0 (-1))
            None Sample2.clock0 5 Sample2.env_stop 0 (Sample2.plain 0)))
  = None
  /\ snd (learn_logged SpecBackend.backend (Sample2.plain_cfg 0 (-1))
            None Sample2.clock0 5 Sample2.env_stop 0 (Sample2.plain 0))
     = Ok tt.
Proof.
  destruct (@learn_without_pseudo_mode SpecBackend.backend
              (Sample2.plain_cfg 0 (-1)) None Sample2.clock0 5%Z
              Sample2.env_stop 0%Z (Sample2.plain 0)
              (fst (learn_logged SpecBackend.backend
                      (Sample2.plain_cfg 0 (-1)) None Sample2.clock0 5
                      Sample2.env_stop 0 (Sample2.plain 0)))
              (Ok tt) eq_refl)
    as (H & _).
  - vm_compute. reflexivity.
  - split; [exact H | vm_compute; reflexivity].
Defined.

Lemma app_eq_app_cons {A} (t : A) (l2 after : list A) :
  forall l1 before,
    l1 ++ l2 = before ++ t :: after ->
    (exists l, l1 = before ++ t :: l /\ after = l ++ l2)
    \/ (exists l, before = l1 ++ l /\ l2 = l ++ t :: after).
Proof.
  induction l1 as [| x l1 IH]; intros before H.
  - right. exists before. split; [reflexivity | exact H].
  - destruct before as [| y before].
    + cbn in H. injection H as -> <-. left. exists l1. split; reflexivity.
    + cbn in H. injection H as <- H. destruct (IH _ H) as [(l & -> & ->) | (l & -> & ->)].
      * left. exists l. split; reflexivity.
      * right. exists l. split; reflexivity.
Qed.

Lemma last_boundary_app (start : Z) (l1 l2 : list event) :
  last_boundary start (l1 ++ l2) = last_boundary (last_boundary start l1) l2.
Proof. apply fold_left_app. Qed.

Lemma last_boundary_cycle_events (start : Z) (l : list event) :
  Forall is_cycle_event l -> last_boundary start l = start.
Proof.
  induction 1 as [| ev l Hev _ IH]; [reflexivity |].
  destruct ev; try contradiction; exact IH.
Qed.

Lemma records_are_cycle_events (l : list event) :
  Forall is_record l -> Forall is_cycle_event l.
Proof.
  apply Forall_impl. intros [] H; try contradiction; exact I.
Qed.

(** Where the optimiser is called in a pass: last, right after the boundary
    mark and the events of the cycle. *)
Lemma pass_events_train (cfg : Config) (n0 n1 : Z) (go_on : bool)
  (evs before after : list event) (n : Z) (sz : nat) (g b sb : Z) :
  pass_events cfg n0 n1 go_on evs ->
  evs = before ++ Train n sz g b sb :: after ->
  after = []
  /\ exists head mid,
      before = head ++ Rollout n true :: mid
      /\ Forall is_record head
      /\ Forall is_cycle_event mid
      /\ n = n1
      /\ g = steps_asked cfg (n1 - n0)
      /\ b = batch_size cfg /\ sb = ssl_batch_size cfg
      /\ (g > 0)%Z.
Proof.
  intros (recs & mid & trains & k & -> & Hrecs & Hk & Hn & Hstop & Hmid & Htr)
    H.
  assert (Hcyc : Forall is_cycle_event mid).
  { destruct Hmid as [(_ & recs2 & -> & Hr2) | ->]; [| constructor].
    constructor; [exact I | now apply records_are_cycle_events]. }
  change (recs ++ Rollout n1 go_on :: mid ++ trains)
    with (recs ++ (Rollout n1 go_on :: mid) ++ trains) in H.
  rewrite app_assoc in H.
  apply app_eq_app_cons in H.
  destruct H as [(l & Hpre & _) | (l & Hbefore & Htrains)].
  - exfalso.
    assert (Hin : In (Train n sz g b sb) (recs ++ Rollout n1 go_on :: mid)).
    { rewrite Hpre. apply in_or_app. right. now left. }
    apply in_app_or in Hin. destruct Hin as [Hin | [Hin | Hin]].
    + rewrite Forall_forall in Hrecs. apply Hrecs in Hin. contradiction.
    + discriminate Hin.
    + rewrite Forall_forall in Hcyc. apply Hcyc in Hin. contradiction.
  - destruct Htr as [-> | (sz' & -> & Hp & Hl & Hg)].
    { destruct l; discriminate Htrains. }
    destruct l as [| x l].
    2:{ cbn in Htrains. injection Htrains as _ Htrains.
        destruct l; discriminate Htrains. }
    cbn in Htrains. injection Htrains as <- <- <- <- <- <-.
    split; [reflexivity |].
    assert (Hgo : go_on = true).
    { destruct go_on; [reflexivity |].
      destruct (Hstop eq_refl) as (_ & Hd). discriminate Hd. }
    subst go_on. exists recs, mid. rewrite app_nil_r in Hbefore.
    split; [exact Hbefore |]. split; [exact Hrecs |].
    split; [exact Hcyc |]. now repeat split.
Qed.

Lemma pass_events_last_boundary (cfg : Config) (n0 n1 start : Z)
  (go_on : bool) (evs : list event) :
  pass_events cfg n0 n1 go_on evs -> last_boundary start evs = n1.
Proof.
  intros (recs & mid & trains & k & -> & Hrecs & _ & _ & _ & Hmid & Htr).
  assert (Hcyc : Forall is_cycle_event mid).
  { destruct Hmid as [(_ & recs2 & -> & Hr2) | ->]; [| constructor].
    constructor; [exact I | now apply records_are_cycle_events]. }
  rewrite last_boundary_app.
  rewrite (last_boundary_cycle_events _ (records_are_cycle_events Hrecs)).
  change (Rollout n1 go_on :: mid ++ trains)
    with ([Rollout n1 go_on] ++ mid ++ trains).
  rewrite last_boundary_app.
  change (last_boundary start [Rollout n1 go_on]) with n1.
  rewrite last_boundary_app, (last_boundary_cycle_events n1 Hcyc).
  destruct Htr as [-> | (sz & -> & _)]; reflexivity.
Qed.

Lemma run_events_train (cfg : Config) (n0 n1 : Z) (evs : list event) :
  run_events cfg n0 evs n1 ->
  forall before after n sz g b sb,
    evs = before ++ Train n sz g b sb :: after ->
    exists head mid,
      before = head ++ Rollout n true :: mid
      /\ Forall is_cycle_event mid
      /\ g = steps_asked cfg (n - last_boundary n0 head)
      /\ b = batch_size cfg /\ sb = ssl_batch_size cfg
      /\ (g > 0)%Z.
Proof.
  induction 1 as [n | a c es Hp | a c d es rest Hp Hrun IH];
    intros before after n' sz g b sb H.
  - destruct before; discriminate H.
  - destruct (@pass_events_train _ _ _ _ _ _ _ _ _ _ _ _ Hp H)
      as (_ & head & mid & -> & Hh & Hm & -> & -> & -> & -> & Hg).
    exists head, mid. split; [reflexivity |]. split; [exact Hm |].
    rewrite (last_boundary_cycle_events _ (records_are_cycle_events Hh)).
    now repeat split.
  - apply app_eq_app_cons in H.
    destruct H as [(l & Hes & _) | (l & -> & Hrest)].
    + destruct (@pass_events_train _ _ _ _ _ _ _ _ _ _ _ _ Hp Hes)
        as (_ & head & mid & -> & Hh & Hm & -> & -> & -> & -> & Hg).
      exists head, mid. split; [reflexivity |]. split; [exact Hm |].
      rewrite (last_boundary_cycle_events _ (records_are_cycle_events Hh)).
      now repeat split.
    + destruct (IH _ _ _ _ _ _ _ Hrest)
        as (head & mid & -> & Hm & Hg & Hb & Hsb & Hpos).
      exists (es ++ head), mid. rewrite app_assoc.
      split; [reflexivity |]. split; [exact Hm |].
      rewrite last_boundary_app, (@pass_events_last_boundary _ _ _ _ _ _ Hp).
      now repeat split.
Qed.

(** Every call of the optimiser in a run of [learn] comes right after the
    boundary mark of a rollout that was not stopped and the events of its
    refresh cycle, at the count of that boundary, with the configured batch
    sizes and a positive number of gradient steps: [gradient_steps] itself
    when it is not negative (so none is made when it is 0), and otherwise the
    number of steps by which that rollout advanced the count, from the
    boundary before it (or from the start of the run) to its own. *)
Theorem learn_train_calls (bk : Backend) (cfg : Config)
  (log_interval : option Z) (clock : Z -> Telemetry) (total_timesteps : Z)
  (env : list EnvStep) (number : Z) (s : Algo) :
  exists evs,
    trace (fst (learn_logged bk cfg log_interval clock total_timesteps env
                  number s))
    = trace s ++ evs
    /\ (forall before after n sz g b sb,
          evs = before ++ Train n sz g b sb :: after ->
          exists head mid,
            before = head ++ Rollout n true :: mid
            /\ Forall is_cycle_event mid
            /\ b = batch_size cfg /\ sb = ssl_batch_size cfg
            /\ (g > 0)%Z
            /\ ((gradient_steps cfg >= 0)%Z -> g = gradient_steps cfg)
            /\ ((gradient_steps cfg < 0)%Z ->
                g = (n - last_boundary (num_timesteps s) head)%Z))
    /\ (gradient_steps cfg = 0%Z ->
        forall n sz g b sb, ~ In (Train n sz g b sb) evs).
Proof.
  unfold learn_logged.
  destruct (learn_loop_logged _ bk cfg log_interval clock total_timesteps env
              number s) as [s' r] eqn:E.
  destruct (@learn_loop_logged_run _ _ _ _ _ _ _ _ _ _ _ E)
    as (_ & evs & tail & n1 & T & Hrun & Rt & _).
  destruct (run_events_in Hrun) as (_ & _ & _ & Ht).
  assert (Hin : forall n sz g b sb,
             In (Train n sz g b sb) (evs ++ tail) ->
             In (Train n sz g b sb) evs).
  { intros n sz g b sb Hm. apply in_app_or in Hm.
    destruct Hm as [Hm | Hm]; [exact Hm |].
    rewrite Forall_forall in Rt. apply Rt in Hm. contradiction. }
  exists (evs ++ tail). cbn [fst]. split; [exact T |]. split.
  - intros before after n sz g b sb Hsplit.
    apply app_eq_app_cons in Hsplit.
    destruct Hsplit as [(l & Hevs & _) | (l & _ & Htail)].
    2:{ exfalso. rewrite Forall_forall in Rt.
        apply (Rt (Train n sz g b sb)). rewrite Htail.
        apply in_or_app. right. now left. }
    destruct (@run_events_train _ _ _ _ Hrun _ _ _ _ _ _ _ Hevs)
      as (head & mid & -> & Hm & Hg & Hb & Hsb & Hpos).
    exists head, mid. split; [reflexivity |]. split; [exact Hm |].
    split; [exact Hb |]. split; [exact Hsb |]. split; [exact Hpos |].
    unfold steps_asked in Hg.
    destruct (Z.geb_spec (gradient_steps cfg) 0); split; intros; lia.
  - intros H0 n sz g b sb Hm. apply Hin in Hm.
    destruct (Ht _ _ _ _ _ Hm) as (_ & _ & _ & _ & _ & H4 & H5 & _).
    rewrite H5 in H4; lia.
Qed.

(** ** Logging without a pseudo store *)

Lemma episode_ends_silent (interval : Z) (clock : Z -> Telemetry)
  (dones : list bool) :
  forall episodes number s s' episodes' number',
    ssl_replay_buffer s = None ->
    episode_ends (Some interval) clock dones episodes number s
    = (s', Ok (episodes', number')) ->
    s' = s
    /\ (number <= number')%Z
    /\ forall j, (number < j <= number')%Z ->
         interval <> 0%Z /\ (j mod interval)%Z <> 0%Z.
Proof.
  induction dones as [| d dones IH];
    intros episodes number s s' episodes' number' Hnone H;
    cbn [episode_ends] in H.
  - injection H as <- <- <-. split; [reflexivity |]. split; [lia |].
    intros j Hj. lia.
  - destruct d.
    + unfold bind at 1 in H. unfold bind at 1 in H. unfold lift, py_mod in H.
      destruct (Z.eqb_spec interval 0) as [-> | Hne]; [discriminate H |].
      cbv beta iota in H.
      destruct (Z.eqb_spec ((number + 1) mod interval) 0) as [Hz | Hnz].
      * pose proof (dump_logs_run (clock (number + 1)%Z) (number + 1)%Z s)
          as (_ & Hres & _).
        destruct (_dump_logs (clock (number + 1)%Z) (number + 1)%Z s)
          as [s1 r1]. cbn [snd] in Hres. rewrite Hnone in Hres. subst r1.
        discriminate H.
      * unfold ret in H. apply IH in H; [| exact Hnone].
        destruct H as (-> & Hle & Hj). split; [reflexivity |].
        split; [lia |]. intros j Hr.
        destruct (Z.eq_dec j (number + 1)) as [-> | Hd]; [now split |].
        apply Hj. lia.
    + apply IH in H; [| exact Hnone]. exact H.
Qed.

Lemma collect_loop_logged_silent (cfg : Config) (interval : Z)
  (clock : Z -> Telemetry) (env : list EnvStep) :
  forall steps episodes number s s' rollout env' number',
    ssl_replay_buffer s = None ->
    collect_loop_logged cfg (Some interval) clock env steps episodes number s
    = (s', Ok (rollout, env', number')) ->
    (number <= number')%Z
    /\ (forall j, (number < j <= number')%Z ->
          interval <> 0%Z /\ (j mod interval)%Z <> 0%Z)
    /\ forall v, In (Record_ "logger.dump" v) (trace s') ->
                 In (Record_ "logger.dump" v) (trace s).
Proof.
  induction env as [| step env IH];
    intros steps episodes number s s' rollout env' number' Hnone H;
    cbn [collect_loop_logged] in H.
  - destruct (should_collect_more_steps _ _ _); [discriminate H |].
    injection H as <- <- <- <-. split; [lia |]. split; [intros j Hj; lia |].
    auto.
  - destruct (should_collect_more_steps _ _ _).
    2:{ injection H as <- <- <- <-. split; [lia |].
        split; [intros j Hj; lia | auto]. }
    unfold bind at 1 in H. unfold modify at 1 in H. cbv beta iota in H.
    set (s0 := set_num_timesteps (num_timesteps s + num_envs cfg) s) in *.
    destruct (on_step step); cbn [negb] in H.
    2:{ injection H as <- <- <- <-. split; [lia |].
        split; [intros j Hj; lia | auto]. }
    unfold bind at 1 in H.
    destruct (store_transition_frame cfg (random_draw step)
                (transition step) s0) as (Hok & Hssl & _ & Htr).
    destruct (_store_transition cfg (random_draw step) (transition step) s0)
      as [s1 r1]. cbn [fst snd] in Hok, Hssl, Htr. subst r1.
    change (ssl_replay_buffer s0) with (ssl_replay_buffer s) in Hssl.
    change (trace s0) with (trace s) in Htr.
    unfold bind at 1 in H. unfold gets at 1 in H. cbv beta iota in H.
    unfold bind at 1 in H. unfold record_ at 1, modify at 1 in H.
    cbv beta iota in H.
    set (s2 := emit _ s1) in H.
    unfold bind at 1 in H.
    destruct ((if pseudo_mode cfg && Qltb (p cfg) 1
               then ub <- attr unlabeled_replay_buffer;;
                    record_ "buffer/num_unlabeled_rewards" (size_value ub)
               else ret tt) s2) as [s3 r3] eqn:E3.
    assert (Hs3 : ssl_replay_buffer s3 = None
                  /\ forall v, In (Record_ "logger.dump" v) (trace s3) ->
                               In (Record_ "logger.dump" v) (trace s)).
    { assert (H2 : forall v, In (Record_ "logger.dump" v) (trace s2) ->
                             In (Record_ "logger.dump" v) (trace s)).
      { intros v Hv. subst s2. unfold emit in Hv. cbn [trace] in Hv.
        apply in_app_or in Hv. destruct Hv as [Hv | [Hv | []]].
        - now rewrite <- Htr.
        - discriminate Hv. }
      destruct (pseudo_mode cfg && Qltb (p cfg) 1).
      - unfold bind, attr, record_, modify in E3.
        destruct (unlabeled_replay_buffer s2) eqn:Eub.
        + injection E3 as <- <-. split.
          * subst s2. unfold emit. cbn [ssl_replay_buffer]. congruence.
          * intros v Hv. unfold emit in Hv. cbn [trace] in Hv.
            apply in_app_or in Hv. destruct Hv as [Hv | [Hv | []]].
            -- now apply H2.
            -- discriminate Hv.
        + injection E3 as <- <-. split; [| exact H2].
          subst s2. unfold emit. cbn [ssl_replay_buffer]. congruence.
      - injection E3 as <- <-. split; [| exact H2].
        subst s2. unfold emit. cbn [ssl_replay_buffer]. congruence. }
    destruct Hs3 as (Hn3 & Ht3).
    destruct r3 as [[] | e3]; [| discriminate H].
    unfold bind at 1 in H.
    destruct (episode_ends (Some interval) clock (dones step) episodes number
                s3) as [s4 r4] eqn:E4.
    destruct r4 as [[episodes4 number4] | e4]; [| discriminate H].
    destruct (@episode_ends_silent _ _ _ _ _ _ _ _ _ Hn3 E4)
      as (-> & Hle & Hj4).
    apply IH in H; [| exact Hn3].
    destruct H as (Hle' & Hj' & Ht').
    split; [lia |]. split.
    + intros j Hj. destruct (Z_le_gt_dec j number4).
      * apply Hj4. lia.
      * apply Hj'. lia.
    + intros v Hv. apply Ht3. now apply Ht'.
Qed.

(** On an algorithm without a pseudo-labeled store a rollout never gets to
    dump its logs.  It returns only if no episode that ended in it had a
    number divisible by the log interval, and then nothing was dumped: the
    first episode due for logging makes the rollout raise instead. *)
Theorem rollout_never_logs_without_pseudo_store (cfg : Config)
  (interval : Z) (clock : Z -> Telemetry) (env : list EnvStep) (number : Z)
  (s s' : Algo) (rollout : RolloutReturn) (env' : list EnvStep)
  (number' : Z) :
  ssl_replay_buffer s = None ->
  collect_rollouts_logged cfg (Some interval) clock env number s
  = (s', Ok (rollout, env', number')) ->
  number' = (number + n_episodes rollout)%Z
  /\ (forall j, (number < j <= number')%Z ->
        interval <> 0%Z /\ (j mod interval)%Z <> 0%Z)
  /\ forall v, In (Record_ "logger.dump" v) (trace s') ->
               In (Record_ "logger.dump" v) (trace s).
Proof.
  intros Hnone H.
  assert (Hnum : number' = (number + n_episodes rollout)%Z).
  { pose proof H as H0. apply collect_rollouts_logged_ok in H0.
    destruct H0 as (_ & _ & H0). apply collect_loop_logged_ok in H0.
    destruct H0 as (taken & _ & _ & _ & _ & _ & _ & _ & Hep & Hnb & _).
    rewrite Hnb, Hep. ring. }
  split; [exact Hnum |].
  unfold collect_rollouts_logged in H.
  destruct (negb (frequency (train_freq cfg) >? 0)%Z); [discriminate H |].
  destruct ((num_envs cfg >? 1)%Z && _); [discriminate H |].
  destruct (@collect_loop_logged_silent _ _ _ _ _ _ _ _ _ _ _ _ Hnone H)
    as (_ & Hj & Ht).
  split; assumption.
Qed.

Lemma rollout_never_logs_without_pseudo_store_witness :
  1%Z = (0 + n_episodes {| episode_timesteps := 1; n_episodes := 1;
                           continue_training := true |})%Z.
Proof.
  destruct (@rollout_never_logs_without_pseudo_store
              (Sample2.plain_cfg 0 (-1)) 2%Z Sample2.clock0
              [Sample2.last_step (Sample.tr 1 0 0) (1 # 2)] 0%Z
              (Sample2.plain 0)
              (fst (collect_rollouts_logged (Sample2.plain_cfg 0 (-1))
                      (Some 2%Z) Sample2.clock0
                      [Sample2.last_step (Sample.tr 1 0 0) (1 # 2)] 0%Z
                      (Sample2.plain 0)))
              {| episode_timesteps := 1; n_episodes := 1;
                 continue_training := true |} [] 1%Z eq_refl)
    as (H & _).
  - vm_compute. reflexivity.
  - exact H.
Defined.

(** ** The train frequency, from its conversion to the rollout *)

(** An integer [train_freq] passes the conversion whatever its value and
    becomes that number of steps: zero or a negative number is not refused
    there.  It is refused by the assertion at the head of the first rollout,
    which then leaves the state as it was; with a positive number the
    assertions at the head of the rollout pass and the collection loop is
    entered. *)
Theorem int_train_freq_checked_at_rollout (z : Z) (cfg : Config)
  (log_interval : option Z) (clock : Z -> Telemetry) (env : list EnvStep)
  (number : Z) (s : Algo) :
  train_freq cfg = {| frequency := z; unit := STEP |} ->
  _convert_train_freq (IsScalar (PyInt z)) = Ok (train_freq cfg)
  /\ ((z <= 0)%Z ->
      collect_rollouts_logged cfg log_interval clock env number s
      = (s, Raise AssertionError))
  /\ ((z > 0)%Z ->
      collect_rollouts_logged cfg log_interval clock env number s
      = collect_loop_logged cfg log_interval clock env 0 0 number s).
Proof.
  intros H. split; [rewrite H; reflexivity |].
  unfold collect_rollouts_logged. rewrite H. cbn [frequency unit].
  rewrite andb_false_r. split; intros Hz.
  - destruct (Z.gtb_spec z 0); [lia | reflexivity].
  - destruct (Z.gtb_spec z 0); [reflexivity | lia].
Qed.

Lemma int_train_freq_checked_at_rollout_witness :
  _convert_train_freq (IsScalar (PyInt 0)) = Ok (train_freq (Sample2.every 0))
  /\ collect_rollouts_logged (Sample2.every 0) None Sample2.clock0
       Sample.env2 0 (Sample2.plain 0)
     = (Sample2.plain 0, Raise AssertionError).
Proof.
  destruct (@int_train_freq_checked_at_rollout 0%Z (Sample2.every 0)
              None Sample2.clock0 Sample.env2 0%Z (Sample2.plain 0) eq_refl)
    as (H1 & H2 & _).
  split; [exact H1 | apply H2; lia].
Defined.

(** ** Terminal observations *)

Lemma nth_error_replace {A} (v : A) :
  forall (i : nat) (l : list A) (j : nat),
    (i < List.length l)%nat ->
    nth_error (firstn i l ++ v :: skipn (S i) l) j
    = if (j =? i)%nat then Some v else nth_error l j.
Proof.
  induction i as [| i IH]; intros [| x l] j Hi; cbn [List.length] in Hi;
    try lia.
  - destruct j; reflexivity.
  - destruct j as [| j]; [reflexivity |].
    cbn [firstn app nth_error]. change (skipn (S (S i)) (x :: l))
      with (skipn (S i) l).
    rewrite IH by lia. reflexivity.
Qed.

Lemma length_replace {A} (v : A) (i : nat) (l : list A) :
  (i < List.length l)%nat ->
  List.length (firstn i l ++ v :: skipn (S i) l) = List.length l.
Proof.
  intros Hi. rewrite length_app, length_firstn. cbn [List.length].
  rewrite length_skipn. lia.
Qed.

Lemma setitem_same_length (next_obs : list Row) (i : nat) (value row : Row) :
  nth_error next_obs i = Some row ->
  List.length value = List.length row ->
  setitem next_obs i value
  = Ok (firstn i next_obs ++ value :: skipn (S i) next_obs).
Proof.
  intros Hrow Hlen. unfold setitem. rewrite Hrow.
  rewrite (proj2 (Nat.eqb_eq _ _) Hlen). reflexivity.
Qed.

Lemma terminal_observations_from (dones : list bool)
  (infos : list (option Row)) :
  forall (i : nat) (next_obs : list Row),
    (forall k, nth_error dones k = Some true ->
               exists info, nth_error infos (i + k) = Some info) ->
    (forall k t, nth_error dones k = Some true ->
                 nth_error infos (i + k) = Some (Some t) ->
                 exists row, nth_error next_obs (i + k) = Some row
                             /\ List.length t = List.length row) ->
    exists out,
      terminal_observations i dones infos next_obs = Ok out
      /\ List.length out = List.length next_obs
      /\ forall j,
          nth_error out j
          = if (j <? i)%nat then nth_error next_obs j
            else match nth_error dones (j - i), nth_error infos j with
                 | Some true, Some (Some t) => Some t
                 | _, _ => nth_error next_obs j
                 end.
Proof.
  induction dones as [| d dones IH]; intros i next_obs Hinfo Hrow;
    cbn [terminal_observations].
  - exists next_obs. split; [reflexivity |]. split; [reflexivity |].
    intros j. destruct (j <? i)%nat; [reflexivity |].
    destruct (j - i)%nat; reflexivity.
  - assert (Hinfo' : forall k, nth_error dones k = Some true ->
                       exists info, nth_error infos (S i + k) = Some info).
    { intros k Hk. destruct (Hinfo (S k) Hk) as (info & Hi).
      exists info. now rewrite Nat.add_succ_comm. }
    assert (Hshift : forall out next_obs',
               (forall j, j <> i -> nth_error next_obs' j = nth_error next_obs j) ->
               nth_error next_obs' i
               = (if d then match nth_error infos i with
                            | Some (Some t) => Some t
                            | _ => nth_error next_obs i
                            end
                  else nth_error next_obs i) ->
               (forall j,
                   nth_error out j
                   = if (j <? S i)%nat then nth_error next_obs' j
                     else match nth_error dones (j - S i), nth_error infos j with
                          | Some true, Some (Some t) => Some t
                          | _, _ => nth_error next_obs' j
                          end) ->
               forall j,
                 nth_error out j
                 = if (j <? i)%nat then nth_error next_obs j
                   else match nth_error (d :: dones) (j - i),
                              nth_error infos j with
                        | Some true, Some (Some t) => Some t
                        | _, _ => nth_error next_obs j
                        end).
    { intros out next_obs' Hother Hat Hout j. rewrite Hout.
      destruct (Nat.ltb_spec j i) as [Hlt | Hge].
      - destruct (Nat.ltb_spec j (S i)); [| lia]. apply Hother. lia.
      - destruct (Nat.eq_dec j i) as [-> | Hne].
        + destruct (Nat.ltb_spec i (S i)); [| lia].
          rewrite Nat.sub_diag. cbn [nth_error]. rewrite Hat.
          destruct d; [| reflexivity].
          destruct (nth_error infos i) as [[t |] |]; reflexivity.
        + destruct (Nat.ltb_spec j (S i)); [lia |].
          replace (j - i)%nat with (S (j - S i)) by lia. cbn [nth_error].
          rewrite (Hother j Hne). reflexivity. }
    destruct d.
    + destruct (Hinfo 0%nat eq_refl) as (info & Hi).
      rewrite Nat.add_0_r in Hi. unfold subscript. rewrite Hi.
      cbn [obind]. destruct info as [t |].
      * destruct (Hrow 0%nat t eq_refl) as (row & Hr & Hlen);
          [now rewrite Nat.add_0_r |].
        rewrite Nat.add_0_r in Hr.
        rewrite (setitem_same_length _ _ _ Hr Hlen). cbn [obind].
        assert (Hi_lt : (i < List.length next_obs)%nat).
        { apply nth_error_Some. congruence. }
        set (next_obs' := firstn i next_obs ++ t :: skipn (S i) next_obs).
        destruct (IH (S i) next_obs' Hinfo') as (out & Hout & Hlen' & Hnth).
        { intros k t' Hk Hi'.
          destruct (Hrow (S k) t' Hk) as (row' & Hr' & Hl');
            [now rewrite <- Nat.add_succ_comm |].
          exists row'. split; [| exact Hl'].
          subst next_obs'. rewrite nth_error_replace by exact Hi_lt.
          destruct (Nat.eqb_spec (S i + k) i); [lia |].
          now rewrite Nat.add_succ_comm. }
        exists out. split; [exact Hout |]. split.
        { rewrite Hlen'. subst next_obs'. now apply length_replace. }
        apply Hshift with (next_obs' := next_obs'); [| | exact Hnth].
        -- intros j Hj. subst next_obs'.
           rewrite nth_error_replace by exact Hi_lt.
           destruct (Nat.eqb_spec j i); [contradiction | reflexivity].
        -- subst next_obs'. rewrite nth_error_replace by exact Hi_lt.
           rewrite Nat.eqb_refl, Hi. reflexivity.
      * destruct (IH (S i) next_obs Hinfo') as (out & Hout & Hlen' & Hnth).
        { intros k t' Hk Hi'.
          destruct (Hrow (S k) t' Hk) as (row' & Hr' & Hl');
            [now rewrite <- Nat.add_succ_comm |].
          exists row'. split; [| exact Hl'].
          now rewrite Nat.add_succ_comm. }
        exists out. split; [exact Hout |]. split; [exact Hlen' |].
        apply Hshift with (next_obs' := next_obs); [reflexivity | | exact Hnth].
        rewrite Hi. reflexivity.
    + destruct (IH (S i) next_obs Hinfo') as (out & Hout & Hlen' & Hnth).
      { intros k t' Hk Hi'.
        destruct (Hrow (S k) t' Hk) as (row' & Hr' & Hl');
          [now rewrite <- Nat.add_succ_comm |].
        exists row'. split; [| exact Hl'].
        now rewrite Nat.add_succ_comm. }
      exists out. split; [exact Hout |]. split; [exact Hlen' |].
      apply Hshift with (next_obs' := next_obs);
        [reflexivity | reflexivity | exact Hnth].
Qed.

(** In the next observations that get stored, the row of an environment
    whose episode ended is the terminal observation that the environment
    reported, if it reported one; every other row is the row of [new_obs],
    also where a terminal observation is reported without an episode end.
    This holds whenever [infos] reaches every environment that is done and
    each terminal observation has the length of the row it replaces. *)
Theorem terminal_observations_replace_rows (dones : list bool)
  (infos : list (option Row)) (new_obs : list Row) :
  (forall i, nth_error dones i = Some true ->
             exists info, nth_error infos i = Some info) ->
  (forall i t, nth_error dones i = Some true ->
               nth_error infos i = Some (Some t) ->
               exists row, nth_error new_obs i = Some row
                           /\ List.length t = List.length row) ->
  exists next_obs,
    terminal_observations 0 dones infos new_obs = Ok next_obs
    /\ List.length next_obs = List.length new_obs
    /\ forall i,
        nth_error next_obs i
        = match nth_error dones i, nth_error infos i with
          | Some true, Some (Some t) => Some t
          | _, _ => nth_error new_obs i
          end.
Proof.
  intros Hinfo Hrow.
  destruct (@terminal_observations_from dones infos 0%nat new_obs)
    as (out & Hout & Hlen & Hnth).
  - exact Hinfo.
  - exact Hrow.
  - exists out. split; [exact Hout |]. split; [exact Hlen |].
    intros i. rewrite Hnth. cbn [Nat.ltb Nat.leb]. rewrite Nat.sub_0_r.
    reflexivity.
Qed.

Lemma terminal_observations_replace_rows_witness :
  terminal_observations 0 [true; false] [Some [9%Z]; Some [7%Z]]
    [[0%Z]; [1%Z]]
  = Ok [[9%Z]; [1%Z]].
Proof.
  destruct (@terminal_observations_replace_rows [true; false]
              [Some [9%Z]; Some [7%Z]] [[0%Z]; [1%Z]])
    as (next_obs & H & _).
  - intros [| [| i]] Hi; cbn in Hi |- *; try discriminate Hi.
    + eexists; reflexivity.
    + destruct i; discriminate Hi.
  - intros [| [| i]] t Hi Ht; cbn in Hi, Ht |- *; try discriminate Hi.
    + injection Ht as <-. eexists. split; reflexivity.
    + destruct i; discriminate Hi.
  - rewrite H. vm_compute in H. exact (eq_sym H).
Defined.

Lemma setitem_inv (next_obs : list Row) (i : nat) (value : Row)
  (out : list Row) :
  setitem next_obs i value = Ok out ->
  exists row v,
    nth_error next_obs i = Some row
    /\ (List.length value = List.length row \/ List.length value = 1%nat)
    /\ out = firstn i next_obs ++ v :: skipn (S i) next_obs.
Proof.
  unfold setitem. destruct (nth_error next_obs i) as [row |] eqn:Hrow;
    [| discriminate].
  destruct (Nat.eqb_spec (List.length value) (List.length row)) as [He | Hne].
  - intros [= <-]. exists row, value. auto.
  - destruct value as [| v [| w value]]; try discriminate.
    intros [= <-]. exists row, (repeat v (List.length row)). auto.
Qed.

Lemma terminal_observations_inv (dones : list bool)
  (infos : list (option Row)) :
  forall (i : nat) (next_obs out : list Row),
    terminal_observations i dones infos next_obs = Ok out ->
    forall k, nth_error dones k = Some true ->
      exists info,
        nth_error infos (i + k) = Some info
        /\ forall t, info = Some t ->
             exists row,
               nth_error next_obs (i + k) = Some row
               /\ (List.length t = List.length row
                   \/ List.length t = 1%nat).
Proof.
  induction dones as [| d dones IH]; intros i next_obs out H k Hk.
  - destruct k; discriminate Hk.
  - cbn [terminal_observations] in H. destruct k as [| k].
    + cbn in Hk. injection Hk as ->. rewrite Nat.add_0_r.
      unfold subscript in H.
      destruct (nth_error infos i) as [info |]; [| discriminate H].
      exists info. split; [reflexivity |]. intros t ->. cbn [obind] in H.
      destruct (setitem next_obs i t) as [next_obs' | e] eqn:Es;
        [| discriminate H].
      destruct (setitem_inv _ _ _ Es) as (row & v & Hr & Hl & _).
      exists row. now split.
    + cbn [nth_error] in Hk. rewrite <- Nat.add_succ_comm.
      destruct d.
      * unfold subscript in H.
        destruct (nth_error infos i) as [[t |] |]; cbn [obind] in H;
          [| now apply (IH _ _ _ H) | discriminate H].
        destruct (setitem next_obs i t) as [next_obs' | e] eqn:Es;
          [| discriminate H]. cbn [obind] in H.
        destruct (setitem_inv _ _ _ Es) as (row & v & Hr & _ & ->).
        destruct (IH _ _ _ H k Hk) as (info & Hi & Hrows).
        exists info. split; [exact Hi |]. intros t' Ht'.
        destruct (Hrows t' Ht') as (row' & Hr' & Hl').
        exists row'. split; [| exact Hl'].
        rewrite nth_error_replace in Hr'.
        -- destruct (Nat.eqb_spec (S i + k) i); [lia | exact Hr'].
        -- apply nth_error_Some. congruence.
      * now apply (IH _ _ _ H).
Qed.

(** The loop completes only if [infos] has an entry for every environment
    that is done, and each terminal observation reported for such an
    environment has a row of [new_obs] to replace, of its own length unless
    it has length one: with a missing entry or row, or any other length,
    the loop raises. *)
Theorem terminal_observations_needs_infos (dones : list bool)
  (infos : list (option Row)) (new_obs next_obs : list Row) (i : nat) :
  terminal_observations 0 dones infos new_obs = Ok next_obs ->
  nth_error dones i = Some true ->
  exists info,
    nth_error infos i = Some info
    /\ forall t, info = Some t ->
         exists row,
           nth_error new_obs i = Some row
           /\ (List.length t = List.length row \/ List.length t = 1%nat).
Proof.
  intros H Hi. exact (terminal_observations_inv _ _ _ _ H _ Hi).
Qed.

Lemma terminal_observations_needs_infos_witness :
  exists info, nth_error [Some [9%Z]; Some [7%Z]] 0 = Some info.
Proof.
  destruct (@terminal_observations_needs_infos [true; false]
              [Some [9%Z]; Some [7%Z]] [[0%Z]; [1%Z]] [[9%Z]; [1%Z]] 0%nat
              eq_refl eq_refl)
    as (info & H & _).
  exists info. exact H.
Defined.

(** ** No log is dumped without a pseudo store *)

Lemma no_new_dump_refl (s : Algo) : no_new_dump s s.
Proof. intros v Hv. exact Hv. Qed.

Lemma no_new_dump_trans (s1 s2 s3 : Algo) :
  no_new_dump s1 s2 -> no_new_dump s2 s3 -> no_new_dump s1 s3.
Proof. intros H12 H23 v Hv. apply H12, H23, Hv. Qed.

Lemma no_new_dump_app (s s' : Algo) (evs : list event) :
  trace s' = trace s ++ evs ->
  (forall v, ~ In (Record_ "logger.dump" v) evs) ->
  no_new_dump s s'.
Proof.
  intros T Hno v Hv. rewrite T in Hv. apply in_app_or in Hv.
  destruct Hv as [Hv | Hv]; [exact Hv | now apply Hno in Hv].
Qed.

Lemma episode_ends_no_dump (log_interval : option Z)
  (clock : Z -> Telemetry) (dones : list bool) :
  forall episodes number s s' r,
    ssl_replay_buffer s = None ->
    episode_ends log_interval clock dones episodes number s = (s', r) ->
    no_new_dump s s'.
Proof.
  induction dones as [| d dones IH]; intros episodes number s s' r Hnone H;
    cbn [episode_ends] in H.
  - injection H as <- <-. apply no_new_dump_refl.
  - destruct d; [| now apply (IH _ _ _ _ _ Hnone H)].
    unfold bind at 1 in H.
    destruct log_interval as [interval |];
      [| unfold ret in H; now apply (IH _ _ _ _ _ Hnone H)].
    unfold bind at 1 in H. unfold lift, py_mod in H.
    destruct (Z.eqb_spec interval 0) as [-> | Hne].
    { injection H as <- <-. apply no_new_dump_refl. }
    cbv beta iota in H.
    destruct (_ =? 0)%Z;
      [| unfold ret in H; now apply (IH _ _ _ _ _ Hnone H)].
    pose proof (dump_logs_run (clock (number + 1)%Z) (number + 1)%Z s)
      as (_ & Hres & evs & T & Hev).
    destruct (_dump_logs (clock (number + 1)%Z) (number + 1)%Z s)
      as [s1 r1]. cbn [fst snd] in Hres, T. rewrite Hnone in Hres, Hev.
    subst r1. injection H as <- <-.
    now apply no_new_dump_app with (evs := evs).
Qed.

Lemma collect_loop_logged_no_dump (cfg : Config) (log_interval : option Z)
  (clock : Z -> Telemetry) (env : list EnvStep) :
  forall steps episodes number s s' r,
    ssl_replay_buffer s = None ->
    collect_loop_logged cfg log_interval clock env steps episodes number s
    = (s', r) ->
    no_new_dump s s'.
Proof.
  induction env as [| step env IH];
    intros steps episodes number s s' r Hnone H;
    cbn [collect_loop_logged] in H.
  - destruct (should_collect_more_steps _ _ _); injection H as <- <-;
      apply no_new_dump_refl.
  - destruct (should_collect_more_steps _ _ _).
    2:{ injection H as <- <-. apply no_new_dump_refl. }
    unfold bind at 1 in H. unfold modify at 1 in H. cbv beta iota in H.
    set (s0 := set_num_timesteps (num_timesteps s + num_envs cfg) s) in *.
    destruct (on_step step); cbn [negb] in H.
    2:{ injection H as <- <-. subst s0. intros v Hv. exact Hv. }
    unfold bind at 1 in H.
    destruct (store_transition_frame cfg (random_draw step)
                (transition step) s0) as (Hok & Hssl & _ & Htr).
    destruct (_store_transition cfg (random_draw step) (transition step) s0)
      as [s1 r1]. cbn [fst snd] in Hok, Hssl, Htr. subst r1.
    change (ssl_replay_buffer s0) with (ssl_replay_buffer s) in Hssl.
    change (trace s0) with (trace s) in Htr.
    unfold bind at 1 in H. unfold gets at 1 in H. cbv beta iota in H.
    unfold bind at 1 in H. unfold record_ at 1, modify at 1 in H.
    cbv beta iota in H.
    set (s2 := emit _ s1) in H.
    unfold bind at 1 in H.
    destruct ((if pseudo_mode cfg && Qltb (p cfg) 1
               then ub <- attr unlabeled_replay_buffer;;
                    record_ "buffer/num_unlabeled_rewards" (size_value ub)
               else ret tt) s2) as [s3 r3] eqn:E3.
    assert (Hs3 : ssl_replay_buffer s3 = None /\ no_new_dump s s3).
    { assert (H2 : no_new_dump s s2).
      { intros v Hv. subst s2. unfold emit in Hv. cbn [trace] in Hv.
        apply in_app_or in Hv. destruct Hv as [Hv | [Hv | []]].
        - now rewrite <- Htr.
        - discriminate Hv. }
      destruct (pseudo_mode cfg && Qltb (p cfg) 1).
      - unfold bind, attr, record_, modify in E3.
        destruct (unlabeled_replay_buffer s2) eqn:Eub.
        + injection E3 as <- <-. split.
          * subst s2. unfold emit. cbn [ssl_replay_buffer]. congruence.
          * intros v Hv. unfold emit in Hv. cbn [trace] in Hv.
            apply in_app_or in Hv. destruct Hv as [Hv | [Hv | []]].
            -- now apply H2.
            -- discriminate Hv.
        + injection E3 as <- <-. split; [| exact H2].
          subst s2. unfold emit. cbn [ssl_replay_buffer]. congruence.
      - injection E3 as <- <-. split; [| exact H2].
        subst s2. unfold emit. cbn [ssl_replay_buffer]. congruence. }
    destruct Hs3 as (Hn3 & Ht3).
    destruct r3 as [[] | e3]; [| injection H as <- <-; exact Ht3].
    unfold bind at 1 in H.
    destruct (episode_ends log_interval clock (dones step) episodes number
                s3) as [s4 r4] eqn:E4.
    pose proof (@episode_ends_no_dump _ _ _ _ _ _ _ _ Hn3 E4) as Ht4.
    destruct (episode_ends_run _ _ _ _ _ _ E4)
      as ((_ & _ & _ & Hssl4 & _) & _).
    destruct r4 as [[episodes4 number4] | e4].
    2:{ injection H as <- <-. eapply no_new_dump_trans; eassumption. }
    apply IH in H; [| congruence].
    eapply no_new_dump_trans; [| exact H].
    eapply no_new_dump_trans; eassumption.
Qed.

Lemma learn_body_logged_no_dump (bk : Backend) (cfg : Config)
  (log_interval : option Z) (clock : Z -> Telemetry) (env : list EnvStep)
  (number : Z) (s s' : Algo) (r : outcome (bool * list EnvStep * Z)) :
  pseudo_mode cfg = false ->
  ssl_replay_buffer s = None ->
  learn_body_logged bk cfg log_interval clock env number s = (s', r) ->
  ssl_replay_buffer s' = None /\ no_new_dump s s'.
Proof.
  intros Hp Hnone H.
  split.
  { destruct (learn_body_logged_pass _ _ _ _ _ _ _ H) as (Hs & _).
    rewrite (Hs Hp). exact Hnone. }
  unfold learn_body_logged in H. unfold bind at 1 in H.
  destruct (collect_rollouts_logged cfg log_interval clock env number s)
    as [s1 r1] eqn:Ec.
  assert (H1 : no_new_dump s s1 /\ ssl_replay_buffer s1 = None).
  { unfold collect_rollouts_logged in Ec.
    destruct (negb _).
    - injection Ec as <- _. split; [apply no_new_dump_refl | exact Hnone].
    - destruct (_ && _).
      + injection Ec as <- _. split; [apply no_new_dump_refl | exact Hnone].
      + split; [exact (@collect_loop_logged_no_dump _ _ _ _ _ _ _ _ _ _
                         Hnone Ec) |].
        apply collect_loop_logged_frame in Ec. destruct Ec as (Hs & _).
        congruence. }
  destruct H1 as (H1 & Hn1).
  destruct r1 as [[[rollout env'] number'] | e];
    [| injection H as <- <-; exact H1].
  unfold bind at 1 in H. unfold gets at 1 in H. cbv beta iota in H.
  unfold bind at 1 in H. unfold modify at 1 in H. cbv beta iota in H.
  set (s2 := emit (Rollout (num_timesteps s1) (continue_training rollout)) s1)
    in *.
  assert (H2 : no_new_dump s s2).
  { intros v Hv. apply H1. subst s2. unfold emit in Hv. cbn [trace] in Hv.
    apply in_app_or in Hv. destruct Hv as [Hv | [Hv | []]];
      [exact Hv | discriminate Hv]. }
  destruct (negb (continue_training rollout));
    [injection H as <- <-; exact H2 |].
  unfold bind at 1 in H.
  destruct (after_rollout bk cfg rollout s2) as [s3 r3] eqn:Ea.
  destruct (after_rollout_pass _ _ _ _ Ea)
    as (_ & _ & _ & mid & trains & T3 & Hmid & Htr).
  assert (Hs' : s' = s3) by (destruct r3; now injection H).
  subst s'. eapply no_new_dump_trans; [exact H2 |].
  apply no_new_dump_app with (evs := mid ++ trains); [exact T3 |].
  intros v Hv. apply in_app_or in Hv. destruct Hv as [Hv | Hv].
  - destruct Hmid as [((Hq & _) & _) | ->]; [congruence | contradiction].
  - destruct Htr as [-> | (sz & -> & _)]; [contradiction |].
    destruct Hv as [Hv | []]. discriminate Hv.
Qed.

Lemma learn_loop_logged_no_dump (bk : Backend) (cfg : Config)
  (log_interval : option Z) (clock : Z -> Telemetry) (total_timesteps : Z)
  (fuel : nat) :
  forall env number s s' r,
    pseudo_mode cfg = false ->
    ssl_replay_buffer s = None ->
    learn_loop_logged fuel bk cfg log_interval clock total_timesteps env
      number s = (s', r) ->
    no_new_dump s s'.
Proof.
  induction fuel as [| fuel IH]; intros env number s s' r Hp Hnone H;
    cbn [learn_loop_logged] in H.
  - injection H as <- <-. apply no_new_dump_refl.
  - unfold bind at 1 in H. unfold gets at 1 in H. cbv beta iota in H.
    destruct (_ <? _)%Z; [| injection H as <- <-; apply no_new_dump_refl].
    unfold bind at 1 in H.
    destruct (learn_body_logged bk cfg log_interval clock env number s)
      as [s1 r1] eqn:Eb.
    destruct (@learn_body_logged_no_dump _ _ _ _ _ _ _ _ _ Hp Hnone Eb)
      as (Hn1 & H1).
    destruct r1 as [[[go_on env'] number'] | e];
      [| injection H as <- <-; exact H1].
    destruct go_on; [| injection H as <- <-; exact H1].
    eapply no_new_dump_trans; [exact H1 |].
    exact (IH _ _ _ _ _ Hp Hn1 H).
Qed.

(** Built with pseudo mode off, the algorithm has no pseudo-labeled store,
    and no run of [learn] on it ever dumps a log, whatever the log interval
    and however the run ends. *)
Theorem plain_learn_never_dumps_logs (bk : Backend) (cfg : Config)
  (log_interval : option Z) (clock : Z -> Telemetry) (total_timesteps : Z)
  (env : list EnvStep) (number : Z) (s : Algo) :
  pseudo_mode cfg = false ->
  _setup_model cfg = Ok s ->
  ssl_replay_buffer s = None
  /\ forall v,
      ~ In (Record_ "logger.dump" v)
           (trace (fst (learn_logged bk cfg log_interval clock
                          total_timesteps env number s))).
Proof.
  intros Hp Hs. unfold _setup_model in Hs. rewrite Hp in Hs.
  injection Hs as <-. split; [reflexivity |].
  intros v Hv. unfold learn_logged in Hv.
  destruct (learn_loop_logged _ bk cfg log_interval clock total_timesteps env
              number _) as [s' r] eqn:E.
  cbn [fst] in Hv.
  refine (@learn_loop_logged_no_dump _ _ _ _ _ _ _ _ _ _ _ Hp _ E v Hv).
  reflexivity.
Qed.

Lemma plain_learn_never_dumps_logs_witness :
  ssl_replay_buffer (Sample2.plain 0) = None.
Proof.
  destruct (@plain_learn_never_dumps_logs SpecBackend.backend
              (Sample2.plain_cfg 0 (-1)) (Some 1%Z) Sample2.clock0 2%Z
              Sample2.env_done 0%Z (Sample2.plain 0) eq_refl eq_refl)
    as (H & _).
  exact H.
Defined.
